(** * pytest-cromwell: data fixtures and workflow verification

    A shallow embedding of [pytest_cromwell.py]: the [DataFile] /
    [VcfDataFile] classes, the [Data] catalogue, the [CromwellHarness]
    and the directory context managers, with the properties of their
    natural-language specification stated and proved (or refuted) on the
    embedding.

    Conventions.
    - A [string] stands for a Python [str] whose code points are below 256.
    - Python exceptions are values of [exn]; a method that touches the disk,
      the environment or the log is a function [world -> (exn + A) * world].
    - Programs outside the repository ([diff], [gunzip], [md5], the JSON
      codec, the network, the engine) are fields of [Externals], and so is
      the dialect of [/bin/sh].
    - The module writes paths into shell command lines without quotes. A
      command line is interpreted here when the paths in it are words for
      the shell ([shell_word]); any other one is left to the engine. *)

From Stdlib Require Import ZArith Ascii String List Bool Lia.
From stdpp Require Import base decidable option list strings pretty gmap.

Local Open Scope string_scope.
Local Open Scope Z_scope.

(** ** Text primitives of the Python [str] type *)
Module Txt.

Definition LF : ascii := "010"%char.
Definition CR : ascii := "013"%char.
Definition TAB : ascii := "009"%char.
Definition DQUOTE : ascii := "034"%char.

Definition chr (c : ascii) : string := String c "".

(** [s.startswith(p)] *)
Definition startswith (p s : string) : bool := String.prefix p s.

(** [s.endswith(p)] *)
Definition endswith (p s : string) : bool :=
  String.prefix (String.rev p) (String.rev s).

(** [str.isspace] on one code point below 256. *)
Definition isspace (c : ascii) : bool :=
  let n := nat_of_ascii c in
  ((9 <=? n) && (n <=? 13) || (28 <=? n) && (n <=? 32)
   || (n =? 133) || (n =? 160))%nat.

(** [s.lstrip()] *)
Fixpoint lstrip (s : string) : string :=
  match s with
  | String c s' => if isspace c then lstrip s' else s
  | EmptyString => EmptyString
  end.

(** [s.strip()] *)
Definition strip (s : string) : string :=
  String.rev (lstrip (String.rev (lstrip s))).

(** Line boundaries of [str.splitlines] below 256, apart from CR LF. *)
Definition is_linebreak (c : ascii) : bool :=
  let n := nat_of_ascii c in
  ((10 <=? n) && (n <=? 13) || (28 <=? n) && (n <=? 30) || (n =? 133))%nat.

(** [s.splitlines(keepends=False)] *)
Fixpoint splitlines (s : string) : list string :=
  match s with
  | EmptyString => []
  | String c s' =>
      if Ascii.eqb c CR then
        match s' with
        | String c' s'' =>
            if Ascii.eqb c' LF then "" :: splitlines s'' else "" :: splitlines s'
        | EmptyString => [""]
        end
      else if is_linebreak c then "" :: splitlines s'
      else match splitlines s' with
           | [] => [chr c]
           | l :: ls => String c l :: ls
           end
  end.

(** [s.split(sep)] for a one-character separator: never empty. *)
Fixpoint split_on (sep : ascii) (s : string) : list string :=
  match s with
  | EmptyString => [""]
  | String c s' =>
      if Ascii.eqb c sep then "" :: split_on sep s'
      else match split_on sep s' with
           | [] => [chr c]
           | l :: ls => String c l :: ls
           end
  end.

(** [sep.join(parts)] *)
Fixpoint join (sep : string) (parts : list string) : string :=
  match parts with
  | [] => ""
  | [p] => p
  | p :: ps => p +:+ sep +:+ join sep ps
  end.

(** [needle in s] on strings. *)
Fixpoint contains (needle s : string) : bool :=
  startswith needle s ||
  match s with
  | EmptyString => false
  | String _ s' => contains needle s'
  end.

(** The lines a POSIX text tool reads from a file: pieces between line
    feeds, the empty piece after a final line feed not being a line. *)
Definition text_lines (s : string) : list string :=
  let ps := split_on LF s in
  match List.last ps "x" with
  | EmptyString => removelast ps
  | _ => ps
  end.

(** What such a tool writes: every line followed by a line feed. *)
Definition unlines (ls : list string) : string :=
  String.concat "" (map (fun l => l +:+ chr LF) ls).

(** [s.lower()] on code points below 256. *)
Definition lower_char (c : ascii) : ascii :=
  let n := nat_of_ascii c in
  if ((65 <=? n) && (n <=? 90) || (192 <=? n) && (n <=? 222) && negb (n =? 215))%nat
  then ascii_of_nat (n + 32) else c.

Fixpoint lower (s : string) : string :=
  match s with
  | EmptyString => EmptyString
  | String c s' => String (lower_char c) (lower s')
  end.

End Txt.

(** ** Python values, exceptions and the world the code runs in *)

(** JSON documents as [json.load] returns them (no floating point). *)
#[local] Unset Elimination Schemes.
Inductive json : Type :=
| JNull
| JBool (b : bool)
| JInt (n : Z)
| JStr (s : string)
| JList (items : list json)
| JDict (kv : list (string * json)).
#[local] Set Elimination Schemes.

(** The exceptions the module raises or lets through. *)
Inductive exn : Type :=
| AssertionError (msg : string)
| ValueError (msg : string)
| TypeError (msg : string)
| IndexError (msg : string)
| KeyError (key : string)
| AttributeError (msg : string)
| JSONDecodeError
| FileNotFoundError (path : string)
| NotADirectoryError (path : string)
| FileExistsError (msg : string)
| URLError (url : string)
| Exception_ (msg : string).

(** Physical effects, recorded in the order they happen. *)
Inductive event : Type :=
| EvWrite (path data : string)
| EvFetch (url : string)
| EvMkdir (path : string)
| EvRmtree (path : string)
| EvRun (cmd : string).

Inductive level : Type := DEBUG | INFO | WARNING.

Record world : Type := World {
  files : gmap string string;
  dirs : gset string;
  environ : gmap string string;
  cwd : string;
  tmp_next : nat;
  log : list (level * string);
  trace : list event
}.

(** A method with effects: it returns or raises, and leaves a world. *)
Definition M (A : Type) : Type := world -> (exn + A) * world.

Definition ret {A} (a : A) : M A := fun w => (inr a, w).
Definition raise {A} (e : exn) : M A := fun w => (inl e, w).
Definition bind {A B} (m : M A) (k : A -> M B) : M B :=
  fun w => match m w with
           | (inr a, w') => k a w'
           | (inl e, w') => (inl e, w')
           end.

(** [try: body finally: cleanup] *)
Definition finally {A} (body : M A) (cleanup : M unit) : M A :=
  fun w => match body w with
           | (r, w1) => match cleanup w1 with
                        | (inr _, w2) => (r, w2)
                        | (inl e, w2) => (inl e, w2)
                        end
           end.

Declare Scope py_scope.
Delimit Scope py_scope with py.
Notation "x <- m ;; k" := (bind m (fun x => k))
  (at level 100, m at next level, right associativity) : py_scope.
Notation "m ;;; k" := (bind m (fun _ => k))
  (at level 100, right associativity) : py_scope.
Local Open Scope py_scope.

Definition get_world : M world := fun w => (inr w, w).
Definition put_world (w : world) : M unit := fun _ => (inr tt, w).

(** Truth value of an optional string ([None] and [""] are false). *)
Definition truthy (o : option string) : bool :=
  match o with
  | Some (String _ _) => true
  | _ => false
  end.

(** *** [os.path] on POSIX *)
Module OsPath.

Definition SLASH : ascii := "/"%char.

Definition isabs (p : string) : bool := Txt.startswith "/" p.

(** [os.path.join(a, b)] *)
Definition join (a b : string) : string :=
  if Txt.startswith "/" b then b
  else if (bool_decide (a = "") || Txt.endswith "/" a)%bool then a +:+ b
  else a +:+ "/" +:+ b.

Fixpoint lstrip_slash (s : string) : string :=
  match s with
  | String c s' => if Ascii.eqb c SLASH then lstrip_slash s' else s
  | EmptyString => EmptyString
  end.

Definition rstrip_slash (s : string) : string :=
  String.rev (lstrip_slash (String.rev s)).

(** [os.path.dirname] *)
Definition dirname (p : string) : string :=
  match removelast (Txt.split_on SLASH p) with
  | [] => ""
  | hs => let head := Txt.join "/" hs +:+ "/" in
          if bool_decide (lstrip_slash head = "") then head else rstrip_slash head
  end.

(** The component loop of [os.path.normpath]. *)
Fixpoint norm_comps (rooted : bool) (acc comps : list string) : list string :=
  match comps with
  | [] => rev acc
  | comp :: rest =>
      if (bool_decide (comp = "") || bool_decide (comp = "."))%bool
      then norm_comps rooted acc rest
      else if bool_decide (comp = "..") then
        match acc with
        | [] => if rooted then norm_comps rooted acc rest
                else norm_comps rooted (comp :: acc) rest
        | top :: acc' => if bool_decide (top = "..")
                         then norm_comps rooted (comp :: acc) rest
                         else norm_comps rooted acc' rest
        end
      else norm_comps rooted (comp :: acc) rest
  end.

(** [os.path.normpath] *)
Definition normpath (p : string) : string :=
  if bool_decide (p = "") then "." else
  let slashes :=
    if Txt.startswith "/" p then
      if (Txt.startswith "//" p && negb (Txt.startswith "///" p))%bool then "//" else "/"
    else "" in
  let body := Txt.join "/" (norm_comps (Txt.startswith "/" p) [] (Txt.split_on SLASH p)) in
  let r := slashes +:+ body in
  if bool_decide (r = "") then "." else r.

(** [os.path.abspath] *)
Definition abspath (p : string) : M string :=
  fun w => (inr (normpath (if isabs p then p else join (cwd w) p)), w).

(** [os.path.exists] on a string path. *)
Definition exists_in (w : world) (p : string) : bool :=
  bool_decide (is_Some (files w !! p)) || bool_decide (p ∈ dirs w).

Definition exists_ (p : string) : M bool := fun w => (inr (exists_in w p), w).

(** [os.path.basename] *)
Definition basename (p : string) : string := List.last (Txt.split_on SLASH p) "".

End OsPath.

(** *** World updates *)
Definition with_files (f : gmap string string) (w : world) : world :=
  World f (dirs w) (environ w) (cwd w) (tmp_next w) (log w) (trace w).
Definition with_dirs (d : gset string) (w : world) : world :=
  World (files w) d (environ w) (cwd w) (tmp_next w) (log w) (trace w).
Definition with_cwd (c : string) (w : world) : world :=
  World (files w) (dirs w) (environ w) c (tmp_next w) (log w) (trace w).
Definition with_tmp_next (n : nat) (w : world) : world :=
  World (files w) (dirs w) (environ w) (cwd w) n (log w) (trace w).
Definition emit (ev : event) (w : world) : world :=
  World (files w) (dirs w) (environ w) (cwd w) (tmp_next w) (log w) (trace w ++ [ev]).
Definition record_log (l : level) (msg : string) (w : world) : world :=
  World (files w) (dirs w) (environ w) (cwd w) (tmp_next w) (log w ++ [(l, msg)]) (trace w).

(** [LOG.debug], [LOG.info], [LOG.warning]: the record is handed to the
    logger; which levels reach a handler is the logging framework's. *)
Definition LOG (l : level) (msg : string) : M unit :=
  fun w => (inr tt, record_log l msg w).

(** [open(path, "w").write(data)]: the file now holds [data]. *)
Definition write_file (path data : string) : M unit :=
  fun w => (inr tt, emit (EvWrite path data) (with_files (<[path := data]> (files w)) w)).

(** [open(path).read()] *)
Definition read_file (path : string) : M string :=
  fun w => match files w !! path with
           | Some data => (inr data, w)
           | None => (inl (FileNotFoundError path), w)
           end.

(** [os.environ.get(name, None)] *)
Definition environ_get (name : string) : M (option string) :=
  fun w => (inr (environ w !! name), w).

(** The directories [os.makedirs] makes sure of: the path and what is
    above it. *)
Fixpoint ancestors (fuel : nat) (p : string) : list string :=
  match fuel with
  | O => [p]
  | S fuel' =>
      let d := OsPath.dirname p in
      if (bool_decide (d = p) || bool_decide (d = ""))%bool then [p]
      else p :: ancestors fuel' d
  end.

(** The path, or a directory part of it, is a regular file. *)
Definition through_file (w : world) (p : string) : bool :=
  existsb (fun a => bool_decide (is_Some (files w !! a))) (ancestors (String.length p) p).

(** What [os.chdir] raises for a path that is no directory: [ENOTDIR] when
    the path leads to or through a regular file, [ENOENT] when nothing is
    there. *)
Definition chdir_error (w : world) (d : string) : exn :=
  if through_file w d then NotADirectoryError d else FileNotFoundError d.

(** [os.chdir] *)
Definition chdir_to (d : string) : M unit :=
  fun w => if bool_decide (d ∈ dirs w) then (inr tt, with_cwd d w)
           else (inl (chdir_error w d), w).

(** [os.makedirs(p, exist_ok=True)] *)
Definition makedirs (p : string) : M unit :=
  fun w => if bool_decide (is_Some (files w !! p)) then (inl (FileExistsError p), w)
           else (inr tt, emit (EvMkdir p)
                   (with_dirs (dirs w ∪ list_to_set (ancestors (String.length p) p)) w)).

(** [p] is [d] or lies below it. *)
Definition under (d p : string) : bool :=
  bool_decide (p = d) || Txt.startswith (d +:+ "/") p.

(** [shutil.rmtree(d)] *)
Definition rmtree (d : string) : M unit :=
  fun w => if bool_decide (d ∈ dirs w)
           then (inr tt, emit (EvRmtree d)
                   (with_dirs (filter (fun p => under d p = false) (dirs w))
                      (with_files (filter (fun kv => under d kv.1 = false) (files w)) w)))
           else (inl (FileNotFoundError d), w).

(** *** [tempfile] *)
Module Tempfile.

Definition TMP_MAX : nat := Z.to_nat 10000.

(** [tempfile.gettempdir()], taken to be [/tmp]. *)
Definition gettempdir : string := "/tmp".

(** Candidate names come from the counter of the world, where the library
    draws them at random; a name in use is skipped, [TMP_MAX] times at most. *)
Fixpoint pick_name (fuel : nat) (dir suffix : string) (n : nat) (w : world)
  : option (nat * string) :=
  match fuel with
  | O => None
  | S fuel' =>
      let file := OsPath.join dir ("tmp" +:+ pretty n +:+ suffix) in
      if OsPath.exists_in w file then pick_name fuel' dir suffix (S n) w
      else Some (S n, file)
  end.

(** [tempfile.mkstemp(suffix, dir=dir)]: creates an empty file and returns
    the pair of its descriptor and its absolute path. *)
Definition mkstemp (suffix : string) (dir : option string) : M (Z * string) :=
  fun w =>
    let d0 := default gettempdir dir in
    let d := OsPath.normpath (if OsPath.isabs d0 then d0 else OsPath.join (cwd w) d0) in
    if negb (bool_decide (d ∈ dirs w)) then (inl (FileNotFoundError d), w) else
    match pick_name TMP_MAX d suffix (tmp_next w) w with
    | None => (inl (FileExistsError "No usable temporary file name found"), w)
    | Some (n, file) =>
        (inr (3 + Z.of_nat n, file),
         with_tmp_next n (with_files (<[file := ""]> (files w)) w))
    end.

(** [tempfile.mkdtemp()] *)
Definition mkdtemp : M string :=
  fun w =>
    match pick_name TMP_MAX gettempdir "" (tmp_next w) w with
    | None => (inl (FileExistsError "No usable temporary directory name found"), w)
    | Some (n, d) => (inr d, with_tmp_next n (with_dirs (dirs w ∪ {[d]}) w))
    end.

End Tempfile.

(** [tempdir()]: context manager that creates a temporary directory, yields
    it, and deletes it after return from the yield. *)
Definition tempdir {A} (body : string -> M A) : M A :=
  temp <- Tempfile.mkdtemp ;;
  finally (body temp) (rmtree temp).

(** [chdir(todir)]: context manager that temporarily changes directories. *)
Definition chdir {A} (todir : string) (body : string -> M A) : M A :=
  w <- get_world ;;
  let curdir := cwd w in
  finally (chdir_to todir ;;; body todir) (chdir_to curdir).

(** ** Text written into a command line and read back from it

    [delegator.run] hands its command line to [/bin/sh], and the module
    writes paths into command lines as they are, without quotes. *)

(** A character that every shell hands on as it is: a letter, a digit or
    one of [+ , - . / : @ _]. *)
Definition shell_char (c : ascii) : bool :=
  let n := nat_of_ascii c in
  ((48 <=? n) && (n <=? 57) || (65 <=? n) && (n <=? 90) || (97 <=? n) && (n <=? 122)
   || existsb (Nat.eqb n) [43; 44; 45; 46; 47; 58; 64; 95])%nat.

Fixpoint all_chars (f : ascii -> bool) (s : string) : bool :=
  match s with
  | EmptyString => true
  | String c s' => f c && all_chars f s'
  end.

(** A path that reaches the command as one operand, unchanged: it is not
    empty, does not start like an option, and holds no blank, quote,
    pattern or operator character. *)
Definition shell_word (p : string) : bool :=
  match p with
  | EmptyString => false
  | String c _ => negb (Ascii.eqb c "-"%char) && all_chars shell_char p
  end.

(** A decimal digit. *)
Definition digit_of (c : ascii) : option Z :=
  let n := nat_of_ascii c in
  if ((48 <=? n) && (n <=? 57))%nat then Some (Z.of_nat (n - 48)) else None.

(** The digits after the first one; a single underscore may stand between
    two digits. *)
Fixpoint int_digits (acc : Z) (s : string) : option Z :=
  match s with
  | EmptyString => Some acc
  | String c s' =>
      match digit_of c with
      | Some d => int_digits (10 * acc + d) s'
      | None =>
          if Ascii.eqb c "_"%char then
            match s' with
            | String c' s'' =>
                match digit_of c' with
                | Some d => int_digits (10 * acc + d) s''
                | None => None
                end
            | EmptyString => None
            end
          else None
      end
  end.

(** [int(s)] on a string; [None] stands for its [ValueError]. *)
Definition py_int (s : string) : option Z :=
  let t := Txt.strip s in
  let '(neg, body) := match t with
                      | String "-"%char r => (true, r)
                      | String "+"%char r => (false, r)
                      | _ => (false, t)
                      end in
  match body with
  | String c r =>
      match digit_of c with
      | Some d => option_map (fun n => if neg then - n else n) (int_digits d r)
      | None => None
      end
  | EmptyString => None
  end.

Definition hex_nibble (n : nat) : ascii :=
  ascii_of_nat (if (n <? 10)%nat then 48 + n else 87 + n).

(** One character of [repr(s)] between the quotes [q]. *)
Definition repr_char (q c : ascii) : string :=
  let n := nat_of_ascii c in
  if (n =? 92)%nat then String c (String c "")
  else if Ascii.eqb c q then String (ascii_of_nat 92) (String c "")
  else if (n =? 9)%nat then String (ascii_of_nat 92) "t"
  else if (n =? 10)%nat then String (ascii_of_nat 92) "n"
  else if (n =? 13)%nat then String (ascii_of_nat 92) "r"
  else if ((n <? 32) || (127 <=? n) && (n <=? 160) || (n =? 173))%nat
       then String (ascii_of_nat 92)
              (String "x" (String (hex_nibble (n / 16)) (String (hex_nibble (n mod 16)) "")))
  else String c "".

Fixpoint repr_body (q : ascii) (s : string) : string :=
  match s with
  | EmptyString => EmptyString
  | String c s' => repr_char q c +:+ repr_body q s'
  end.

(** [repr(s)] of a string. *)
Definition py_repr (s : string) : string :=
  let q := if (Txt.contains "'" s && negb (Txt.contains (Txt.chr Txt.DQUOTE) s))%bool
           then Txt.DQUOTE else "'"%char in
  String q (repr_body q s +:+ String q "").

(** ** What lives outside the repository *)
Record Externals : Type := {
  (** [hashlib.md5(data).hexdigest()] *)
  md5_hexdigest : string -> string;
  (** The number printed by
      [diff -y --suppress-common-lines A B | grep '^' | wc -l],
      from the contents of [A] and [B]. *)
  diff_rows : string -> string -> nat;
  (** [gunzip -c] on the contents of a file. *)
  gunzip : string -> string;
  (** [urllib.request.urlopen] on a request with its headers and proxies:
      the body of the response, or [None] when the request fails. *)
  urlopen : string -> list (string * string) -> list (string * string) -> option string;
  (** [json.loads]; [None] when the text is not a JSON document. *)
  json_loads : string -> option json;
  (** [json.dumps] *)
  json_dumps : json -> string;
  (** [delegator.run(cmd, block=True)]: [(ok, out, err)] and what the
      command did to the world. *)
  delegator_run : string -> world -> (bool * string * string) * world;
  (** Whether [/bin/sh] reads [$'...'] as a quoted string with escapes:
      bash does, dash (the [/bin/sh] of Debian and Ubuntu) does not. *)
  ansi_c_quoting : bool
}.

(** ** The [DataFile] classes *)

(** [self._path] is a string when it comes from [path] or [url], and the
    pair returned by [tempfile.mkstemp] otherwise. *)
Inductive pathval : Type :=
| PathStr (p : string)
| PathTuple (fd : Z) (p : string).

(** The two classes of [DATA_TYPES]. *)
Inductive cls : Type := DataFileCls | VcfDataFileCls.

Record DataFile : Type := mkDataFile {
  klass : cls;
  url : option string;
  contents : option string;
  http_headers : option (list (string * string));
  proxies : option (list (string * string));
  allowed_diff_lines : Z;
  _path : pathval
}.

(** Values handed to the harness: JSON literals, data files, and lists and
    dicts of them. *)
#[local] Unset Elimination Schemes.
Inductive value : Type :=
| VJson (j : json)
| VFile (f : DataFile)
| VList (items : list value)
| VDict (kv : list (string * value)).
#[local] Set Elimination Schemes.

(** The location a [_path] designates on disk. *)
Definition target (pv : pathval) : string :=
  match pv with
  | PathStr p => p
  | PathTuple _ p => p
  end.

(** [str(self._path)] inside an f-string. *)
Definition show_pathval (pv : pathval) : string :=
  match pv with
  | PathStr p => p
  | PathTuple fd p => "(" +:+ pretty fd +:+ ", '" +:+ p +:+ "')"
  end.

(** The [os.path] functions accept a string and raise [TypeError] on a
    tuple. *)
Definition fspath (pv : pathval) : M string :=
  match pv with
  | PathStr p => ret p
  | PathTuple _ _ =>
      raise (TypeError "stat: path should be string, bytes, os.PathLike or integer, not tuple")
  end.

(** [url.rsplit("/", 1)[1]] *)
Definition url_filename (u : string) : M string :=
  match Txt.split_on OsPath.SLASH u with
  | (_ :: _ :: _) as parts => ret (List.last parts "")
  | _ => raise (IndexError "list index out of range")
  end.

(** [DataFile.__init__] (and [VcfDataFile]'s, which inherits it). *)
Definition __init__ (c : cls) (path url contents : option string) (local_dir : string)
    (http_headers proxies : option (list (string * string))) (allowed_diff_lines : Z)
  : M DataFile :=
  pv <- (if truthy path then
           let path := default "" path in
           if negb (OsPath.isabs path)
           then (a <- OsPath.abspath (OsPath.join local_dir path) ;; ret (PathStr a))
           else ret (PathStr path)
         else if truthy url then
           filename <- url_filename (default "" url) ;;
           a <- OsPath.abspath (OsPath.join local_dir filename) ;;
           ret (PathStr a)
         else
           t <- Tempfile.mkstemp "" (Some local_dir) ;;
           ret (PathTuple t.1 t.2)) ;;
  ret (mkDataFile c url contents http_headers proxies allowed_diff_lines pv).

Section Code.

Context (X : Externals).

(** [DataFile._persist] *)
Definition _persist (self : DataFile) : M unit :=
  if negb (truthy (url self) || truthy (contents self)) then
    raise (ValueError ("File " +:+ show_pathval (_path self) +:+
      " does not exist. Either a url, file contents, or a local file must be provided."))
  else
    p <- fspath (_path self) ;;
    let parent := OsPath.dirname p in
    ex <- OsPath.exists_ parent ;;
    (if negb ex then makedirs parent else ret tt) ;;;
    if truthy (url self) then
      let u := default "" (url self) in
      LOG DEBUG ("Persisting " +:+ p +:+ " from url " +:+ u) ;;;
      match urlopen X u (default [] (http_headers self)) (default [] (proxies self)) with
      | None => raise (URLError u)
      | Some body => (fun w => (inr tt, emit (EvFetch u) w)) ;;; write_file p body
      end
    else if truthy (contents self) then
      LOG DEBUG ("Persisting " +:+ p +:+ " from contents") ;;;
      write_file p (default "" (contents self))
    else ret tt.

(** The [path] property. [os.path.exists(self._path)] is the first thing
    it evaluates, so a tuple [_path] raises before anything else happens. *)
Definition path (self : DataFile) : M string :=
  p <- fspath (_path self) ;;
  ex <- OsPath.exists_ p ;;
  (if negb ex then _persist self else ret tt) ;;;
  ret p.

(** [DataFile._compare_hashes] *)
Definition _compare_hashes (file1 file2 : string) : M unit :=
  d1 <- read_file file1 ;;
  d2 <- read_file file2 ;;
  if bool_decide (md5_hexdigest X d1 = md5_hexdigest X d2) then ret tt
  else raise (AssertionError
         ("MD5 hashes differ between expected identical files " +:+ file1 +:+ ", " +:+ file2)).

(** The command line of [DataFile._diff]. *)
Definition diff_command (file1 file2 : string) : string :=
  "diff -y --suppress-common-lines " +:+ file1 +:+ " " +:+ file2 +:+ " | grep '^' | wc -l".

(** A path as [diff] receives it: the contents of the regular file it
    names, nothing when it names nothing; [None] when the path is not one
    operand, or names a directory. *)
Definition operand (w : world) (p : string) : option (option string) :=
  if negb (shell_word p) then None
  else match files w !! p with
       | Some data => Some (Some data)
       | None => if bool_decide (p ∈ dirs w) then None else Some None
       end.

(** [int] of what the engine prints for a command line. *)
Definition int_of_output (cmd : string) : M Z :=
  fun w =>
    let out := (delegator_run X cmd w).1.1.2 in
    match py_int out with
    | Some n => (inr n, w)
    | None =>
        (inl (ValueError ("invalid literal for int() with base 10: " +:+ py_repr out)), w)
    end.

(** [DataFile._diff]: [int] of what the pipeline prints. For two operands
    that name regular files [diff] reads them and [wc -l] prints the number
    of rows that [diff] wrote; when one of them names nothing [diff] writes
    nothing on its standard output and [wc -l] prints 0. Any other command
    line is the shell's to read: what it prints is the engine's answer, and
    what else it may do to the disk is not followed. *)
Definition DataFile_diff (file1 file2 : string) : M Z :=
  fun w =>
    match operand w file1, operand w file2 with
    | Some (Some a), Some (Some b) => (inr (Z.of_nat (diff_rows X a b)), w)
    | Some _, Some _ => (inr 0, w)
    | _, _ => int_of_output (diff_command file1 file2) w
    end.

(** [grep -vP '^#'] keeps the lines that do not start with [#]. *)
Definition is_comment (line : string) : bool := Txt.startswith "#" line.

(** [cut -d TAB -f 1-5] on one line. *)
Definition cut_1_5 (line : string) : string :=
  Txt.join (Txt.chr Txt.TAB) (firstn 5 (Txt.split_on Txt.TAB line)).

(** What [grep -vP '^#' | cut -d TAB -f 1-5] prints for the contents of a
    file. *)
Definition vcf_view (data : string) : string :=
  Txt.unlines (map cut_1_5 (List.filter (fun l => negb (is_comment l)) (Txt.text_lines data))).

(** The command line of [VcfDataFile._diff] for one file. The text is an
    f-string, so that the delimiter reaches the shell as a tab between
    [$'] and [']. *)
Definition vcf_command (file cmp_file : string) : string :=
  "cat " +:+ file +:+ " | grep -vP '^#' | cut -d$'" +:+ Txt.chr Txt.TAB +:+
  "' -f 1-5 > " +:+ cmp_file.

(** What that pipeline prints. A shell with ANSI-C quoting hands [cut] the
    tab as delimiter; another one hands it the two characters [$] and tab,
    [cut] refuses a delimiter of two characters and prints nothing. *)
Definition vcf_pipeline (data : string) : string :=
  if ansi_c_quoting X then vcf_view data else "".

(** What that pipeline prints for the file at a path; [cat] prints
    nothing for a file that it cannot read. *)
Definition view_of (w : world) (p : string) : string :=
  match files w !! p with
  | Some data => vcf_pipeline data
  | None => ""
  end.

(** The command line of the gzip branch of [_diff_contents] for one
    file. *)
Definition gunzip_command (file temp_file : string) : string :=
  "gunzip -c " +:+ file +:+ " > " +:+ temp_file.

(** A command line [... > dst] that is the shell's to read: [dst] is what
    the engine leaves there, and what else the command may do to the disk
    is not followed. *)
Definition left_by_engine (cmd dst : string) : M unit :=
  fun w => match files (delegator_run X cmd w).2 !! dst with
           | Some data => write_file dst data w
           | None => (inr tt, w)
           end.

(** A command line [... src ... > dst] whose [dst] is a name in a fresh
    temporary directory. When [src] is one operand and names a regular
    file, [dst] receives what the filter makes of its contents. When [src]
    is one operand and names no regular file, [dst] receives [missing] if
    the command then prints a known text ([cat] prints nothing), and the
    command line is left to the engine otherwise ([gunzip] goes on to look
    for the name with a suffix), as is every other command line. *)
Definition redirect (cmd : string) (filter : string -> string) (missing : option string)
    (src dst : string) : M unit :=
  fun w =>
    if shell_word src then
      match files w !! src, missing with
      | Some data, _ => write_file dst (filter data) w
      | None, Some text => write_file dst text w
      | None, None => left_by_engine cmd dst w
      end
    else left_by_engine cmd dst w.

(** [cls._diff] *)
Definition _diff (c : cls) (file1 file2 : string) : M Z :=
  match c with
  | DataFileCls => DataFile_diff file1 file2
  | VcfDataFileCls =>
      tempdir (fun temp =>
        let cmp_file1 := OsPath.join temp "file1" in
        let cmp_file2 := OsPath.join temp "file2" in
        redirect (vcf_command file1 cmp_file1) vcf_pipeline (Some "") file1 cmp_file1 ;;;
        redirect (vcf_command file2 cmp_file2) vcf_pipeline (Some "") file2 cmp_file2 ;;;
        DataFile_diff cmp_file1 cmp_file2)
  end.

(** [DataFile._diff_contents] *)
Definition _diff_contents (c : cls) (file1 file2 : string) (allowed_diff_lines : Z) : M unit :=
  diff_lines <-
    (if Txt.endswith ".gz" file1 then
       tempdir (fun temp =>
         let temp_file1 := OsPath.join temp "file1" in
         let temp_file2 := OsPath.join temp "file2" in
         redirect (gunzip_command file1 temp_file1) (gunzip X) None file1 temp_file1 ;;;
         redirect (gunzip_command file2 temp_file2) (gunzip X) None file2 temp_file2 ;;;
         _diff c temp_file1 temp_file2)
     else _diff c file1 file2) ;;
  if diff_lines >? allowed_diff_lines then
    raise (AssertionError
      (pretty diff_lines +:+ " lines (which is > " +:+ pretty allowed_diff_lines +:+
       " allowed) are different between files " +:+ file1 +:+ ", " +:+ file2))
  else ret tt.

(** [cls._assert_contents_equal]: [VcfDataFile] overrides it. *)
Definition _assert_contents_equal (c : cls) (file1 file2 : string) (allowed_diff_lines : Z)
  : M unit :=
  match c with
  | DataFileCls =>
      if negb (allowed_diff_lines =? 0) then _diff_contents c file1 file2 allowed_diff_lines
      else _compare_hashes file1 file2
  | VcfDataFileCls => _diff_contents c file1 file2 allowed_diff_lines
  end.

(** [DataFile.assert_contents_equal] *)
Definition assert_contents_equal (self : DataFile) (other : value) : M unit :=
  let allowed := allowed_diff_lines self in
  oa <- match other with
        | VJson (JStr s) => ret (s, allowed)
        | VFile o =>
            other_path <- path o ;;
            ret (other_path, Z.max allowed (allowed_diff_lines o))
        | _ => raise (AttributeError "object has no attribute 'path'")
        end ;;
  self_path <- path self ;;
  _assert_contents_equal (klass self) self_path oa.1 oa.2.

End Code.

(** ** A reference [diff]

    GNU [diff -y --suppress-common-lines] aligns the two files along a
    common subsequence of their lines and prints one row per changed,
    deleted or inserted line: inside a run of differing lines the deleted
    and the inserted lines are paired on one row ([old | new]), the
    remaining ones get a row each ([old <] or [> new]); common lines are
    not printed. [Sdiff.count] is that number of rows for the alignment
    along a longest common subsequence. *)
Module Sdiff.

Inductive op : Type := Keep | Del | Ins.

(** Length of a longest common subsequence. *)
Fixpoint lcs (a : list string) : list string -> nat :=
  fix inner (b : list string) : nat :=
    match a, b with
    | x :: a', y :: b' =>
        if String.eqb x y then S (lcs a' b')
        else Nat.max (lcs a' b) (inner b')
    | _, _ => 0%nat
    end.

(** The edit script along it. *)
Fixpoint script (a : list string) : list string -> list op :=
  fix inner (b : list string) : list op :=
    match a, b with
    | [], _ => map (fun _ => Ins) b
    | _, [] => map (fun _ => Del) a
    | x :: a', y :: b' =>
        if String.eqb x y then Keep :: script a' b'
        else if (lcs a b' <=? lcs a' b)%nat then Del :: script a' b
        else Ins :: inner b'
    end.

(** Rows printed for a script: [d] deleted and [i] inserted lines are
    pending in the current run. *)
Fixpoint rows (d i : nat) (s : list op) : nat :=
  match s with
  | [] => Nat.max d i
  | Keep :: s' => (Nat.max d i + rows 0 0 s')%nat
  | Del :: s' => rows (S d) i s'
  | Ins :: s' => rows d (S i) s'
  end.

Definition count (a b : string) : nat :=
  rows 0 0 (script (Txt.split_on Txt.LF a) (Txt.split_on Txt.LF b)).

End Sdiff.

(** Follows the words of the specification, for comparison with the code:
    the number of lines present in one file but not the other, that is the
    size of the symmetric difference of the two files' line sets. *)
Definition spec_symmetric_difference (a b : string) : nat :=
  let la : gset string := list_to_set (Txt.text_lines a) in
  let lb : gset string := list_to_set (Txt.text_lines b) in
  size ((la ∖ lb) ∪ (lb ∖ la)).

(** ** Python dicts read from JSON, as association lists with unique keys *)

Fixpoint assoc {A} (k : string) (kv : list (string * A)) : option A :=
  match kv with
  | [] => None
  | (k', v) :: rest => if String.eqb k k' then Some v else assoc k rest
  end.

Fixpoint assoc_remove {A} (k : string) (kv : list (string * A)) : list (string * A) :=
  match kv with
  | [] => []
  | (k', v) :: rest =>
      if String.eqb k k' then assoc_remove k rest else (k', v) :: assoc_remove k rest
  end.

(** [d[k] = v]: in place when the key is there, at the end otherwise. *)
Fixpoint assoc_set {A} (k : string) (v : A) (kv : list (string * A)) : list (string * A) :=
  match kv with
  | [] => [(k, v)]
  | (k', v') :: rest =>
      if String.eqb k k' then (k, v) :: rest else (k', v') :: assoc_set k v rest
  end.

(** Python's [==] on JSON values: [True == 1], and dicts compare without
    regard to order. *)
Fixpoint json_eqb (a b : json) {struct a} : bool :=
  match a, b with
  | JNull, JNull => true
  | JBool x, JBool y => Bool.eqb x y
  | JBool x, JInt y => (if x then 1 else 0) =? y
  | JInt x, JBool y => x =? (if y then 1 else 0)
  | JInt x, JInt y => x =? y
  | JStr x, JStr y => String.eqb x y
  | JList xs, JList ys =>
      (fix go (xs ys : list json) : bool :=
         match xs, ys with
         | [], [] => true
         | x :: xs', y :: ys' => json_eqb x y && go xs' ys'
         | _, _ => false
         end) xs ys
  | JDict xs, JDict ys =>
      (length xs =? length ys)%nat &&
      (fix go (xs : list (string * json)) : bool :=
         match xs with
         | [] => true
         | (k, v) :: xs' =>
             match assoc k ys with
             | Some v' => json_eqb v v'
             | None => false
             end && go xs'
         end) xs
  | _, _ => false
  end.

(** [expected == output] for an expected value that may hold data files:
    a [DataFile] object has no [__eq__] and equals no JSON value. *)
Fixpoint value_eqb (a : value) (b : json) {struct a} : bool :=
  match a, b with
  | VJson j, _ => json_eqb j b
  | VFile _, _ => false
  | VList xs, JList ys =>
      (fix go (xs : list value) (ys : list json) : bool :=
         match xs, ys with
         | [], [] => true
         | x :: xs', y :: ys' => value_eqb x y && go xs' ys'
         | _, _ => false
         end) xs ys
  | VDict xs, JDict ys =>
      (length xs =? length ys)%nat &&
      (fix go (xs : list (string * value)) : bool :=
         match xs with
         | [] => true
         | (k, v) :: xs' =>
             match assoc k ys with
             | Some v' => value_eqb v v'
             | None => false
             end && go xs'
         end) xs
  | _, _ => false
  end.

(** The number that a JSON value is in a comparison: [True] and [False]
    count as 1 and 0. *)
Definition as_number (j : json) : option Z :=
  match j with
  | JBool b => Some (if b then 1 else 0)
  | JInt n => Some n
  | _ => None
  end.

(** Python's [==] on values read from JSON, as a relation: numbers are
    equal by value, strings and [None] when they are the same, lists
    element by element, dicts when they have as many keys and every key of
    the one is bound in the other to an equal value. *)
#[local] Unset Elimination Schemes.
Inductive py_equal : json -> json -> Prop :=
| py_equal_null : py_equal JNull JNull
| py_equal_number (a b : json) (n : Z) :
    as_number a = Some n -> as_number b = Some n -> py_equal a b
| py_equal_str (s : string) : py_equal (JStr s) (JStr s)
| py_equal_list (xs ys : list json) :
    Forall2 py_equal xs ys -> py_equal (JList xs) (JList ys)
| py_equal_dict (xs ys : list (string * json)) :
    length xs = length ys ->
    (forall k v, In (k, v) xs -> exists v', assoc k ys = Some v' /\ py_equal v v') ->
    py_equal (JDict xs) (JDict ys).

(** [expected == output] for an expected value that may hold data files:
    a data file equals nothing. *)
Inductive value_equal : value -> json -> Prop :=
| value_equal_json (j b : json) : py_equal j b -> value_equal (VJson j) b
| value_equal_list (xs : list value) (ys : list json) :
    Forall2 value_equal xs ys -> value_equal (VList xs) (JList ys)
| value_equal_dict (xs : list (string * value)) (ys : list (string * json)) :
    length xs = length ys ->
    (forall k v, In (k, v) xs -> exists v', assoc k ys = Some v' /\ value_equal v v') ->
    value_equal (VDict xs) (JDict ys).
#[local] Set Elimination Schemes.

(** [key in obj] *)
Definition py_in (key : string) (obj : json) : exn + bool :=
  match obj with
  | JDict kv => inr (bool_decide (is_Some (assoc key kv)))
  | JList items => inr (existsb (json_eqb (JStr key)) items)
  | JStr s => inr (Txt.contains key s)
  | _ => inl (TypeError "argument is not iterable")
  end.

(** [obj[key]] for a string key. *)
Definition py_getitem (obj : json) (key : string) : exn + json :=
  match obj with
  | JDict kv => match assoc key kv with
                | Some v => inr v
                | None => inl (KeyError key)
                end
  | JList _ => inl (TypeError "list indices must be integers or slices, not str")
  | JStr _ => inl (TypeError "string indices must be integers")
  | _ => inl (TypeError "object is not subscriptable")
  end.

Definition lift {A} (r : exn + A) : M A := fun w => (r, w).

(** ** The [Data] catalogue *)

Record Data : Type := mkData {
  data_dir : string;
  data_http_headers : option (list (string * string));
  data_proxies : option (list (string * string));
  _values : gmap string value;
  _data : list (string * json)
}.

(** [DATA_TYPES[type]] *)
Definition DATA_TYPES (ty : json) : exn + cls :=
  match ty with
  | JStr "vcf" => inr VcfDataFileCls
  | JStr "default" => inr DataFileCls
  | JStr s => inl (KeyError s)
  | JList _ | JDict _ => inl (TypeError "unhashable type")
  | JNull => inl (KeyError "None")
  | JBool b => inl (KeyError (if b then "True" else "False"))
  | JInt n => inl (KeyError (pretty n))
  end.

(** A keyword argument that holds a string or [None]. The manifest is taken
    to be well typed; a value of another type is reported here, where Python
    would fail at its first use. *)
Definition kw_string (k : string) (kv : list (string * json)) : exn + option string :=
  match assoc k kv with
  | None | Some JNull => inr None
  | Some (JStr s) => inr (Some s)
  | Some _ => inl (TypeError ("bad type for argument " +:+ k))
  end.

Definition kw_int (k : string) (dflt : Z) (kv : list (string * json)) : exn + Z :=
  match assoc k kv with
  | None => inr dflt
  | Some (JInt n) => inr n
  | Some _ => inl (TypeError ("bad type for argument " +:+ k))
  end.

Definition init_keywords : list string := ["path"; "url"; "contents"; "allowed_diff_lines"].

(** [data_file_class(local_dir=..., http_headers=..., proxies=..., **value)] *)
Definition construct (c : cls) (local_dir : string)
    (headers proxies : option (list (string * string))) (kv : list (string * json))
  : M DataFile :=
  match List.find (fun e => negb (bool_decide (e.1 ∈ init_keywords))) kv with
  | Some (k, _) =>
      if bool_decide (k ∈ ["local_dir"; "http_headers"; "proxies"])
      then raise (TypeError ("__init__() got multiple values for keyword argument '" +:+ k +:+ "'"))
      else raise (TypeError ("__init__() got an unexpected keyword argument '" +:+ k +:+ "'"))
  | None =>
      path <- lift (kw_string "path" kv) ;;
      url <- lift (kw_string "url" kv) ;;
      contents <- lift (kw_string "contents" kv) ;;
      allowed <- lift (kw_int "allowed_diff_lines" 0 kv) ;;
      __init__ c path url contents local_dir headers proxies allowed
  end.

(** [Data.__getitem__]. The catalogue is a mutable object: the function
    returns it as the call leaves it, also when the call raises. *)
Definition Data_getitem (name : string) (self : Data) (w : world)
  : (exn + value) * Data * world :=
  match _values self !! name with
  | Some v => (inr v, self, w)
  | None =>
      match assoc name (_data self) with
      | None => (inl (ValueError ("Unrecognized name " +:+ name)), self, w)
      | Some (JDict kv) =>
          (* value.pop("type", "default"): [value] is the dict stored in
             [self._data], so the key leaves the stored descriptor *)
          let ty := default (JStr "default") (assoc "type" kv) in
          let kv' := assoc_remove "type" kv in
          let self1 := mkData (data_dir self) (data_http_headers self) (data_proxies self)
                              (_values self) (assoc_set name (JDict kv') (_data self)) in
          match DATA_TYPES ty with
          | inl e => (inl e, self1, w)
          | inr c =>
              match construct c (data_dir self) (data_http_headers self)
                              (data_proxies self) kv' w with
              | (inl e, w') => (inl e, self1, w')
              | (inr f, w') =>
                  (inr (VFile f),
                   mkData (data_dir self) (data_http_headers self) (data_proxies self)
                          (<[name := VFile f]> (_values self)) (_data self1),
                   w')
              end
          end
      | Some v =>
          (inr (VJson v),
           mkData (data_dir self) (data_http_headers self) (data_proxies self)
                  (<[name := VJson v]> (_values self)) (_data self),
           w)
      end
  end.

(** ** The directory context manager *)

(** [_test_dir(envar, project_root)], with the body of the [with] statement
    as an argument. *)
Definition _test_dir {A} (envar project_root : string) (body : string -> M A) : M A :=
  test_dir <- environ_get envar ;;
  sel <- (if negb (truthy test_dir) then
            d <- Tempfile.mkdtemp ;;
            ret (d, true)
          else
            let test_dir := default "" test_dir in
            d <- (if negb (OsPath.isabs test_dir)
                  then OsPath.abspath (OsPath.join project_root test_dir)
                  else ret test_dir) ;;
            ex <- OsPath.exists_ d ;;
            (if negb ex then makedirs d else ret tt) ;;;
            ret (d, false)) ;;
  let test_dir := sel.1 in
  let cleanup := sel.2 in
  finally (body test_dir) (if cleanup then rmtree test_dir else ret tt).

(** ** The Cromwell harness *)

Record CromwellHarness : Type := mkHarness {
  java_bin : string;
  cromwell_jar : string;
  project_root : string;
  import_paths : option (list string)
}.

(** The keyword arguments of [run_workflow]. *)
Record kwargs : Type := mkKwargs {
  execution_dir : option string;
  inputs_file : option string;
  imports_file : option string;
  java_args : option string;
  cromwell_args : option string
}.

(** [CromwellHarness._get_path] *)
Definition _get_path (self : CromwellHarness) (path : string) : string :=
  if negb (OsPath.isabs path) then OsPath.join (project_root self) path else path.

Definition outputs_marker : string :=
  Txt.chr Txt.DQUOTE +:+ "outputs" +:+ Txt.chr Txt.DQUOTE +:+ ":".

(** The [for i, line in enumerate(lines)] loop of [get_cromwell_outputs]:
    [todo] is what is left of [lines] from index [i] on. The result is
    [(start, end)] at the [break], and the exception otherwise. *)
Fixpoint scan_outputs (lines todo : list string) (i : nat) (start : option nat)
  : exn + (nat * nat) :=
  match todo with
  | [] => inl (AssertionError "No outputs JSON found in Cromwell stdout")
  | line :: todo' =>
      if String.eqb line "{" then
        match lines !! S i with
        | None => inl (IndexError "list index out of range")
        | Some next =>
            if Txt.startswith outputs_marker (Txt.lstrip next)
            then scan_outputs lines todo' (S i) (Some i)
            else scan_outputs lines todo' (S i) start
        end
      else
        match start with
        | Some s => if String.eqb line "}" then inr (s, i)
                    else scan_outputs lines todo' (S i) start
        | None => scan_outputs lines todo' (S i) start
        end
  end.

(** [lines[start:(end + 1)]] *)
Definition slice (lines : list string) (start stop : nat) : list string :=
  take (stop - start) (drop start lines).

Section Harness.

Context (X : Externals).

(** [CromwellHarness.get_cromwell_outputs] *)
Definition get_cromwell_outputs (output : string) : exn + json :=
  let lines := Txt.splitlines output in
  match scan_outputs lines lines 0 None with
  | inl e => inl e
  | inr (start, end_) =>
      match json_loads X (Txt.join (Txt.chr Txt.LF) (slice lines start (end_ + 1))) with
      | None => inl JSONDecodeError
      | Some doc => py_getitem doc "outputs"
      end
  end.

(** What [json.dump(obj, default=str)] makes of a value: [str] of a
    [DataFile] is its [path]. *)
Fixpoint jsonify (v : value) : M json :=
  match v with
  | VJson j => ret j
  | VFile f => p <- path X f ;; ret (JStr p)
  | VList items =>
      js <- (fix go (l : list value) : M (list json) :=
               match l with
               | [] => ret []
               | x :: xs => j <- jsonify x ;; js <- go xs ;; ret (j :: js)
               end) items ;;
      ret (JList js)
  | VDict kv =>
      js <- (fix go (l : list (string * value)) : M (list (string * json)) :=
               match l with
               | [] => ret []
               | (k, x) :: xs => j <- jsonify x ;; js <- go xs ;; ret ((k, j) :: js)
               end) kv ;;
      ret (JDict js)
  end.

(** [json.dumps(obj, default=str)] *)
Definition dumps_default_str (v : value) : M string :=
  j <- jsonify v ;;
  ret (json_dumps X j).

(** Lines 313-321 and 323-331: the file to use, and whether to write it. *)
Definition choose_file (given : option string) (suffix : string) : M (bool * string) :=
  match given with
  | Some f =>
      file <- OsPath.abspath f ;;
      ex <- OsPath.exists_ file ;;
      if ex then ret (false, file)
      else makedirs (OsPath.dirname file) ;;; ret (true, file)
  | None =>
      t <- Tempfile.mkstemp suffix None ;;
      ret (true, t.2)
  end.

(** The generator of lines 338-344. *)
Fixpoint qualify_inputs (workflow_name : string) (inputs : list (string * value))
  : M (list (string * value)) :=
  match inputs with
  | [] => ret []
  | (key, v) :: rest =>
      v' <- match v with
            | VFile f => p <- path X f ;; ret (VJson (JStr p))
            | _ => ret v
            end ;;
      rest' <- qualify_inputs workflow_name rest ;;
      ret ((workflow_name +:+ "." +:+ key, v') :: rest')
  end.

(** Lines 337-349: the inputs are written, or read back from the file. *)
Definition make_inputs (write_inputs : bool) (inputs_file workflow_name : string)
    (inputs : list (string * value)) : M value :=
  if write_inputs then
    kv <- qualify_inputs workflow_name inputs ;;
    let cromwell_inputs := VDict kv in
    text <- dumps_default_str cromwell_inputs ;;
    write_file inputs_file text ;;;
    ret cromwell_inputs
  else
    text <- read_file inputs_file ;;
    match json_loads X text with
    | Some doc => ret (VJson doc)
    | None => raise JSONDecodeError
    end.

(** [delegator.run(cmd, block=True)] *)
Definition run (cmd : string) : M (bool * string * string) :=
  fun w => match delegator_run X cmd (emit (EvRun cmd) w) with
           | (r, w') => (inr r, w')
           end.

(** Lines 351-364: the imports archive. *)
Definition make_imports (self : CromwellHarness) (write_imports : bool) (imports_file : string)
  : M string :=
  match import_paths self with
  | Some ((_ :: _) as paths) =>
      if write_imports then
        let imports :=
          Txt.join " " (map (fun p => OsPath.join (OsPath.join (project_root self) p) "*.wdl") paths) in
        LOG INFO ("Writing imports " +:+ imports +:+ " to zip file " +:+ imports_file) ;;;
        exe <- run ("zip -j - " +:+ imports +:+ " > " +:+ imports_file) ;;
        if negb exe.1.1 then
          raise (Exception_ ("Error creating imports zip file; stdout=" +:+ exe.1.2 +:+
                             "; stderr=" +:+ exe.2))
        else ret ("-p " +:+ imports_file)
      else ret ""
  | _ => ret ""
  end.

(** Lines 383-390: every expected output is looked up and compared. *)
Fixpoint check_expected (workflow_name : string) (outputs : json)
    (expected : list (string * value)) : M unit :=
  match expected with
  | [] => ret tt
  | (name, expected_value) :: rest =>
      let key := workflow_name +:+ "." +:+ name in
      present <- lift (py_in key outputs) ;;
      if negb present then
        raise (AssertionError ("Workflow did not generate output " +:+ key))
      else
        out <- lift (py_getitem outputs key) ;;
        match expected_value with
        | VFile f => assert_contents_equal X f (VJson out)
        | _ => if value_eqb expected_value out then ret tt else raise (AssertionError "")
        end ;;;
        check_expected workflow_name outputs rest
  end.

(** The command line of lines 366-370. *)
Definition command_line (self : CromwellHarness) (java_args cromwell_args inputs_file
    imports_zip_arg wdl_path : string) : string :=
  java_bin self +:+ " -Ddocker.hash-lookup.enabled=false -jar " +:+ java_args +:+
  " " +:+ cromwell_jar self +:+ " run " +:+ cromwell_args +:+ " -i " +:+ inputs_file +:+
  " " +:+ imports_zip_arg +:+ " " +:+ wdl_path.

(** [CromwellHarness.run_workflow], lines 306-374: everything up to the
    command line and the log record that announces it. *)
Definition prepare (self : CromwellHarness) (wdl_script workflow_name : string)
    (inputs : list (string * value)) (kw : kwargs) : M string :=
  match execution_dir kw with
  | Some d =>
      LOG WARNING ("Parameter execution_dir is deprecated and will be removed. Use " +:+
                   "the `chdir` context manager instead.") ;;;
      chdir_to d
  | None => ret tt
  end ;;;
  wi <- choose_file (inputs_file kw) ".json" ;;
  wm <- choose_file (imports_file kw) ".zip" ;;
  let java_args := default "" (java_args kw) in
  let cromwell_args := default "" (cromwell_args kw) in
  let wdl_path := _get_path self wdl_script in
  cromwell_inputs <- make_inputs wi.1 wi.2 workflow_name inputs ;;
  imports_zip_arg <- make_imports self wm.1 wm.2 ;;
  let cmd := command_line self java_args cromwell_args wi.2 imports_zip_arg wdl_path in
  shown <- dumps_default_str cromwell_inputs ;;
  LOG INFO ("Executing cromwell command '" +:+ cmd +:+ "' with inputs " +:+ shown) ;;;
  ret cmd.

(** [CromwellHarness.run_workflow] *)
Definition run_workflow (self : CromwellHarness) (wdl_script workflow_name : string)
    (inputs expected : list (string * value)) (kw : kwargs) : M unit :=
  cmd <- prepare self wdl_script workflow_name inputs kw ;;
  exe <- run cmd ;;
  if negb exe.1.1 then
    raise (Exception_ ("Cromwell command failed; stdout=" +:+ exe.1.2 +:+
                       "; stderr=" +:+ exe.2))
  else
    outputs <- lift (get_cromwell_outputs exe.1.2) ;;
    check_expected workflow_name outputs expected.

End Harness.

(** ** Construction of the harness, deprecated entry points, fixtures *)

(** [_deprecated(f)]: the wrapper logs a warning, calls [f] and drops
    what [f] returns. *)
Definition _deprecated {A} (name : string) (f : M A) : M unit :=
  LOG WARNING ("Function/method " +:+ name +:+ " is deprecated and will be removed") ;;;
  f ;;; ret tt.

(** [CromwellHarness.__init__] *)
Definition CromwellHarness_init (project_root : string) (import_paths_file : option string)
    (java_bin cromwell_jar_file : string) : M CromwellHarness :=
  root <- OsPath.abspath project_root ;;
  let self := mkHarness java_bin cromwell_jar_file root None in
  if truthy import_paths_file then
    text <- read_file (default "" import_paths_file) ;;
    ret (mkHarness java_bin cromwell_jar_file root
           (Some (map (_get_path self) (Txt.splitlines text))))
  else ret self.


Module Fixtures.

(** [project_root(request)], from [request.fspath]. *)
Definition project_root (fspath : string) : M string :=
  OsPath.abspath (OsPath.join (OsPath.dirname fspath) "../..").

Definition test_data_file : string := "tests/test_data.json".

(** [test_data_dir] and [test_execution_dir]: the scope is what runs
    between the set-up and the tear-down of the fixture. *)
Definition test_data_dir {A} (project_root : string) (scope : string -> M A) : M A :=
  _test_dir "TEST_DATA_DIR" project_root scope.

Definition test_execution_dir {A} (project_root : string) (scope : string -> M A) : M A :=
  _test_dir "TEST_EXECUTION_DIR" project_root scope.

(** The loop of [_env_map]; [env_map] is the dict built so far. *)
Fixpoint _env_map_loop (items env_map : list (string * string)) : M (list (string * string)) :=
  match items with
  | [] => ret env_map
  | (name, ev) :: rest =>
      value <- environ_get ev ;;
      _env_map_loop rest
        (if truthy value then assoc_set name (default "" value) env_map else env_map)
  end.

Definition _env_map (key_env_map : list (string * string)) : M (list (string * string)) :=
  _env_map_loop key_env_map [].

Definition http_header_map : list (string * string) := [("X-JFrog-Art-Api", "TOKEN")].
Definition http_headers : M (list (string * string)) := _env_map http_header_map.

Definition proxy_map : list (string * string) :=
  [("http", "HTTP_PROXY"); ("https", "HTTPS_PROXY")].
Definition proxies : M (list (string * string)) := _env_map proxy_map.

Definition import_paths : option string := None.

(** [java_bin()] *)
Definition java_bin : M string :=
  home <- environ_get "JAVA_HOME" ;;
  a <- OsPath.abspath (default "/usr" home) ;;
  ret (OsPath.join (OsPath.join a "bin") "java").

(** [cromwell_jar_file()] *)
Definition cromwell_jar_file : M string :=
  jar <- environ_get "CROMWELL_JAR" ;;
  match jar with
  | Some v => ret v
  | None =>
      classpath <- environ_get "CLASSPATH" ;;
      if truthy classpath then
        match List.find (fun path => Txt.startswith "cromwell" (Txt.lower (OsPath.basename path)))
                        (Txt.split_on ":" (default "" classpath)) with
        | Some path => ret path
        | None => ret "cromwell.jar"
        end
      else ret "cromwell.jar"
  end.

(** [cromwell_harness(project_root, import_paths, java_bin, cromwell_jar_file)] *)
Definition cromwell_harness (project_root : string) (import_paths : option string)
    (java_bin cromwell_jar_file : string) : M CromwellHarness :=
  CromwellHarness_init project_root import_paths java_bin cromwell_jar_file.

Section Runner.
Context (X : Externals).

(** [workflow_runner(cromwell_harness, test_execution_dir)], applied to the
    arguments of [_run_workflow]. *)
Definition workflow_runner (cromwell_harness : CromwellHarness) (test_execution_dir : string)
    (wdl_script workflow_name : string) (inputs expected : list (string * value)) : M unit :=
  chdir test_execution_dir (fun _ =>
    run_workflow X cromwell_harness wdl_script workflow_name inputs expected
      (mkKwargs None None None None None)).

End Runner.

End Fixtures.

(** ** A reference environment

    The theorems below hold for every [Externals]. To run the code on
    concrete inputs the externals are instantiated here: MD5 as RFC 1321
    defines it, the JSON codec on the documents [json] can hold, the
    reference [diff] above, no network and no gzip archive. *)

Module MD5.

Definition K : list Z := [
    0xd76aa478; 0xe8c7b756; 0x242070db; 0xc1bdceee; 0xf57c0faf; 0x4787c62a; 0xa8304613; 0xfd469501;
    0x698098d8; 0x8b44f7af; 0xffff5bb1; 0x895cd7be; 0x6b901122; 0xfd987193; 0xa679438e; 0x49b40821;
    0xf61e2562; 0xc040b340; 0x265e5a51; 0xe9b6c7aa; 0xd62f105d; 0x02441453; 0xd8a1e681; 0xe7d3fbc8;
    0x21e1cde6; 0xc33707d6; 0xf4d50d87; 0x455a14ed; 0xa9e3e905; 0xfcefa3f8; 0x676f02d9; 0x8d2a4c8a;
    0xfffa3942; 0x8771f681; 0x6d9d6122; 0xfde5380c; 0xa4beea44; 0x4bdecfa9; 0xf6bb4b60; 0xbebfbc70;
    0x289b7ec6; 0xeaa127fa; 0xd4ef3085; 0x04881d05; 0xd9d4d039; 0xe6db99e5; 0x1fa27cf8; 0xc4ac5665;
    0xf4292244; 0x432aff97; 0xab9423a7; 0xfc93a039; 0x655b59c3; 0x8f0ccc92; 0xffeff47d; 0x85845dd1;
    0x6fa87e4f; 0xfe2ce6e0; 0xa3014314; 0x4e0811a1; 0xf7537e82; 0xbd3af235; 0x2ad7d2bb; 0xeb86d391 ].

Definition R : list Z := [
    7; 12; 17; 22; 7; 12; 17; 22; 7; 12; 17; 22; 7; 12; 17; 22;
    5; 9; 14; 20; 5; 9; 14; 20; 5; 9; 14; 20; 5; 9; 14; 20;
    4; 11; 16; 23; 4; 11; 16; 23; 4; 11; 16; 23; 4; 11; 16; 23;
    6; 10; 15; 21; 6; 10; 15; 21; 6; 10; 15; 21; 6; 10; 15; 21 ].

Definition w32 (x : Z) : Z := x mod 2 ^ 32.
Definition not32 (x : Z) : Z := 2 ^ 32 - 1 - x.
Definition rotl (x c : Z) : Z := Z.lor (w32 (Z.shiftl x c)) (Z.shiftr x (32 - c)).

(** Little-endian bytes of a word of [n] bytes. *)
Fixpoint le_bytes (n : nat) (x : Z) : list Z :=
  match n with
  | O => []
  | S n' => x mod 256 :: le_bytes n' (x / 256)
  end.

Fixpoint le_word (bs : list Z) : Z :=
  match bs with
  | [] => 0
  | b :: bs' => b + 256 * le_word bs'
  end.

(** The message, a 1 bit, zeros up to 56 modulo 64, the bit length. *)
Definition pad (msg : list Z) : list Z :=
  let n := Z.of_nat (length msg) in
  msg ++ [128] ++ repeat 0 (Z.to_nat ((55 - n) mod 64)) ++ le_bytes 8 (w32 (8 * n) + 2 ^ 32 * ((8 * n / 2 ^ 32) mod 2 ^ 32)).

Fixpoint words (n : nat) (bs : list Z) : list Z :=
  match n with
  | O => []
  | S n' => le_word (firstn 4 bs) :: words n' (skipn 4 bs)
  end.

Definition step (m : list Z) (st : Z * Z * Z * Z) (i : nat) : Z * Z * Z * Z :=
  let '(a, b, c, d) := st in
  let iz := Z.of_nat i in
  let '(f, g) :=
    if iz <? 16 then (Z.lor (Z.land b c) (Z.land (not32 b) d), iz)
    else if iz <? 32 then (Z.lor (Z.land d b) (Z.land (not32 d) c), (5 * iz + 1) mod 16)
    else if iz <? 48 then (Z.lxor b (Z.lxor c d), (3 * iz + 5) mod 16)
    else (Z.lxor c (Z.lor b (not32 d)), (7 * iz) mod 16) in
  let f' := w32 (f + a + nth i K 0 + nth (Z.to_nat g) m 0) in
  (d, w32 (b + rotl f' (nth i R 0)), b, c).

Definition block (st : Z * Z * Z * Z) (bs : list Z) : Z * Z * Z * Z :=
  let m := words 16 bs in
  let '(a, b, c, d) := st in
  let '(a', b', c', d') := fold_left (step m) (seq 0 64) st in
  (w32 (a + a'), w32 (b + b'), w32 (c + c'), w32 (d + d')).

Fixpoint blocks (n : nat) (st : Z * Z * Z * Z) (bs : list Z) : Z * Z * Z * Z :=
  match n with
  | O => st
  | S n' => blocks n' (block st (firstn 64 bs)) (skipn 64 bs)
  end.

Definition hex_digit (n : Z) : ascii :=
  nth (Z.to_nat n) (list_ascii_of_string "0123456789abcdef") "0"%char.

Definition hex_byte (b : Z) : string :=
  String (hex_digit (b / 16)) (String (hex_digit (b mod 16)) "").

(** [hashlib.md5(data).hexdigest()] *)
Definition hexdigest (data : string) : string :=
  let msg := pad (map (fun c => Z.of_nat (nat_of_ascii c)) (list_ascii_of_string data)) in
  let '(a, b, c, d) :=
    blocks (length msg / 64) (0x67452301, 0xefcdab89, 0x98badcfe, 0x10325476) msg in
  String.concat "" (map hex_byte (le_bytes 4 a ++ le_bytes 4 b ++ le_bytes 4 c ++ le_bytes 4 d)).

End MD5.

Module Json.

Definition escape_char (c : ascii) : string :=
  let n := nat_of_ascii c in
  if (n =? 34)%nat then "\" +:+ Txt.chr Txt.DQUOTE
  else if (n =? 92)%nat then "\\"
  else if (n =? 10)%nat then "\n"
  else if (n =? 13)%nat then "\r"
  else if (n =? 9)%nat then "\t"
  else if (n =? 8)%nat then "\b"
  else if (n =? 12)%nat then "\f"
  else if ((n <? 32) || (126 <? n))%nat then "\u00" +:+ MD5.hex_byte (Z.of_nat n)
  else Txt.chr c.

Fixpoint escape (s : string) : string :=
  match s with
  | EmptyString => ""
  | String c s' => escape_char c +:+ escape s'
  end.

Definition quote (s : string) : string :=
  Txt.chr Txt.DQUOTE +:+ escape s +:+ Txt.chr Txt.DQUOTE.

(** [json.dumps] with its default separators. *)
Fixpoint dumps (j : json) : string :=
  match j with
  | JNull => "null"
  | JBool b => if b then "true" else "false"
  | JInt n => pretty n
  | JStr s => quote s
  | JList items => "[" +:+ Txt.join ", " (map dumps items) +:+ "]"
  | JDict kv =>
      "{" +:+ Txt.join ", " (map (fun e => quote e.1 +:+ ": " +:+ dumps e.2) kv) +:+ "}"
  end.

Definition is_ws (c : ascii) : bool :=
  let n := nat_of_ascii c in ((n =? 32) || (n =? 9) || (n =? 10) || (n =? 13))%nat.

Fixpoint skip_ws (s : string) : string :=
  match s with
  | String c s' => if is_ws c then skip_ws s' else s
  | EmptyString => EmptyString
  end.

Fixpoint strip_prefix (p s : string) : option string :=
  match p, s with
  | EmptyString, _ => Some s
  | String a p', String b s' => if Ascii.eqb a b then strip_prefix p' s' else None
  | _, _ => None
  end.

Definition digit (c : ascii) : option Z :=
  let n := nat_of_ascii c in
  if ((48 <=? n) && (n <=? 57))%nat then Some (Z.of_nat n - 48) else None.

Definition hex_value (c : ascii) : option Z :=
  let n := nat_of_ascii c in
  if ((48 <=? n) && (n <=? 57))%nat then Some (Z.of_nat n - 48)
  else if ((97 <=? n) && (n <=? 102))%nat then Some (Z.of_nat n - 87)
  else if ((65 <=? n) && (n <=? 70))%nat then Some (Z.of_nat n - 55)
  else None.

Fixpoint digits (acc : Z) (s : string) : Z * string :=
  match s with
  | String c s' => match digit c with
                   | Some d => digits (10 * acc + d) s'
                   | None => (acc, s)
                   end
  | EmptyString => (acc, s)
  end.

(** An integer; a fraction or an exponent is outside [json]. *)
Definition number (s : string) : option (Z * string) :=
  let '(neg, body) := match s with
                      | String "-"%char s' => (true, s')
                      | _ => (false, s)
                      end in
  match body with
  | String c rest =>
      match digit c with
      | None => None
      | Some d =>
          let '(n, r) := if d =? 0 then (0, rest) else digits d rest in
          match r with
          | String c' _ =>
              if (Ascii.eqb c' "."%char || Ascii.eqb c' "e"%char || Ascii.eqb c' "E"%char
                  || bool_decide (is_Some (digit c')))%bool then None
              else Some (if neg then - n else n, r)
          | EmptyString => Some (if neg then - n else n, r)
          end
      end
  | EmptyString => None
  end.

(** The rest of a string literal after its opening quote. *)
Fixpoint string_body (s : string) : option (string * string) :=
  match s with
  | EmptyString => None
  | String c r =>
      if Ascii.eqb c Txt.DQUOTE then Some ("", r)
      else if Ascii.eqb c "\"%char then
        match r with
        | String e r' =>
            let simple (x : ascii) :=
              match string_body r' with
              | Some (t, r'') => Some (String x t, r'')
              | None => None
              end in
            if Ascii.eqb e Txt.DQUOTE then simple Txt.DQUOTE
            else if Ascii.eqb e "\"%char then simple "\"%char
            else if Ascii.eqb e "/"%char then simple "/"%char
            else if Ascii.eqb e "n"%char then simple Txt.LF
            else if Ascii.eqb e "r"%char then simple Txt.CR
            else if Ascii.eqb e "t"%char then simple Txt.TAB
            else if Ascii.eqb e "b"%char then simple "008"%char
            else if Ascii.eqb e "f"%char then simple "012"%char
            else if Ascii.eqb e "u"%char then
              match r' with
              | String h1 (String h2 (String h3 (String h4 r4))) =>
                  match hex_value h1, hex_value h2, hex_value h3, hex_value h4 with
                  | Some 0, Some 0, Some a, Some b =>
                      match string_body r4 with
                      | Some (t, r'') =>
                          Some (String (ascii_of_nat (Z.to_nat (16 * a + b))) t, r'')
                      | None => None
                      end
                  | _, _, _, _ => None
                  end
              | _ => None
              end
            else None
        | EmptyString => None
        end
      else if (nat_of_ascii c <? 32)%nat then None
      else match string_body r with
           | Some (t, r') => Some (String c t, r')
           | None => None
           end
  end.

Fixpoint value (fuel : nat) (s : string) : option (json * string) :=
  match fuel with
  | O => None
  | S fuel' =>
      match skip_ws s with
      | EmptyString => None
      | String c r as s0 =>
          if Ascii.eqb c "{"%char then
            match skip_ws r with
            | String c' r' as r0 =>
                if Ascii.eqb c' "}"%char then Some (JDict [], r') else members fuel' r0 []
            | EmptyString => None
            end
          else if Ascii.eqb c "["%char then
            match skip_ws r with
            | String c' r' as r0 =>
                if Ascii.eqb c' "]"%char then Some (JList [], r') else elements fuel' r0 []
            | EmptyString => None
            end
          else if Ascii.eqb c Txt.DQUOTE then
            match string_body r with
            | Some (t, r') => Some (JStr t, r')
            | None => None
            end
          else
            match strip_prefix "null" s0, strip_prefix "true" s0, strip_prefix "false" s0 with
            | Some r', _, _ => Some (JNull, r')
            | _, Some r', _ => Some (JBool true, r')
            | _, _, Some r' => Some (JBool false, r')
            | _, _, _ => match number s0 with
                         | Some (n, r') => Some (JInt n, r')
                         | None => None
                         end
            end
      end
  end
with elements (fuel : nat) (s : string) (acc : list json) : option (json * string) :=
  match fuel with
  | O => None
  | S fuel' =>
      match value fuel' s with
      | None => None
      | Some (v, r) =>
          match skip_ws r with
          | String c r' =>
              if Ascii.eqb c ","%char then elements fuel' r' (v :: acc)
              else if Ascii.eqb c "]"%char then Some (JList (rev (v :: acc)), r')
              else None
          | EmptyString => None
          end
      end
  end
with members (fuel : nat) (s : string) (acc : list (string * json)) : option (json * string) :=
  match fuel with
  | O => None
  | S fuel' =>
      match skip_ws s with
      | String q r =>
          if negb (Ascii.eqb q Txt.DQUOTE) then None else
          match string_body r with
          | None => None
          | Some (k, r1) =>
              match skip_ws r1 with
              | String c r2 =>
                  if negb (Ascii.eqb c ":"%char) then None else
                  match value fuel' r2 with
                  | None => None
                  | Some (v, r3) =>
                      match skip_ws r3 with
                      | String c' r4 =>
                          if Ascii.eqb c' ","%char then members fuel' r4 (assoc_set k v acc)
                          else if Ascii.eqb c' "}"%char then Some (JDict (assoc_set k v acc), r4)
                          else None
                      | EmptyString => None
                      end
                  end
              | EmptyString => None
              end
          end
      | EmptyString => None
      end
  end.

(** [json.loads] *)
Definition loads (s : string) : option json :=
  match value (2 * String.length s + 2) s with
  | Some (v, r) => if bool_decide (skip_ws r = "") then Some v else None
  | None => None
  end.

End Json.

(** The reference environment, on a system whose [/bin/sh] reads
    [$'...'] as bash does; [engine] stands for the commands the harness
    runs. *)
Definition reference (engine : string -> world -> (bool * string * string) * world)
  : Externals :=
  {| md5_hexdigest := MD5.hexdigest;
     diff_rows := Sdiff.count;
     gunzip := fun _ => "";
     urlopen := fun _ _ _ => None;
     json_loads := Json.loads;
     json_dumps := Json.dumps;
     delegator_run := engine;
     ansi_c_quoting := true |}.

(** The reference environment on a system whose [/bin/sh] is dash. *)
Definition reference_dash (engine : string -> world -> (bool * string * string) * world)
  : Externals :=
  {| md5_hexdigest := MD5.hexdigest;
     diff_rows := Sdiff.count;
     gunzip := fun _ => "";
     urlopen := fun _ _ _ => None;
     json_loads := Json.loads;
     json_dumps := Json.dumps;
     delegator_run := engine;
     ansi_c_quoting := false |}.

(** An engine whose every command succeeds and prints [out]. *)
Definition prints (out : string) : string -> world -> (bool * string * string) * world :=
  fun _ w => ((true, out, ""), w).

(** An empty disk with the root and the temporary directory. *)
Definition world0 : world :=
  World ∅ {[ "/"; "/tmp" ]} ∅ "/" 0 [] [].

(** [world0] with the given files. *)
Definition disk (fs : list (string * string)) : world :=
  with_files (list_to_map fs) world0.

(** The [EvWrite] events of a trace. *)
Fixpoint writes (t : list event) : list (string * string) :=
  match t with
  | [] => []
  | EvWrite p d :: t' => (p, d) :: writes t'
  | _ :: t' => writes t'
  end.

(** The [EvFetch] events of a trace. *)
Fixpoint fetches (t : list event) : list string :=
  match t with
  | [] => []
  | EvFetch u :: t' => u :: fetches t'
  | _ :: t' => fetches t'
  end.

(** A file of one line, and a line of tab-separated fields. *)
Definition one_line (s : string) : string := s +:+ Txt.chr Txt.LF.
Definition tsv (fields : list string) : string :=
  one_line (Txt.join (Txt.chr Txt.TAB) fields).

(** Two lines that agree on their first five tab-separated columns. *)
Definition same_columns_1_5 (l1 l2 : string) : Prop :=
  firstn 5 (Txt.split_on Txt.TAB l1) = firstn 5 (Txt.split_on Txt.TAB l2).

(** The character [c] does not occur in [s]. *)
Fixpoint no_char (c : ascii) (s : string) : bool :=
  match s with
  | EmptyString => true
  | String x s' => negb (Ascii.eqb x c) && no_char c s'
  end.

(** What a [diff] must satisfy to be one: it prints nothing for equal
    files and something for different ones. *)
Record DiffLaws (X : Externals) : Prop := {
  diff_same : forall a, diff_rows X a a = 0%nat;
  diff_differ : forall a b, a <> b -> (1 <= diff_rows X a b)%nat
}.

(** The value of a variable that is set and not empty. *)
Definition env_value (w : world) (ev : string) : option string :=
  match environ w !! ev with
  | Some (String c s) => Some (String c s)
  | _ => None
  end.

(** ** Statements of the specification that the code does not satisfy *)


(** The zero-tolerance rule as the specification words it: two entries
    with tolerance zero are compared by content hash, whatever their type. *)
Definition exact_hash_rule (X : Externals) (self other : DataFile) (w : world) : Prop :=
  forall a b,
    files w !! target (_path self) = Some a ->
    files w !! target (_path other) = Some b ->
    allowed_diff_lines self = 0 -> allowed_diff_lines other = 0 ->
    (a = b -> (assert_contents_equal X self (VFile other) w).1 = inr tt) /\
    (a <> b -> exists msg,
        (assert_contents_equal X self (VFile other) w).1 = inl (AssertionError msg)).

(** The frame rule as the specification words it: a lookup leaves the
    descriptor stored under the name as it was. *)
Definition manifest_frame_rule (name : string) (self : Data) (w : world) : Prop :=
  assoc name (_data (Data_getitem name self w).1.2) = assoc name (_data self).

(** A catalogue with one vcf descriptor, nothing looked up yet. *)
Definition vcf_catalogue : Data :=
  mkData "/data" None None ∅
         [("v", JDict [("path", JStr "/data/a.vcf"); ("type", JStr "vcf")])].




(** The string [os.path.abspath] returns in a world. *)
Definition abspath_in (w : world) (p : string) : string :=
  OsPath.normpath (if OsPath.isabs p then p else OsPath.join (cwd w) p).

(** [w'] has the working directory, the log, the writes and the files of
    [w] (and maybe more files). *)
Definition keeps (w w' : world) : Prop :=
  cwd w' = cwd w /\ log w' = log w /\ writes (trace w') = writes (trace w) /\
  forall p v, files w !! p = Some v -> files w' !! p = Some v.


(** The equality rule as the specification words it: an expected value
    that is no data file passes exactly when it is the output value. *)
Definition exact_equality_rule (X : Externals) (workflow_name name : string)
    (expected_value out : json) (w : world) : Prop :=
  (check_expected X workflow_name (JDict [(workflow_name +:+ "." +:+ name, out)])
     [(name, VJson expected_value)] w).1 = inr tt
  <-> expected_value = out.

(** The materialisation rule as the specification words it: an entry with
    contents set and no file at its target path is materialised, on the
    first access, by one write of its contents. *)
Definition contents_written_rule (X : Externals) (e : DataFile) (w : world) : Prop :=
  forall p c, _path e = PathStr p -> contents e = Some c ->
    OsPath.exists_in w p = false ->
    (path X e w).1 = inr p /\
    writes (trace (path X e w).2) = (writes (trace w) ++ [(p, c)])%list.

(** A harness without import directories, and a call that supplies an
    inputs file. *)
Definition harness0 : CromwellHarness := mkHarness "/usr/bin/java" "cromwell.jar" "/proj" None.
Definition kwargs0 : kwargs := mkKwargs None (Some "/run/inputs.json") None None None.

(** Two vcf entries with tolerance zero whose files differ in the sixth
    column only. *)
Definition vcf_a : DataFile :=
  mkDataFile VcfDataFileCls None None None None 0 (PathStr "/a.vcf").
Definition vcf_b : DataFile :=
  mkDataFile VcfDataFileCls None None None None 0 (PathStr "/b.vcf").
Definition vcf_disk : world :=
  disk [("/a.vcf", tsv ["1"; "100"; "rs1"; "A"; "C"; "30"]);
        ("/b.vcf", tsv ["1"; "100"; "rs1"; "A"; "C"; "99"])].

(** Two vcf files that differ in the second column. *)
Definition vcf_disk_pos : world :=
  disk [("/a.vcf", tsv ["1"; "100"; "rs1"; "A"; "C"; "30"]);
        ("/c.vcf", tsv ["1"; "200"; "rs1"; "A"; "C"; "30"])].

(** An engine output: log lines, the result document, log lines. *)
Definition engine_output : string :=
  Txt.unlines
    [ "[2019-01-01 00:00:00,00] [info] Running with database";
      "{";
      "  " +:+ Json.quote "outputs" +:+ ": {";
      "    " +:+ Json.quote "wf.out_txt" +:+ ": " +:+ Json.quote "/run/out.txt" +:+ ",";
      "    " +:+ Json.quote "wf.count" +:+ ": 5";
      "  },";
      "  " +:+ Json.quote "id" +:+ ": " +:+ Json.quote "2f8bb5c1";
      "}";
      "[2019-01-01 00:00:05,00] [info] Workflow finished" ].

(** A scope that writes a file in its directory and then raises. *)
Definition failing_body (d : string) : M unit :=
  (write_file (OsPath.join d "out.txt") "1" ;;; raise (Exception_ "boom"))%py.

(** The reference environment with a network that answers every request
    with [body]. *)
Definition serving (body : string) : Externals :=
  {| md5_hexdigest := MD5.hexdigest;
     diff_rows := Sdiff.count;
     gunzip := fun _ => "";
     urlopen := fun _ _ _ => Some body;
     json_loads := Json.loads;
     json_dumps := Json.dumps;
     delegator_run := prints "";
     ansi_c_quoting := true |}.

(** An entry with a url and inline contents, nothing on disk. *)
Definition remote_entry : DataFile :=
  mkDataFile DataFileCls (Some "http://host/files/a.txt") (Some "inline") None None 0
             (PathStr "/data/a.txt").

(** A catalogue whose descriptor names a type that [DATA_TYPES] lacks. *)
Definition bam_catalogue : Data :=
  mkData "/data" None None ∅
         [("b", JDict [("path", JStr "/data/a.bam"); ("type", JStr "bam")])].

(** ** Deprecated entry points of the harness *)

Section Deprecated.
Context (X : Externals).

(** [CromwellHarness.__call__] *)
Definition CromwellHarness_call (self : CromwellHarness) (wdl_script workflow_name : string)
    (inputs expected : list (string * value)) (kw : kwargs) : M unit :=
  _deprecated "__call__" (run_workflow X self wdl_script workflow_name inputs expected kw).

(** [CromwellHarness.run_workflow_in_tempdir]: the call of [self] passes
    [execution_dir=tmpdir] besides the caller's keyword arguments, and is
    refused when these hold an [execution_dir] already. *)
Definition run_workflow_in_tempdir (self : CromwellHarness) (wdl_script workflow_name : string)
    (inputs expected : list (string * value)) (kw : kwargs) : M unit :=
  _deprecated "run_workflow_in_tempdir"
    (tempdir (fun tmpdir =>
       match execution_dir kw with
       | Some _ =>
           raise (TypeError "got multiple values for keyword argument 'execution_dir'")
       | None =>
           CromwellHarness_call self wdl_script workflow_name inputs expected
             (mkKwargs (Some tmpdir) (inputs_file kw) (imports_file kw) (java_args kw)
                       (cromwell_args kw))
       end)).

End Deprecated.

(** A method that leaves the working directory where it was, whatever it
    returns or raises. *)
Definition keeps_cwd {A} (m : M A) : Prop := forall w, cwd (m w).2 = cwd w.

(** ** Values with data files inside, path components *)

(** What [json.dump(obj, default=str)] writes for a value all of whose
    data files are on disk: [str] of a [DataFile] is its path
    ([DataFile.__str__]). *)
Fixpoint resolved (v : value) : json :=
  match v with
  | VJson j => j
  | VFile f => JStr (target (_path f))
  | VList items => JList (map resolved items)
  | VDict kv => JDict (map (fun e => (e.1, resolved e.2)) kv)
  end.

(** Every data file inside the value has a string path that holds a
    file. *)
Fixpoint ready_deep (w : world) (v : value) : Prop :=
  match v with
  | VJson _ => True
  | VFile f => exists p, _path f = PathStr p /\ is_Some (files w !! p)
  | VList items =>
      (fix go (l : list value) : Prop :=
         match l with
         | [] => True
         | x :: xs => ready_deep w x /\ go xs
         end) items
  | VDict kv =>
      (fix go (l : list (string * value)) : Prop :=
         match l with
         | [] => True
         | (_, x) :: xs => ready_deep w x /\ go xs
         end) kv
  end.

(** A path component that is a name: not empty, not [.] or [..], and
    without a slash. *)
Definition plain (c : string) : Prop :=
  c <> "" /\ c <> "." /\ c <> ".." /\ no_char "/" c = true.

(** A harness with one import directory, and a call that supplies an
    imports archive. *)
Definition harness1 : CromwellHarness :=
  mkHarness "/usr/bin/java" "cromwell.jar" "/proj" (Some ["/proj/lib"]).
Definition kwargs1 : kwargs := mkKwargs None None (Some "/run/imports.zip") None None.

(** * Properties *)

Local Open Scope list_scope.

(** ** The definitions on small inputs *)

Example splitlines_mixed :
  Txt.splitlines ("a" +:+ Txt.chr Txt.CR +:+ Txt.chr Txt.LF +:+ Txt.chr Txt.LF +:+ "b" +:+ Txt.chr Txt.LF)
  = ["a"; ""; "b"].
Proof. reflexivity. Qed.

Example split_on_tab :
  Txt.split_on Txt.TAB ("1" +:+ Txt.chr Txt.TAB +:+ Txt.chr Txt.TAB +:+ "3") = ["1"; ""; "3"].
Proof. reflexivity. Qed.

Example text_lines_final_newline :
  Txt.text_lines ("a" +:+ Txt.chr Txt.LF +:+ "b" +:+ Txt.chr Txt.LF) = ["a"; "b"]
  /\ Txt.text_lines "" = [].
Proof. split; reflexivity. Qed.

Example normpath_dots :
  OsPath.normpath "/a/./b/../c//d" = "/a/c/d" /\ OsPath.normpath "a/../.." = ".."
  /\ OsPath.dirname "/a/b" = "/a" /\ OsPath.dirname "/a" = "/" /\ OsPath.dirname "a" = "".
Proof. repeat split; reflexivity. Qed.

Example sdiff_changed_line :
  Sdiff.count ("a" +:+ Txt.chr Txt.LF +:+ "x" +:+ Txt.chr Txt.LF)
              ("a" +:+ Txt.chr Txt.LF +:+ "y" +:+ Txt.chr Txt.LF) = 1%nat.
Proof. reflexivity. Qed.

Example sdiff_swapped_lines :
  Sdiff.count ("a" +:+ Txt.chr Txt.LF +:+ "b" +:+ Txt.chr Txt.LF)
              ("b" +:+ Txt.chr Txt.LF +:+ "a" +:+ Txt.chr Txt.LF) = 2%nat.
Proof. reflexivity. Qed.

Example symmetric_difference_changed_line :
  spec_symmetric_difference ("a" +:+ Txt.chr Txt.LF +:+ "x" +:+ Txt.chr Txt.LF)
                            ("a" +:+ Txt.chr Txt.LF +:+ "y" +:+ Txt.chr Txt.LF) = 2%nat.
Proof. vm_compute. reflexivity. Qed.

(** ** Running a method *)

Lemma bind_inr {A B} (m : M A) (k : A -> M B) (w w' : world) (a : A) :
  m w = (inr a, w') -> bind m k w = k a w'.
Proof. intros H. unfold bind. rewrite H. reflexivity. Qed.

Lemma bind_inl {A B} (m : M A) (k : A -> M B) (w w' : world) (e : exn) :
  m w = (inl e, w') -> bind m k w = (inl e, w').
Proof. intros H. unfold bind. rewrite H. reflexivity. Qed.

Lemma exists_in_file (w : world) (p d : string) :
  files w !! p = Some d -> OsPath.exists_in w p = true.
Proof.
  intros H. unfold OsPath.exists_in. rewrite H.
  rewrite bool_decide_eq_true_2 by eauto. reflexivity.
Qed.

Lemma exists_in_dir (w : world) (p : string) :
  p ∈ dirs w -> OsPath.exists_in w p = true.
Proof.
  intros H. unfold OsPath.exists_in.
  rewrite (bool_decide_eq_true_2 (p ∈ dirs w)) by exact H. apply orb_true_r.
Qed.

Lemma exists_in_false_file (w : world) (p : string) :
  OsPath.exists_in w p = false -> files w !! p = None.
Proof.
  unfold OsPath.exists_in. intros H. apply orb_false_elim in H as [H _].
  apply bool_decide_eq_false in H. destruct (files w !! p); [exfalso; eauto | reflexivity].
Qed.

(** ** Text *)

Lemma append_cons (c : ascii) (s t : string) : String c s +:+ t = String c (s +:+ t).
Proof. reflexivity. Qed.

Lemma append_nil_l (t : string) : "" +:+ t = t.
Proof. reflexivity. Qed.

Lemma append_nil_r (s : string) : s +:+ "" = s.
Proof.
  induction s as [| c s IH]; [reflexivity | ].
  rewrite append_cons, IH. reflexivity.
Qed.

Lemma append_assoc (s1 s2 s3 : string) : (s1 +:+ s2) +:+ s3 = s1 +:+ (s2 +:+ s3).
Proof.
  induction s1 as [| c s1 IH]; [reflexivity | ].
  rewrite !append_cons, IH. reflexivity.
Qed.

Lemma split_on_nonempty (sep : ascii) (s : string) : Txt.split_on sep s <> [].
Proof.
  destruct s as [| c s]; cbn; [discriminate | ].
  destruct (Ascii.eqb c sep); [discriminate | ].
  destruct (Txt.split_on sep s); discriminate.
Qed.

Lemma join_cons (sep p : string) (ps : list string) :
  ps <> [] -> Txt.join sep (p :: ps) = p +:+ sep +:+ Txt.join sep ps.
Proof. destruct ps; [congruence | reflexivity]. Qed.

(** Splitting loses nothing: joining the pieces gives the text back. *)
Lemma join_split_on (sep : ascii) (s : string) :
  Txt.join (Txt.chr sep) (Txt.split_on sep s) = s.
Proof.
  induction s as [| c s IH]; [reflexivity | ].
  cbn [Txt.split_on]. destruct (Ascii.eqb c sep) eqn:E.
  - apply Ascii.eqb_eq in E. subst c.
    rewrite join_cons by apply split_on_nonempty. rewrite IH. reflexivity.
  - pose proof (split_on_nonempty sep s) as Hne.
    destruct (Txt.split_on sep s) as [| l ls]; [congruence | ].
    destruct ls as [| l' ls].
    + cbn in IH |- *. subst l. reflexivity.
    + rewrite join_cons by discriminate. rewrite join_cons in IH by discriminate.
      rewrite append_cons, IH. reflexivity.
Qed.

Lemma split_on_inj (sep : ascii) (s1 s2 : string) :
  Txt.split_on sep s1 = Txt.split_on sep s2 -> s1 = s2.
Proof.
  intros H. rewrite <- (join_split_on sep s1), <- (join_split_on sep s2), H. reflexivity.
Qed.

Lemma no_char_app (c : ascii) (s1 s2 : string) :
  no_char c (s1 +:+ s2) = no_char c s1 && no_char c s2.
Proof.
  induction s1 as [| x s1 IH]; [reflexivity | ].
  rewrite append_cons. cbn [no_char]. rewrite IH. apply andb_assoc.
Qed.

(** No piece of a split holds the separator. *)
Lemma split_on_no_sep (sep : ascii) (s : string) :
  Forall (fun p => no_char sep p = true) (Txt.split_on sep s).
Proof.
  induction s as [| c s IH]; cbn [Txt.split_on].
  - constructor; [reflexivity | constructor].
  - destruct (Ascii.eqb c sep) eqn:E.
    + constructor; [reflexivity | exact IH].
    + destruct (Txt.split_on sep s) as [| l ls].
      * constructor; [cbn; rewrite E; reflexivity | constructor].
      * inversion IH as [| ? ? Hl Hls]; subst.
        constructor; [cbn; rewrite E, Hl; reflexivity | exact Hls].
Qed.

(** A character absent from a text is absent from its pieces. *)
Lemma split_on_keeps_no_char (c sep : ascii) (s : string) :
  no_char c s = true -> Forall (fun p => no_char c p = true) (Txt.split_on sep s).
Proof.
  induction s as [| x s IH]; cbn [Txt.split_on no_char]; intros H.
  - constructor; [reflexivity | constructor].
  - apply andb_true_iff in H as [Hx Hs]. specialize (IH Hs).
    destruct (Ascii.eqb x sep).
    + constructor; [reflexivity | exact IH].
    + destruct (Txt.split_on sep s) as [| l ls].
      * constructor; [cbn; rewrite Hx; reflexivity | constructor].
      * inversion IH as [| ? ? Hl Hls]; subst.
        constructor; [cbn; rewrite Hx, Hl; reflexivity | exact Hls].
Qed.

Lemma join_keeps_no_char (c : ascii) (sep : string) (ps : list string) :
  no_char c sep = true -> Forall (fun p => no_char c p = true) ps ->
  no_char c (Txt.join sep ps) = true.
Proof.
  intros Hsep H. induction H as [| p ps Hp Hps IH]; [reflexivity | ].
  destruct ps as [| p' ps]; [exact Hp | ].
  rewrite join_cons by discriminate.
  rewrite !no_char_app, Hp, Hsep, IH. reflexivity.
Qed.

Lemma Forall_removelast {A} (P : A -> Prop) (l : list A) :
  Forall P l -> Forall P (removelast l).
Proof.
  induction 1 as [| x l Hx Hl IH]; [constructor | ].
  cbn. destruct l; [constructor | constructor; assumption].
Qed.

Lemma Forall_firstn {A} (P : A -> Prop) (n : nat) (l : list A) :
  Forall P l -> Forall P (firstn n l).
Proof.
  intros H. revert n. induction H as [| x l Hx Hl IH]; intros [| n]; cbn; constructor; auto.
Qed.

(** The lines of a text hold no line feed. *)
Lemma text_lines_no_lf (s : string) :
  Forall (fun l => no_char Txt.LF l = true) (Txt.text_lines s).
Proof.
  unfold Txt.text_lines. pose proof (split_on_no_sep Txt.LF s) as H.
  destruct (List.last _ _); [apply Forall_removelast | ]; exact H.
Qed.

Lemma unlines_cons (l : string) (ls : list string) :
  Txt.unlines (l :: ls) = l +:+ Txt.chr Txt.LF +:+ Txt.unlines ls.
Proof.
  unfold Txt.unlines. cbn [map String.concat].
  destruct ls as [| l' ls]; cbn [map].
  - cbn [String.concat]. rewrite append_nil_r. reflexivity.
  - cbn [append]. rewrite append_assoc. reflexivity.
Qed.

Lemma line_prefix_inj (x y r r' : string) :
  no_char Txt.LF x = true -> no_char Txt.LF y = true ->
  x +:+ Txt.chr Txt.LF +:+ r = y +:+ Txt.chr Txt.LF +:+ r' -> x = y /\ r = r'.
Proof.
  revert y. induction x as [| a x IH]; intros [| b y] Hx Hy H;
    unfold Txt.chr in H; rewrite ?append_cons, ?append_nil_l in H.
  - injection H as ->. split; reflexivity.
  - injection H as <- _. cbn in Hy. discriminate Hy.
  - injection H as -> _. cbn in Hx. discriminate Hx.
  - injection H as -> H. cbn [no_char] in Hx, Hy.
    apply andb_true_iff in Hx as [_ Hx]. apply andb_true_iff in Hy as [_ Hy].
    destruct (IH y Hx Hy H) as [-> ->]. split; reflexivity.
Qed.

(** Lines without line feeds can be read back from what [unlines] wrote. *)
Lemma unlines_inj (xs ys : list string) :
  Forall (fun l => no_char Txt.LF l = true) xs ->
  Forall (fun l => no_char Txt.LF l = true) ys ->
  Txt.unlines xs = Txt.unlines ys -> xs = ys.
Proof.
  intros Hxs. revert ys. induction Hxs as [| x xs Hx Hxs IH]; intros ys Hys H.
  - destruct ys as [| y ys]; [reflexivity | ].
    rewrite unlines_cons in H. cbn in H. destruct y; discriminate H.
  - destruct Hys as [| y ys Hy Hys].
    + rewrite unlines_cons in H. cbn in H. destruct x; discriminate H.
    + rewrite !unlines_cons in H.
      destruct (line_prefix_inj _ _ _ _ Hx Hy H) as [-> Hr].
      rewrite (IH ys Hys Hr). reflexivity.
Qed.

(** ** The reference [diff] is a [diff] *)

Lemma script_nil_l (b : list string) : Sdiff.script [] b = map (fun _ => Sdiff.Ins) b.
Proof. destruct b; reflexivity. Qed.

Lemma script_nil_r (a : list string) : Sdiff.script a [] = map (fun _ => Sdiff.Del) a.
Proof. destruct a; reflexivity. Qed.

Lemma script_cons (x y : string) (a b : list string) :
  Sdiff.script (x :: a) (y :: b) =
  if String.eqb x y then Sdiff.Keep :: Sdiff.script a b
  else if (Sdiff.lcs (x :: a) b <=? Sdiff.lcs a (y :: b))%nat
       then Sdiff.Del :: Sdiff.script a (y :: b)
       else Sdiff.Ins :: Sdiff.script (x :: a) b.
Proof. reflexivity. Qed.

Lemma rows_ge (d i : nat) (s : list Sdiff.op) : (Nat.max d i <= Sdiff.rows d i s)%nat.
Proof.
  revert d i. induction s as [| o s IH]; intros d i; cbn [Sdiff.rows]; [lia | ].
  destruct o.
  - lia.
  - specialize (IH (S d) i). lia.
  - specialize (IH d (S i)). lia.
Qed.

Lemma script_same (a : list string) : Sdiff.rows 0 0 (Sdiff.script a a) = 0%nat.
Proof.
  induction a as [| x a IH]; [reflexivity | ].
  rewrite script_cons, String.eqb_refl. cbn [Sdiff.rows]. rewrite IH. reflexivity.
Qed.

Lemma script_zero (a b : list string) : Sdiff.rows 0 0 (Sdiff.script a b) = 0%nat -> a = b.
Proof.
  revert b. induction a as [| x a IH]; intros [| y b] H.
  - reflexivity.
  - rewrite script_nil_l in H. cbn in H. pose proof (rows_ge 0 1 (map (fun _ => Sdiff.Ins) b)). lia.
  - rewrite script_nil_r in H. cbn in H. pose proof (rows_ge 1 0 (map (fun _ => Sdiff.Del) a)). lia.
  - rewrite script_cons in H. destruct (String.eqb x y) eqn:E.
    + apply String.eqb_eq in E. subst y. cbn [Sdiff.rows] in H.
      rewrite (IH b) by lia. reflexivity.
    + destruct (_ <=? _)%nat; cbn [Sdiff.rows] in H.
      * pose proof (rows_ge 1 0 (Sdiff.script a (y :: b))). lia.
      * pose proof (rows_ge 0 1 (Sdiff.script (x :: a) b)). lia.
Qed.

(** The reference [diff] prints nothing for equal files and at least one
    row for different ones. *)
Lemma reference_diff_laws (engine : string -> world -> (bool * string * string) * world) :
  DiffLaws (reference engine).
Proof.
  split; cbn [diff_rows reference]; unfold Sdiff.count.
  - intros a. apply script_same.
  - intros a b Hne.
    destruct (Sdiff.rows 0 0 (Sdiff.script (Txt.split_on Txt.LF a) (Txt.split_on Txt.LF b)))
      eqn:E; [ | lia].
    exfalso. apply Hne. eapply split_on_inj, script_zero, E.
Qed.

(** ** Names of temporary directories *)

Lemma rev_app_snoc (s acc : string) (c : ascii) :
  String.rev_app (s +:+ String c "") acc = String c (String.rev_app s acc).
Proof.
  revert acc. induction s as [| a s IH]; intros acc; [reflexivity | ].
  rewrite append_cons. cbn [String.rev_app]. apply IH.
Qed.

Lemma endswith_slash_snoc (s : string) (c : ascii) :
  c <> "/"%char -> Txt.endswith "/" (s +:+ String c "") = false.
Proof.
  intros Hc. unfold Txt.endswith, String.rev. rewrite rev_app_snoc.
  cbn [String.rev_app String.prefix].
  destruct (ascii_dec "/" c) as [E | E]; [congruence | reflexivity].
Qed.

Lemma pretty_N_go_app (x : N) (s : string) : exists t, pretty_N_go x s = t +:+ s.
Proof.
  revert s. induction (N.lt_wf_0 x) as [x _ IH]; intros s.
  destruct (decide (x = 0)%N) as [-> | Hx].
  - exists "". reflexivity.
  - rewrite pretty_N_go_step by lia.
    destruct (IH (x `div` 10)%N) with (s := String (pretty_N_char (x `mod` 10)) s) as [t Ht].
    { apply N.div_lt; lia. }
    exists (t +:+ String (pretty_N_char (x `mod` 10)) ""). rewrite Ht.
    rewrite append_assoc. reflexivity.
Qed.

Lemma pretty_N_char_no_slash (x : N) : pretty_N_char x <> "/"%char.
Proof. unfold pretty_N_char. repeat case_match; discriminate. Qed.

Lemma pretty_nat_snoc (n : nat) : exists t c, pretty n = t +:+ String c "" /\ c <> "/"%char.
Proof.
  unfold pretty, pretty_nat, pretty, pretty_N.
  destruct (decide (N.of_nat n = 0)%N) as [E | E].
  - exists "", "0"%char. split; [reflexivity | discriminate].
  - rewrite pretty_N_go_step by lia.
    destruct (pretty_N_go_app (N.of_nat n `div` 10)
                (String (pretty_N_char (N.of_nat n `mod` 10)) "")) as [t Ht].
    exists t, (pretty_N_char (N.of_nat n `mod` 10)). split; [exact Ht | apply pretty_N_char_no_slash].
Qed.

Lemma pick_name_shape (fuel : nat) (dir suffix : string) (n n' : nat) (file : string) (w : world) :
  Tempfile.pick_name fuel dir suffix n w = Some (n', file) ->
  exists m : nat, file = OsPath.join dir ("tmp" +:+ pretty m +:+ suffix).
Proof.
  revert n. induction fuel as [| fuel IH]; intros n; cbn [Tempfile.pick_name]; [discriminate | ].
  destruct (OsPath.exists_in w _); [apply IH | ].
  intros H. injection H as _ <-. eauto.
Qed.

Lemma mkdtemp_name (w w1 : world) (d : string) :
  Tempfile.mkdtemp w = (inr d, w1) ->
  exists t c, d = "/tmp/tmp" +:+ t +:+ String c "" /\ c <> "/"%char.
Proof.
  unfold Tempfile.mkdtemp.
  destruct (Tempfile.pick_name _ _ _ _ _) as [[n d'] | ] eqn:E; [ | discriminate].
  intros H. injection H as <- _.
  apply pick_name_shape in E as [m ->].
  destruct (pretty_nat_snoc m) as (t & c & -> & Hc).
  exists t, c. split; [ | exact Hc].
  rewrite append_nil_r. reflexivity.
Qed.




Lemma all_chars_app (f : ascii -> bool) (s t : string) :
  all_chars f (s +:+ t) = all_chars f s && all_chars f t.
Proof.
  induction s as [| c s IH]; [rewrite append_nil_l; reflexivity | ].
  rewrite append_cons. cbn [all_chars]. rewrite IH, andb_assoc. reflexivity.
Qed.

Lemma pretty_N_char_shell (x : N) : shell_char (pretty_N_char x) = true.
Proof. unfold pretty_N_char. repeat case_match; reflexivity. Qed.

Lemma pretty_N_go_shell (x : N) (s : string) :
  all_chars shell_char s = true -> all_chars shell_char (pretty_N_go x s) = true.
Proof.
  revert s. induction (N.lt_wf_0 x) as [x _ IH]; intros s Hs.
  destruct (decide (x = 0)%N) as [-> | Hx]; [exact Hs | ].
  rewrite pretty_N_go_step by lia. apply IH; [apply N.div_lt; lia | ].
  cbn [all_chars]. rewrite pretty_N_char_shell. exact Hs.
Qed.

Lemma pretty_nat_shell (n : nat) : all_chars shell_char (pretty n) = true.
Proof.
  unfold pretty, pretty_nat, pretty, pretty_N.
  destruct (decide (N.of_nat n = 0)%N); [reflexivity | ].
  apply pretty_N_go_shell. reflexivity.
Qed.

(** The names in a temporary directory are words for the shell. *)
Lemma shell_word_tmp (w w1 : world) (d name : string) :
  Tempfile.mkdtemp w = (inr d, w1) ->
  Txt.startswith "/" name = false -> all_chars shell_char name = true ->
  shell_word (OsPath.join d name) = true.
Proof.
  intros Hmk Hn Hname.
  assert (Hd : exists m : nat, d = "/tmp/tmp" +:+ pretty m).
  { revert Hmk. unfold Tempfile.mkdtemp.
    destruct (Tempfile.pick_name _ _ _ _ _) as [[n d'] | ] eqn:E; [ | discriminate].
    intros H. injection H as <- _. apply pick_name_shape in E as [m ->].
    exists m. rewrite append_nil_r. reflexivity. }
  destruct (mkdtemp_name _ _ _ Hmk) as (t & c & Hshape & Hc).
  destruct Hd as [m Hm].
  assert (Hjoin : OsPath.join d name = d +:+ "/" +:+ name).
  { unfold OsPath.join. rewrite Hn.
    rewrite bool_decide_eq_false_2 by (rewrite Hshape; discriminate).
    rewrite Hshape at 1. rewrite <- append_assoc, (endswith_slash_snoc _ _ Hc). reflexivity. }
  rewrite Hjoin, Hm. unfold shell_word.
  change ("/tmp/tmp" +:+ pretty m) with (String "/" ("tmp/tmp" +:+ pretty m)).
  rewrite append_cons. cbn [Ascii.eqb negb andb].
  change (String "/" (("tmp/tmp" +:+ pretty m) +:+ "/" +:+ name))
    with ("/tmp/tmp" +:+ pretty m +:+ "/" +:+ name).
  rewrite !all_chars_app, pretty_nat_shell, Hname. reflexivity.
Qed.

Section Comparison.

Context (X : Externals).

(** An entry whose file is on disk resolves to it and touches nothing. *)
Lemma path_existing (e : DataFile) (p : string) (w : world) :
  _path e = PathStr p -> OsPath.exists_in w p = true ->
  path X e w = (inr p, w).
Proof.
  intros Hp Hex. unfold path. rewrite Hp. cbn.
  unfold bind, OsPath.exists_, ret. cbn. rewrite Hex. reflexivity.
Qed.

Lemma operand_file (w : world) (p data : string) :
  shell_word p = true -> files w !! p = Some data -> operand w p = Some (Some data).
Proof. intros Hs Hf. unfold operand. rewrite Hs, Hf. reflexivity. Qed.


Lemma DataFile_diff_present (file1 file2 a b : string) (w : world) :
  shell_word file1 = true -> shell_word file2 = true ->
  files w !! file1 = Some a -> files w !! file2 = Some b ->
  DataFile_diff X file1 file2 w = (inr (Z.of_nat (diff_rows X a b)), w).
Proof.
  intros S1 S2 H1 H2. unfold DataFile_diff.
  rewrite (operand_file _ _ _ S1 H1), (operand_file _ _ _ S2 H2). reflexivity.
Qed.



(** With tolerance zero on both sides an entry of the default class is
    compared by digest. *)
Lemma compare_hashes_present (file1 file2 a b : string) (w : world) :
  files w !! file1 = Some a -> files w !! file2 = Some b ->
  _compare_hashes X file1 file2 w =
  (if bool_decide (md5_hexdigest X a = md5_hexdigest X b) then inr tt
   else inl (AssertionError
          ("MD5 hashes differ between expected identical files " +:+ file1 +:+ ", " +:+ file2)),
   w).
Proof.
  intros H1 H2. unfold _compare_hashes, bind, read_file. rewrite H1, H2.
  destruct (bool_decide _); reflexivity.
Qed.

(** C2, amended. For an entry of the default class compared with another
    entry, both files on disk and the larger of the two tolerances zero,
    the comparison is by MD5 digest of the whole contents: it never raises
    when the two files hold the same bytes, it raises the mismatch error
    naming both paths whenever the digests differ, and it passes exactly
    when the digests agree. (An entry of the vcf class is compared by the
    column-restricted diff also at tolerance zero.) *)
Theorem default_entries_compare_by_digest (self other : DataFile) (p1 p2 a b : string)
    (w : world) :
  klass self = DataFileCls ->
  _path self = PathStr p1 -> _path other = PathStr p2 ->
  files w !! p1 = Some a -> files w !! p2 = Some b ->
  Z.max (allowed_diff_lines self) (allowed_diff_lines other) = 0 ->
  let r := assert_contents_equal X self (VFile other) w in
  (a = b -> r = (inr tt, w)) /\
  (md5_hexdigest X a <> md5_hexdigest X b ->
     r = (inl (AssertionError
            ("MD5 hashes differ between expected identical files " +:+ p1 +:+ ", " +:+ p2)), w)) /\
  (r.1 = inr tt <-> md5_hexdigest X a = md5_hexdigest X b).
Proof.
  intros Hc Hp1 Hp2 H1 H2 Hmax r.
  assert (Hr : r = (if bool_decide (md5_hexdigest X a = md5_hexdigest X b) then inr tt
                    else inl (AssertionError
                      ("MD5 hashes differ between expected identical files " +:+ p1 +:+ ", " +:+ p2)),
                    w)).
  { subst r. unfold assert_contents_equal.
    erewrite bind_inr; cycle 1.
    { erewrite bind_inr by (apply path_existing; [eassumption | eapply exists_in_file; eassumption]).
      reflexivity. }
    erewrite bind_inr by (apply path_existing; [eassumption | eapply exists_in_file; eassumption]).
    cbn [fst snd]. rewrite Hc, Hmax. cbn [_assert_contents_equal Z.eqb negb].
    apply compare_hashes_present; assumption. }
  rewrite Hr. repeat split.
  - intros ->. rewrite bool_decide_eq_true_2 by reflexivity. reflexivity.
  - intros Hne. rewrite bool_decide_eq_false_2 by exact Hne. reflexivity.
  - cbn [fst]. destruct (bool_decide _) eqn:E; [intros _; apply bool_decide_eq_true in E; exact E | discriminate].
  - intros Heq. rewrite bool_decide_eq_true_2 by exact Heq. reflexivity.
Qed.

(** *** The column-restricted comparison *)

Lemma mkdtemp_inr (w w1 : world) (d : string) :
  Tempfile.mkdtemp w = (inr d, w1) ->
  files w1 = files w /\ dirs w1 = dirs w ∪ {[d]} /\ trace w1 = trace w /\ log w1 = log w
  /\ cwd w1 = cwd w /\ environ w1 = environ w.
Proof.
  unfold Tempfile.mkdtemp.
  destruct (Tempfile.pick_name _ _ _ _ _) as [[n d'] | ]; [ | discriminate].
  intros H. injection H as <- <-. repeat split; reflexivity.
Qed.

Lemma join_file_distinct (d : string) : OsPath.join d "file1" <> OsPath.join d "file2".
Proof.
  unfold OsPath.join.
  change (Txt.startswith "/" "file1") with false.
  change (Txt.startswith "/" "file2") with false. cbn iota.
  destruct (_ || _)%bool; intros H;
    apply (inj (String.append d)) in H; discriminate H.
Qed.

(** A command line whose source is a word for the shell. *)
Lemma redirect_word (cmd : string) (filter : string -> string) (text src dst : string)
    (w : world) :
  shell_word src = true ->
  let data := match files w !! src with Some d => filter d | None => text end in
  redirect X cmd filter (Some text) src dst w
  = (inr tt, emit (EvWrite dst data) (with_files (<[dst := data]> (files w)) w)).
Proof. intros Hs data. unfold redirect. rewrite Hs. destruct (files w !! src); reflexivity. Qed.

(** [VcfDataFile._diff] hands the two views to [diff]. *)
Lemma vcf_diff_run (file1 file2 d : string) (w w1 : world) :
  Tempfile.mkdtemp w = (inr d, w1) ->
  shell_word file1 = true -> shell_word file2 = true ->
  file2 <> OsPath.join d "file1" ->
  exists w', _diff X VcfDataFileCls file1 file2 w
             = (inr (Z.of_nat (diff_rows X (view_of X w file1) (view_of X w file2))), w').
Proof.
  intros Hmk S1 S2 Hne.
  destruct (mkdtemp_inr _ _ _ Hmk) as (Hf & Hd & _).
  cbn [_diff]. unfold tempdir. rewrite (bind_inr _ _ _ _ _ Hmk). unfold finally.
  set (cmp1 := OsPath.join d "file1") in *. set (cmp2 := OsPath.join d "file2").
  set (v1 := view_of X w file1). set (v2 := view_of X w file2).
  pose (w2 := emit (EvWrite cmp1 v1) (with_files (<[cmp1 := v1]> (files w1)) w1)).
  pose (w3 := emit (EvWrite cmp2 v2) (with_files (<[cmp2 := v2]> (files w2)) w2)).
  assert (Hbody : (redirect X (vcf_command file1 cmp1) (vcf_pipeline X) (Some "") file1 cmp1 ;;;
                   redirect X (vcf_command file2 cmp2) (vcf_pipeline X) (Some "") file2 cmp2 ;;;
                   DataFile_diff X cmp1 cmp2)%py w1
                  = (inr (Z.of_nat (diff_rows X v1 v2)), w3)).
  { assert (Hr1 : redirect X (vcf_command file1 cmp1) (vcf_pipeline X) (Some "") file1 cmp1 w1
                  = (inr tt, w2)).
    { rewrite (redirect_word _ _ _ _ _ _ S1). cbv zeta.
      replace (files w1 !! file1) with (files w !! file1) by (rewrite Hf; reflexivity).
      reflexivity. }
    rewrite (bind_inr _ _ _ _ _ Hr1).
    assert (Hr2 : redirect X (vcf_command file2 cmp2) (vcf_pipeline X) (Some "") file2 cmp2 w2
                  = (inr tt, w3)).
    { rewrite (redirect_word _ _ _ _ _ _ S2). cbv zeta.
      replace (files w2 !! file2) with (files w !! file2); [reflexivity | ].
      subst w2. cbn [files emit with_files].
      rewrite lookup_insert_ne by (intros E; apply Hne; symmetry; exact E).
      rewrite Hf. reflexivity. }
    rewrite (bind_inr _ _ _ _ _ Hr2).
    apply DataFile_diff_present.
    - apply (shell_word_tmp _ _ _ _ Hmk); reflexivity.
    - apply (shell_word_tmp _ _ _ _ Hmk); reflexivity.
    - cbn. rewrite lookup_insert_ne by (intros E; symmetry in E; revert E; apply join_file_distinct).
      apply lookup_insert_eq.
    - cbn. apply lookup_insert_eq. }
  rewrite Hbody. unfold rmtree.
  rewrite bool_decide_eq_true_2
    by (cbn; rewrite Hd; apply elem_of_union; right; apply elem_of_singleton; reflexivity).
  eexists. reflexivity.
Qed.

Lemma startswith_hash (c : ascii) (s : string) :
  Txt.startswith "#" (String c s) = Ascii.eqb "#"%char c.
Proof.
  unfold Txt.startswith. cbn [String.prefix].
  destruct (ascii_dec "#" c) as [<- | Hne].
  - destruct s; reflexivity.
  - symmetry. apply Ascii.eqb_neq. exact Hne.
Qed.

(** Whether a line is a comment shows on its first column. *)
Lemma is_comment_hd (l : string) :
  is_comment l = Txt.startswith "#" (hd "" (Txt.split_on Txt.TAB l)).
Proof.
  unfold is_comment. destruct l as [| c l]; [reflexivity | ].
  cbn [Txt.split_on]. destruct (Ascii.eqb c Txt.TAB) eqn:E.
  - apply Ascii.eqb_eq in E. subst c. reflexivity.
  - destruct (Txt.split_on Txt.TAB l); cbn [hd]; unfold Txt.chr;
      rewrite !startswith_hash; reflexivity.
Qed.

Lemma same_columns_comment (l1 l2 : string) :
  same_columns_1_5 l1 l2 -> is_comment l1 = is_comment l2.
Proof.
  unfold same_columns_1_5. intros H. rewrite (is_comment_hd l1), (is_comment_hd l2).
  assert (Hhd : forall l : list string, hd "" (firstn 5 l) = hd "" l) by (intros [| ? ?]; reflexivity).
  rewrite <- (Hhd (Txt.split_on Txt.TAB l1)), <- (Hhd (Txt.split_on Txt.TAB l2)), H.
  reflexivity.
Qed.

Lemma same_columns_cut (l1 l2 : string) :
  same_columns_1_5 l1 l2 -> cut_1_5 l1 = cut_1_5 l2.
Proof. unfold same_columns_1_5, cut_1_5. intros ->. reflexivity. Qed.

(** Files that agree on the first five columns of every line have the
    same view. *)
Lemma vcf_view_same (a b : string) :
  Forall2 same_columns_1_5 (Txt.text_lines a) (Txt.text_lines b) ->
  vcf_view a = vcf_view b.
Proof.
  unfold vcf_view. intros H. f_equal.
  induction H as [| l1 l2 la lb Hl Hrest IH]; [reflexivity | ].
  cbn [List.filter]. rewrite <- (same_columns_comment _ _ Hl).
  destruct (negb (is_comment l1)); cbn [map]; rewrite ?(same_columns_cut _ _ Hl), IH; reflexivity.
Qed.

Lemma split_on_single (sep : ascii) (p : string) :
  no_char sep p = true -> Txt.split_on sep p = [p].
Proof.
  induction p as [| c p IH]; [reflexivity | ].
  cbn [no_char Txt.split_on]. intros H. apply andb_true_iff in H as [Hc Hp].
  apply negb_true_iff in Hc. rewrite Hc, (IH Hp). reflexivity.
Qed.

Lemma split_on_app (sep : ascii) (p r : string) :
  no_char sep p = true ->
  Txt.split_on sep (p +:+ String sep r) = p :: Txt.split_on sep r.
Proof.
  induction p as [| c p IH]; intros H.
  - rewrite append_nil_l. cbn [Txt.split_on]. rewrite Ascii.eqb_refl. reflexivity.
  - cbn [no_char] in H. apply andb_true_iff in H as [Hc Hp].
    apply negb_true_iff in Hc.
    rewrite append_cons. cbn [Txt.split_on]. rewrite Hc, (IH Hp). reflexivity.
Qed.

(** Pieces without the separator can be read back from their join. *)
Lemma split_on_join (sep : ascii) (ps : list string) :
  Forall (fun p => no_char sep p = true) ps -> ps <> [] ->
  Txt.split_on sep (Txt.join (Txt.chr sep) ps) = ps.
Proof.
  induction 1 as [| p ps Hp Hps IH]; intros Hne; [congruence | ].
  destruct ps as [| p' ps].
  - cbn [Txt.join]. apply split_on_single. exact Hp.
  - rewrite join_cons by discriminate. unfold Txt.chr at 1.
    rewrite append_cons, append_nil_l.
    rewrite split_on_app by exact Hp. rewrite IH by discriminate. reflexivity.
Qed.

(** Lines that differ in their first five columns have different cuts. *)
Lemma cut_differs (l1 l2 : string) :
  ~ same_columns_1_5 l1 l2 -> cut_1_5 l1 <> cut_1_5 l2.
Proof.
  unfold same_columns_1_5, cut_1_5. intros Hne Heq. apply Hne.
  assert (Hsplit : forall l, Txt.split_on Txt.TAB
                     (Txt.join (Txt.chr Txt.TAB) (firstn 5 (Txt.split_on Txt.TAB l)))
                   = firstn 5 (Txt.split_on Txt.TAB l)).
  { intros l. apply split_on_join.
    - apply Forall_firstn, split_on_no_sep.
    - pose proof (split_on_nonempty Txt.TAB l). destruct (Txt.split_on Txt.TAB l); [congruence | discriminate]. }
  rewrite <- (Hsplit l1), <- (Hsplit l2), Heq. reflexivity.
Qed.

Lemma cut_no_lf (l : string) : no_char Txt.LF l = true -> no_char Txt.LF (cut_1_5 l) = true.
Proof.
  intros H. unfold cut_1_5. apply join_keeps_no_char; [reflexivity | ].
  apply Forall_firstn, split_on_keeps_no_char, H.
Qed.

Lemma view_lines_no_lf (ls : list string) :
  Forall (fun l => no_char Txt.LF l = true) ls ->
  Forall (fun l => no_char Txt.LF l = true)
         (map cut_1_5 (List.filter (fun l => negb (is_comment l)) ls)).
Proof.
  induction 1 as [| l ls Hl Hls IH]; [constructor | ].
  cbn [List.filter]. destruct (negb (is_comment l)); [ | exact IH].
  cbn [map]. constructor; [apply cut_no_lf, Hl | exact IH].
Qed.

(** A data line changed in its first five columns changes the view. *)
Lemma vcf_view_differs (a b : string) (pre post : list string) (l l' : string) :
  Txt.text_lines a = pre ++ l :: post -> Txt.text_lines b = pre ++ l' :: post ->
  is_comment l = false -> ~ same_columns_1_5 l l' ->
  vcf_view a <> vcf_view b.
Proof.
  intros Ha Hb Hl Hcols Heq. unfold vcf_view in Heq.
  apply unlines_inj in Heq; [ | apply view_lines_no_lf, text_lines_no_lf ..].
  rewrite Ha, Hb in Heq. rewrite !List.filter_app, !map_app in Heq.
  apply app_inv_head in Heq. cbn [List.filter] in Heq. rewrite Hl in Heq.
  cbn [negb map] in Heq. destruct (negb (is_comment l')); cbn [map] in Heq.
  - injection Heq as Hcut. exact (cut_differs _ _ Hcols Hcut).
  - apply (f_equal (@length string)) in Heq. cbn [length] in Heq. lia.
Qed.

(** A comment line is a line whose first character is [#]. *)
Lemma is_comment_iff (l : string) : is_comment l = true <-> exists r, l = String "#" r.
Proof.
  destruct l as [| c l]; [split; [discriminate | intros [r Hr]; discriminate Hr] | ].
  unfold is_comment. rewrite startswith_hash. split.
  - intros H. apply Ascii.eqb_eq in H. subst c. eauto.
  - intros [r Hr]. injection Hr as -> _. reflexivity.
Qed.

(** The vcf comparison is the threshold test on the count of the two
    views. *)
Lemma vcf_assert_run (file1 file2 d : string) (w w1 : world) :
  Txt.endswith ".gz" file1 = false ->
  Tempfile.mkdtemp w = (inr d, w1) ->
  shell_word file1 = true -> shell_word file2 = true ->
  file2 <> OsPath.join d "file1" ->
  let n := Z.of_nat (diff_rows X (view_of X w file1) (view_of X w file2)) in
  exists w', forall k,
    _assert_contents_equal X VcfDataFileCls file1 file2 k w
    = (if n >? k
       then inl (AssertionError
              (pretty n +:+ " lines (which is > " +:+ pretty k +:+
               " allowed) are different between files " +:+ file1 +:+ ", " +:+ file2))
       else inr tt, w').
Proof.
  intros Hgz Hmk S1 S2 Hne n.
  destruct (vcf_diff_run _ _ _ _ _ Hmk S1 S2 Hne) as [w' Hrun].
  exists w'. intros k. cbn [_assert_contents_equal]. unfold _diff_contents. rewrite Hgz.
  rewrite (bind_inr _ _ _ _ _ Hrun). fold n. destruct (n >? k); reflexivity.
Qed.

(** Under a shell with ANSI-C quoting, for the vcf comparison of two plain
    files whose paths are words for the shell, comment lines (those
    starting with [#]) are dropped and the first five tab-separated
    columns of the other lines are handed to the same line-count diff.
    Two files that agree once their comment lines are dropped, and two
    files whose lines agree on columns 1 to 5, compare equal for every
    tolerance, zero included; a data line changed in one of its columns 1
    to 5 is counted: the diff count is at least one and the comparison
    with tolerance zero raises. *)
Lemma vcf_compares_first_five_columns (file1 file2 a b d : string) (w w1 : world) :
  DiffLaws X -> ansi_c_quoting X = true ->
  shell_word file1 = true -> shell_word file2 = true ->
  Txt.endswith ".gz" file1 = false ->
  files w !! file1 = Some a -> files w !! file2 = Some b ->
  Tempfile.mkdtemp w = (inr d, w1) -> file2 <> OsPath.join d "file1" ->
  (exists w', _diff X VcfDataFileCls file1 file2 w
              = (inr (Z.of_nat (diff_rows X (vcf_view a) (vcf_view b))), w')) /\
  (List.filter (fun l => negb (is_comment l)) (Txt.text_lines a)
   = List.filter (fun l => negb (is_comment l)) (Txt.text_lines b) ->
   forall k, 0 <= k ->
     (_assert_contents_equal X VcfDataFileCls file1 file2 k w).1 = inr tt) /\
  (Forall2 same_columns_1_5 (Txt.text_lines a) (Txt.text_lines b) ->
   forall k, 0 <= k ->
     (_assert_contents_equal X VcfDataFileCls file1 file2 k w).1 = inr tt) /\
  (forall pre post l l',
     Txt.text_lines a = pre ++ l :: post -> Txt.text_lines b = pre ++ l' :: post ->
     is_comment l = false -> ~ same_columns_1_5 l l' ->
     (1 <= diff_rows X (vcf_view a) (vcf_view b))%nat /\
     exists msg, (_assert_contents_equal X VcfDataFileCls file1 file2 0 w).1
                 = inl (AssertionError msg)).
Proof.
  intros [Hsame Hdiffer] Hsh S1 S2 Hgz H1 H2 Hmk Hne.
  assert (Hv1 : view_of X w file1 = vcf_view a)
    by (unfold view_of, vcf_pipeline; rewrite H1, Hsh; reflexivity).
  assert (Hv2 : view_of X w file2 = vcf_view b)
    by (unfold view_of, vcf_pipeline; rewrite H2, Hsh; reflexivity).
  destruct (vcf_diff_run _ _ _ _ _ Hmk S1 S2 Hne) as [w0 Hrun].
  destruct (vcf_assert_run _ _ _ _ _ Hgz Hmk S1 S2 Hne) as [w' Hcmp].
  rewrite Hv1, Hv2 in Hrun, Hcmp.
  assert (Hpass : vcf_view a = vcf_view b -> forall k, 0 <= k ->
            (_assert_contents_equal X VcfDataFileCls file1 file2 k w).1 = inr tt).
  { intros Heq k Hk. rewrite Hcmp, Heq, Hsame. cbn [fst].
    destruct (Z.of_nat 0 >? k) eqn:E; [apply Z.gtb_gt in E; lia | reflexivity]. }
  split; [eauto | ]. split; [ | split].
  - intros Hdata. apply Hpass. unfold vcf_view. rewrite Hdata. reflexivity.
  - intros Hcols. apply Hpass, vcf_view_same, Hcols.
  - intros pre post l l' Ha Hb Hl Hcols.
    pose proof (Hdiffer _ _ (vcf_view_differs _ _ _ _ _ _ Ha Hb Hl Hcols)) as Hn.
    split; [exact Hn | ]. rewrite Hcmp. cbn [fst].
    destruct (_ >? 0) eqn:E; [eauto | ].
    rewrite Z.gtb_ltb in E. apply Z.ltb_ge in E. lia.
Qed.

(** Under a shell without ANSI-C quoting both views are empty, whatever
    the files hold: the vcf comparison of two paths that are words for the
    shell passes for every tolerance that is not negative. *)
Lemma vcf_compares_nothing_without_quoting (file1 file2 d : string) (k : Z) (w w1 : world) :
  ansi_c_quoting X = false -> diff_rows X "" "" = 0%nat ->
  shell_word file1 = true -> shell_word file2 = true ->
  Txt.endswith ".gz" file1 = false ->
  Tempfile.mkdtemp w = (inr d, w1) -> file2 <> OsPath.join d "file1" ->
  0 <= k ->
  (_assert_contents_equal X VcfDataFileCls file1 file2 k w).1 = inr tt.
Proof.
  intros Hsh Hzero S1 S2 Hgz Hmk Hne Hk.
  assert (Hv : forall p, view_of X w p = "").
  { intros p. unfold view_of, vcf_pipeline. rewrite Hsh. destruct (files w !! p); reflexivity. }
  destruct (vcf_assert_run _ _ _ _ _ Hgz Hmk S1 S2 Hne) as [w' Hcmp].
  rewrite Hcmp, !Hv, Hzero. cbn [fst].
  destruct (Z.of_nat 0 >? k) eqn:E; [apply Z.gtb_gt in E; lia | reflexivity].
Qed.

End Comparison.

(** A path that is not a word for the shell: the command line is left to
    the engine, and when the shell prints nothing for it (a syntax error
    at the parenthesis) [int] raises [ValueError]. *)
Example path_with_parentheses_is_left_to_the_engine :
  let w := disk [("/data/a (1).txt", one_line "x"); ("/b.txt", one_line "x")] in
  shell_word "/data/a (1).txt" = false /\
  diff_command "/data/a (1).txt" "/b.txt"
  = "diff -y --suppress-common-lines /data/a (1).txt /b.txt | grep '^' | wc -l" /\
  _diff (reference (prints "")) DataFileCls "/data/a (1).txt" "/b.txt" w
  = (inl (ValueError "invalid literal for int() with base 10: ''"), w) /\
  _diff (reference (prints (one_line "0"))) DataFileCls "/data/a (1).txt" "/b.txt" w
  = (inr 0, w).
Proof. intros w. repeat split; vm_compute; reflexivity. Qed.



(** C2 as stated fails: the two vcf files differ in a byte, both
    tolerances are zero, and the comparison passes, because the vcf class
    never compares hashes. *)
Lemma exact_hash_rule_fails :
  ~ exact_hash_rule (reference (prints "")) vcf_a vcf_b vcf_disk.
Proof.
  intros H.
  assert (H1 : files vcf_disk !! target (_path vcf_a)
               = Some (tsv ["1"; "100"; "rs1"; "A"; "C"; "30"])) by (vm_compute; reflexivity).
  assert (H2 : files vcf_disk !! target (_path vcf_b)
               = Some (tsv ["1"; "100"; "rs1"; "A"; "C"; "99"])) by (vm_compute; reflexivity).
  destruct (H _ _ H1 H2 eq_refl eq_refl) as [_ Hraise].
  destruct Hraise as [msg Hmsg].
  - intros E. vm_compute in E. discriminate E.
  - vm_compute in Hmsg. discriminate Hmsg.
Qed.

(** The amended C2 on two default entries whose files differ. *)
Lemma default_entries_compare_by_digest_witness :
  let a := mkDataFile DataFileCls None None None None 0 (PathStr "/a.txt") in
  let b := mkDataFile DataFileCls None None None None 0 (PathStr "/b.txt") in
  let w := disk [("/a.txt", one_line "x"); ("/b.txt", one_line "y")] in
  klass a = DataFileCls /\ files w !! "/a.txt" = Some (one_line "x") /\
  files w !! "/b.txt" = Some (one_line "y") /\
  Z.max (allowed_diff_lines a) (allowed_diff_lines b) = 0 /\
  MD5.hexdigest (one_line "x") <> MD5.hexdigest (one_line "y") /\
  assert_contents_equal (reference (prints "")) a (VFile b) w
  = (inl (AssertionError
       "MD5 hashes differ between expected identical files /a.txt, /b.txt"), w).
Proof.
  intros a b w.
  assert (Hd : MD5.hexdigest (one_line "x") <> MD5.hexdigest (one_line "y")).
  { intros E. vm_compute in E. discriminate E. }
  split; [reflexivity | ]. split; [vm_compute; reflexivity | ].
  split; [vm_compute; reflexivity | ]. split; [reflexivity | ]. split; [exact Hd | ].
  apply (default_entries_compare_by_digest (reference (prints "")) a b "/a.txt" "/b.txt"
           (one_line "x") (one_line "y") w).
  - reflexivity.
  - reflexivity.
  - reflexivity.
  - vm_compute; reflexivity.
  - vm_compute; reflexivity.
  - reflexivity.
  - exact Hd.
Defined.

(** ** Materialisation *)

Lemma writes_app (t1 t2 : list event) : writes (t1 ++ t2) = writes t1 ++ writes t2.
Proof.
  induction t1 as [| ev t1 IH]; [reflexivity | ].
  destruct ev; cbn; rewrite IH; reflexivity.
Qed.

Lemma fetches_app (t1 t2 : list event) : fetches (t1 ++ t2) = fetches t1 ++ fetches t2.
Proof.
  induction t1 as [| ev t1 IH]; [reflexivity | ].
  destruct ev; cbn; rewrite IH; reflexivity.
Qed.

Lemma truthy_some (c : string) : c <> "" -> truthy (Some c) = true.
Proof. destruct c; [congruence | reflexivity]. Qed.

Section Materialisation.

Context (X : Externals).

(** The first access of an entry backed by inline contents writes them. *)
Lemma path_persists_contents (e : DataFile) (p c : string) (w : world) :
  truthy (url e) = false -> contents e = Some c -> c <> "" ->
  _path e = PathStr p -> OsPath.exists_in w p = false ->
  exists w1, path X e w = (inr p, w1) /\
             files w1 !! p = Some c /\
             writes (trace w1) = writes (trace w) ++ [(p, c)] /\
             fetches (trace w1) = fetches (trace w).
Proof.
  intros Hu Hc Hne Hp Hex.
  unfold path. rewrite Hp. cbn [fspath].
  unfold bind at 1. cbn [ret].
  unfold bind at 1. unfold OsPath.exists_ at 1. rewrite Hex. cbn [negb].
  unfold _persist. rewrite Hu, Hc, (truthy_some c Hne), Hp. cbn [orb negb fspath default].
  unfold bind, ret, OsPath.exists_, LOG, write_file.
  destruct (OsPath.exists_in w (OsPath.dirname p)) eqn:Epar; cbn [negb].
  - eexists. split; [reflexivity | ]. cbn. split; [apply lookup_insert_eq | ].
    rewrite writes_app, fetches_app. cbn. rewrite app_nil_r. split; reflexivity.
  - unfold makedirs. rewrite (exists_in_false_file _ _ Epar).
    rewrite bool_decide_eq_false_2 by (intros [? ?]; discriminate).
    eexists. split; [reflexivity | ]. cbn. split; [apply lookup_insert_eq | ].
    rewrite !writes_app, !fetches_app. cbn. rewrite !app_nil_r. split; reflexivity.
Qed.

(** C4, amended. For an entry backed by inline contents (contents that are
    not empty, and no url) whose target path is a string at which nothing
    exists, two accesses of [path] return the same path, the contents are
    physically written exactly once, on the first access, nothing is
    fetched, and the second access leaves the world as it found it: once
    the file is there, no access materialises it again. (With a url the
    entry is materialised from the url, whatever its contents; empty
    contents count as none.) *)
Theorem inline_contents_written_once (e : DataFile) (p c : string) (w : world) :
  truthy (url e) = false -> contents e = Some c -> c <> "" ->
  _path e = PathStr p -> OsPath.exists_in w p = false ->
  let r1 := path X e w in
  let r2 := path X e r1.2 in
  r1.1 = inr p /\ r2.1 = inr p /\
  writes (trace r1.2) = writes (trace w) ++ [(p, c)] /\
  writes (trace r2.2) = writes (trace w) ++ [(p, c)] /\
  fetches (trace r2.2) = fetches (trace w) /\
  files r2.2 !! p = Some c /\
  r2.2 = r1.2.
Proof.
  intros Hu Hc Hne Hp Hex r1 r2.
  destruct (path_persists_contents e p c w Hu Hc Hne Hp Hex) as (w1 & Hr1 & Hf & Hw & Hfe).
  assert (Hr2 : r2 = (inr p, w1)).
  { subst r2 r1. rewrite Hr1. cbn [snd].
    apply path_existing; [exact Hp | eapply exists_in_file; exact Hf]. }
  subst r1. rewrite Hr2, Hr1. cbn [fst snd]. repeat split; assumption.
Qed.

(** An entry with no source whose string path holds no file cannot be
    materialised. *)
Lemma path_no_source (e : DataFile) (p : string) (w : world) :
  truthy (url e) = false -> truthy (contents e) = false ->
  _path e = PathStr p -> OsPath.exists_in w p = false ->
  path X e w =
  (inl (ValueError ("File " +:+ p +:+
     " does not exist. Either a url, file contents, or a local file must be provided.")), w).
Proof.
  intros Hu Hc Hp Hex. unfold path. rewrite Hp. cbn [fspath].
  unfold bind at 1. cbn [ret].
  unfold bind at 1. unfold OsPath.exists_ at 1. rewrite Hex. cbn [negb].
  unfold _persist. rewrite Hu, Hc, Hp. reflexivity.
Qed.

(** An entry built without [path] and without [url] holds the pair that
    [mkstemp] returned: its scratch file is on disk, and [path] raises
    [TypeError]. *)
Lemma scratch_entry_path_raises (c : cls) (contents : option string) (local_dir : string)
    (hh pp : option (list (string * string))) (k : Z) (w w1 : world) (e : DataFile) :
  __init__ c None None contents local_dir hh pp k w = (inr e, w1) ->
  OsPath.exists_in w1 (target (_path e)) = true /\
  path X e w1 =
  (inl (TypeError "stat: path should be string, bytes, os.PathLike or integer, not tuple"), w1).
Proof.
  unfold __init__. cbn [truthy]. unfold bind, ret, Tempfile.mkstemp.
  cbn [default].
  destruct (negb (bool_decide (_ ∈ dirs w))); [discriminate | ].
  destruct (Tempfile.pick_name _ _ _ _ _) as [[n file] | ]; [ | discriminate].
  intros H. injection H as <- <-. cbn [_path target]. split.
  - eapply exists_in_file. cbn. apply lookup_insert_eq.
  - reflexivity.
Qed.

End Materialisation.

(** The amended C4 on an entry with inline contents and nothing on disk. *)
Lemma inline_contents_written_once_witness :
  let e := mkDataFile DataFileCls None (Some "hello") None None 0 (PathStr "/data/a.txt") in
  truthy (url e) = false /\ OsPath.exists_in world0 "/data/a.txt" = false /\
  (path (reference (prints "")) e world0).1 = inr "/data/a.txt" /\
  writes (trace (path (reference (prints "")) e
                   (path (reference (prints "")) e world0).2).2)
  = [("/data/a.txt", "hello")].
Proof.
  intros e.
  split; [reflexivity | ]. split; [vm_compute; reflexivity | ].
  destruct (inline_contents_written_once (reference (prints "")) e "/data/a.txt" "hello" world0)
    as (H1 & _ & _ & H4 & _).
  - reflexivity.
  - reflexivity.
  - discriminate.
  - reflexivity.
  - vm_compute; reflexivity.
  - split; [exact H1 | exact H4].
Defined.

(** C4 as stated fails: the entry has contents set and nothing is at its
    target path, yet the first access writes the body fetched from its
    url, not its contents ([_persist] tries the url first). *)
Lemma contents_written_rule_fails :
  ~ contents_written_rule (serving "BODY") remote_entry world0.
Proof.
  intros H.
  destruct (H "/data/a.txt" "inline" eq_refl eq_refl) as [_ Hw]; [vm_compute; reflexivity | ].
  vm_compute in Hw. discriminate Hw.
Qed.

(** C5 fails on an entry built with no [path] and no [url]: its target is
    the scratch file that [tempfile.mkstemp] has just created, which is on
    disk, and yet [path] raises [TypeError], because [_path] holds the pair
    [(fd, name)] and not the name. *)
Theorem scratch_entry_path_type_error :
  let w := with_dirs {[ "/"; "/tmp"; "/data" ]} world0 in
  exists e w1,
    __init__ DataFileCls None None None "/data" None None 0 w = (inr e, w1) /\
    _path e = PathTuple 4 "/data/tmp0" /\
    files w1 !! "/data/tmp0" = Some "" /\
    path (reference (prints "")) e w1 =
    (inl (TypeError "stat: path should be string, bytes, os.PathLike or integer, not tuple"), w1).
Proof.
  intros w.
  destruct (__init__ DataFileCls None None None "/data" None None 0 w) as [[ex | e] w1] eqn:E.
  - vm_compute in E. discriminate E.
  - exists e, w1. split; [reflexivity | ].
    destruct (scratch_entry_path_raises (reference (prints "")) _ _ _ _ _ _ _ _ _ E) as [_ Hp].
    assert (He : _path e = PathTuple 4 "/data/tmp0").
    { vm_compute in E. injection E as <- _. reflexivity. }
    assert (Hf : files w1 !! "/data/tmp0" = Some "").
    { vm_compute in E. injection E as _ <-. vm_compute. reflexivity. }
    repeat split; assumption.
Qed.

(** The column-restricted comparison, under a shell with ANSI-C quoting, on
    two vcf files that differ in the sixth column only. *)
Example vcf_sixth_column_ignored :
  (_assert_contents_equal (reference (prints "")) VcfDataFileCls "/a.vcf" "/b.vcf" 0 vcf_disk).1
  = inr tt.
Proof.
  assert (H1 : files vcf_disk !! "/a.vcf" = Some (tsv ["1"; "100"; "rs1"; "A"; "C"; "30"]))
    by (vm_compute; reflexivity).
  assert (H2 : files vcf_disk !! "/b.vcf" = Some (tsv ["1"; "100"; "rs1"; "A"; "C"; "99"]))
    by (vm_compute; reflexivity).
  assert (H3 : Tempfile.mkdtemp vcf_disk = (inr "/tmp/tmp0", (Tempfile.mkdtemp vcf_disk).2))
    by (vm_compute; reflexivity).
  assert (H4 : "/b.vcf" <> OsPath.join "/tmp/tmp0" "file1")
    by (intros E; vm_compute in E; discriminate E).
  destruct (vcf_compares_first_five_columns (reference (prints "")) "/a.vcf" "/b.vcf" _ _
              "/tmp/tmp0" vcf_disk _ (reference_diff_laws _) eq_refl eq_refl eq_refl eq_refl
              H1 H2 H3 H4)
    as (_ & _ & Hsame & _).
  apply Hsame; [ | lia].
  change (Txt.text_lines (tsv ["1"; "100"; "rs1"; "A"; "C"; "30"]))
    with [Txt.join (Txt.chr Txt.TAB) ["1"; "100"; "rs1"; "A"; "C"; "30"]].
  change (Txt.text_lines (tsv ["1"; "100"; "rs1"; "A"; "C"; "99"]))
    with [Txt.join (Txt.chr Txt.TAB) ["1"; "100"; "rs1"; "A"; "C"; "99"]].
  constructor; [reflexivity | constructor].
Qed.

(** C6 fails where [/bin/sh] is dash. The two vcf files differ in their
    second column; a shell with ANSI-C quoting counts the changed line and
    the comparison with tolerance zero raises, whereas under dash [cut] is
    handed a delimiter of two characters, prints nothing for either file,
    the count is 0 and the comparison passes for every tolerance. *)
Theorem vcf_difference_missed_by_dash :
  ~ same_columns_1_5 (Txt.join (Txt.chr Txt.TAB) ["1"; "100"; "rs1"; "A"; "C"; "30"])
                     (Txt.join (Txt.chr Txt.TAB) ["1"; "200"; "rs1"; "A"; "C"; "30"]) /\
  (exists msg,
     (_assert_contents_equal (reference (prints "")) VcfDataFileCls "/a.vcf" "/c.vcf" 0
        vcf_disk_pos).1 = inl (AssertionError msg)) /\
  (_diff (reference_dash (prints "")) VcfDataFileCls "/a.vcf" "/c.vcf" vcf_disk_pos).1
  = inr 0 /\
  (forall k : nat,
     (_assert_contents_equal (reference_dash (prints "")) VcfDataFileCls "/a.vcf" "/c.vcf"
        (Z.of_nat k) vcf_disk_pos).1 = inr tt).
Proof.
  split; [intros E; vm_compute in E; discriminate E | ].
  split; [eexists; vm_compute; reflexivity | ].
  split; [vm_compute; reflexivity | ].
  intros k.
  apply (vcf_compares_nothing_without_quoting (reference_dash (prints "")) "/a.vcf" "/c.vcf"
           "/tmp/tmp0" (Z.of_nat k) vcf_disk_pos (Tempfile.mkdtemp vcf_disk_pos).2);
    try reflexivity.
  - intros E; vm_compute in E; discriminate E.
  - lia.
Qed.

(** ** The catalogue *)

Lemma assoc_assoc_set {A} (k k' : string) (v : A) (kv : list (string * A)) :
  assoc k' (assoc_set k v kv) = if String.eqb k' k then Some v else assoc k' kv.
Proof.
  induction kv as [| [k0 v0] kv IH]; cbn [assoc_set assoc].
  - destruct (String.eqb k' k); reflexivity.
  - destruct (String.eqb k k0) eqn:E; cbn [assoc].
    + apply String.eqb_eq in E. subst k0. destruct (String.eqb k' k); reflexivity.
    + destruct (String.eqb k' k0) eqn:E'.
      * apply String.eqb_eq in E'. subst k0.
        rewrite String.eqb_sym, E. reflexivity.
      * exact IH.
Qed.

Lemma assoc_assoc_remove {A} (k k' : string) (kv : list (string * A)) :
  k' <> k -> assoc k' (assoc_remove k kv) = assoc k' kv.
Proof.
  intros Hne. induction kv as [| [k0 v0] kv IH]; [reflexivity | ].
  cbn [assoc_remove assoc]. destruct (String.eqb k k0) eqn:E.
  - apply String.eqb_eq in E. subst k0.
    apply String.eqb_neq in Hne. rewrite Hne. exact IH.
  - cbn [assoc]. rewrite IH. reflexivity.
Qed.

Lemma assoc_remove_gone {A} (k : string) (kv : list (string * A)) :
  assoc k (assoc_remove k kv) = None.
Proof.
  induction kv as [| [k0 v0] kv IH]; [reflexivity | ].
  cbn [assoc_remove]. destruct (String.eqb k k0) eqn:E; [exact IH | ].
  cbn [assoc]. rewrite E. exact IH.
Qed.

(** What a lookup leaves in [_data]. *)
Lemma getitem_data (name : string) (self : Data) (w : world) :
  _data (Data_getitem name self w).1.2 =
  match _values self !! name with
  | Some _ => _data self
  | None =>
      match assoc name (_data self) with
      | Some (JDict kv) => assoc_set name (JDict (assoc_remove "type" kv)) (_data self)
      | _ => _data self
      end
  end.
Proof.
  unfold Data_getitem.
  destruct (_values self !! name); [reflexivity | ].
  destruct (assoc name (_data self)) as [[ | b | n | s | items | kv] | ]; try reflexivity.
  destruct (DATA_TYPES _); [reflexivity | ].
  destruct (construct _ _ _ _ _ _) as [[e | f] w']; reflexivity.
Qed.

(** C10, amended. A lookup changes the loaded manifest in one place only:
    the first lookup of a name whose descriptor is a record removes the
    key [type] from the stored descriptor and leaves its other fields as
    they were. The descriptors of the other names never change, and the
    manifest is left wholly unchanged by a lookup of a name that is cached
    (every lookup after the first successful one), of a name that is not
    in the manifest, and of a name whose descriptor is a primitive. *)
Theorem getitem_manifest_frame (name : string) (self : Data) (w : world) :
  let self' := (Data_getitem name self w).1.2 in
  (forall other, other <> name -> assoc other (_data self') = assoc other (_data self)) /\
  (is_Some (_values self !! name) -> _data self' = _data self) /\
  (assoc name (_data self) = None -> _data self' = _data self) /\
  (forall v, assoc name (_data self) = Some v -> (forall kv, v <> JDict kv) ->
     _data self' = _data self) /\
  (forall kv, _values self !! name = None -> assoc name (_data self) = Some (JDict kv) ->
     assoc name (_data self') = Some (JDict (assoc_remove "type" kv)) /\
     assoc "type" (assoc_remove "type" kv) = None /\
     forall field, field <> "type" -> assoc field (assoc_remove "type" kv) = assoc field kv).
Proof.
  intros self'. subst self'. rewrite getitem_data.
  destruct (_values self !! name) as [v0 | ] eqn:Ev.
  { repeat split; try reflexivity; intros; discriminate. }
  destruct (assoc name (_data self)) as [v | ] eqn:Ea.
  2:{ repeat split; try reflexivity; intros; discriminate. }
  assert (Hprim : (forall kv, v <> JDict kv) ->
                  match v with
                  | JDict kv => assoc_set name (JDict (assoc_remove "type" kv)) (_data self)
                  | _ => _data self
                  end = _data self).
  { intros Hnot. destruct v; try reflexivity. exfalso. exact (Hnot kv eq_refl). }
  split; [ | split; [ | split; [ | split]]].
  - intros other Hne. destruct v; try reflexivity.
    rewrite assoc_assoc_set. apply String.eqb_neq in Hne. rewrite Hne. reflexivity.
  - intros [? H]; discriminate H.
  - discriminate.
  - intros v' Hv Hnot. injection Hv as <-. apply Hprim, Hnot.
  - intros kv _ Hkv. injection Hkv as ->. split; [ | split].
    + rewrite assoc_assoc_set, String.eqb_refl. reflexivity.
    + apply assoc_remove_gone.
    + intros field Hf. apply assoc_assoc_remove, Hf.
Qed.

(** C10 as stated fails: the first lookup of the vcf entry removes [type]
    from the descriptor stored in the catalogue. *)
Lemma manifest_frame_rule_fails : ~ manifest_frame_rule "v" vcf_catalogue world0.
Proof. unfold manifest_frame_rule. vm_compute. discriminate. Qed.

Example getitem_drops_type :
  _data (Data_getitem "v" vcf_catalogue world0).1.2
  = [("v", JDict [("path", JStr "/data/a.vcf")])].
Proof. vm_compute. reflexivity. Qed.

(** ** The directory context manager *)

Lemma under_refl (d : string) : under d d = true.
Proof. unfold under. rewrite bool_decide_eq_true_2 by reflexivity. reflexivity. Qed.


Lemma rmtree_missing (d : string) (w : world) :
  d ∉ dirs w -> rmtree d w = (inl (FileNotFoundError d), w).
Proof. intros Hd. unfold rmtree. rewrite bool_decide_eq_false_2 by exact Hd. reflexivity. Qed.

Lemma TMP_MAX_positive : Tempfile.TMP_MAX = S (Nat.pred Tempfile.TMP_MAX).
Proof. vm_compute. reflexivity. Qed.

(** [mkdtemp] succeeds when the first candidate name is free. *)
Lemma mkdtemp_first_free (w : world) :
  OsPath.exists_in w (OsPath.join Tempfile.gettempdir ("tmp" +:+ pretty (tmp_next w))) = false ->
  exists w1, Tempfile.mkdtemp w
             = (inr (OsPath.join Tempfile.gettempdir ("tmp" +:+ pretty (tmp_next w))), w1).
Proof.
  intros H. unfold Tempfile.mkdtemp. rewrite TMP_MAX_positive. cbn [Tempfile.pick_name].
  rewrite append_nil_r. rewrite H. eexists. reflexivity.
Qed.



Lemma ancestors_head (fuel : nat) (p : string) : p ∈ ancestors fuel p.
Proof.
  destruct fuel; cbn [ancestors]; [apply list_elem_of_here | ].
  destruct (_ || _)%bool; apply list_elem_of_here.
Qed.



(** ** The harness *)

Lemma bind_assoc {A B C} (m : M A) (f : A -> M B) (g : B -> M C) (w : world) :
  bind (bind m f) g w = bind m (fun x => bind (f x) g) w.
Proof. unfold bind. destruct (m w) as [[e | a] w']; reflexivity. Qed.

Lemma bind_cong {A B} (m : M A) (f g : A -> M B) (w : world) :
  (forall a w', f a w' = g a w') -> bind m f w = bind m g w.
Proof. intros H. unfold bind. destruct (m w) as [[e | a] w']; [reflexivity | apply H]. Qed.

(** *** Equality of an expected value and an output *)

Lemma as_number_bool (x y : bool) :
  (if x then 1 else 0) = (if y then 1 else 0) :> Z -> x = y.
Proof. destruct x, y; intros H; try reflexivity; discriminate H. Qed.

Lemma json_eqb_spec (a b : json) : json_eqb a b = true <-> py_equal a b.
Proof.
  revert a b. fix IH 1. intros [ | x | x | x | xs | xs] b.
  - destruct b; cbn [json_eqb]; (split; [intros H; try discriminate H; constructor | ]);
      intros H; inversion H; subst; try reflexivity; discriminate.
  - destruct b as [ | y | y | y | ys | ys]; cbn [json_eqb];
      try (split; [discriminate | intros H; inversion H; subst; discriminate]).
    + split.
      * intros H. apply Bool.eqb_prop in H. subst y.
        eapply py_equal_number; reflexivity.
      * intros H. inversion H as [ | ? ? n Ha Hb | | | ]; subst.
        cbn in Ha, Hb. rewrite <- Hb in Ha. injection Ha as Ha.
        apply as_number_bool in Ha. subst y. apply Bool.eqb_reflx.
    + split.
      * intros H. apply Z.eqb_eq in H. eapply py_equal_number; [reflexivity | ].
        cbn. rewrite H. reflexivity.
      * intros H. inversion H as [ | ? ? n Ha Hb | | | ]; subst.
        cbn in Ha, Hb. apply Z.eqb_eq. congruence.
  - destruct b as [ | y | y | y | ys | ys]; cbn [json_eqb];
      try (split; [discriminate | intros H; inversion H; subst; discriminate]).
    + split.
      * intros H. apply Z.eqb_eq in H. eapply py_equal_number; [reflexivity | ].
        cbn. rewrite H. reflexivity.
      * intros H. inversion H as [ | ? ? n Ha Hb | | | ]; subst.
        cbn in Ha, Hb. apply Z.eqb_eq. congruence.
    + split.
      * intros H. apply Z.eqb_eq in H. subst y. eapply py_equal_number; reflexivity.
      * intros H. inversion H as [ | ? ? n Ha Hb | | | ]; subst.
        cbn in Ha, Hb. apply Z.eqb_eq. congruence.
  - destruct b as [ | y | y | y | ys | ys]; cbn [json_eqb];
      try (split; [discriminate | intros H; inversion H; subst; discriminate]).
    split.
    + intros H. apply String.eqb_eq in H. subst y. constructor.
    + intros H. inversion H; subst; [discriminate | apply String.eqb_refl].
  - destruct b as [ | y | y | y | ys | ys]; cbn [json_eqb];
      try (split; [discriminate | intros H; inversion H; subst; discriminate]).
    assert (Hgo : (fix go (xs ys : list json) : bool :=
                     match xs, ys with
                     | [], [] => true
                     | x :: xs', y :: ys' => json_eqb x y && go xs' ys'
                     | _, _ => false
                     end) xs ys = true <-> Forall2 py_equal xs ys).
    { revert ys. induction xs as [| x xs IHxs]; intros [| y ys].
      - split; [constructor | reflexivity].
      - split; [discriminate | intros H; inversion H].
      - split; [discriminate | intros H; inversion H].
      - rewrite andb_true_iff, (IH x y), (IHxs ys). split.
        + intros [H1 H2]. constructor; assumption.
        + intros H. inversion H; subst. split; assumption. }
    rewrite Hgo. split.
    + intros H. constructor. exact H.
    + intros H. inversion H; subst; [discriminate | assumption].
  - destruct b as [ | y | y | y | ys | ys]; cbn [json_eqb];
      try (split; [discriminate | intros H; inversion H; subst; discriminate]).
    assert (Hgo : (fix go (xs : list (string * json)) : bool :=
                     match xs with
                     | [] => true
                     | (k, v) :: xs' =>
                         match assoc k ys with
                         | Some v' => json_eqb v v'
                         | None => false
                         end && go xs'
                     end) xs = true
                  <-> (forall k v, In (k, v) xs ->
                         exists v', assoc k ys = Some v' /\ py_equal v v')).
    { induction xs as [| [k v] xs IHxs].
      - split; [intros _ k v [] | reflexivity].
      - rewrite andb_true_iff, IHxs. split.
        + intros [H1 H2] k' v' [E | Hin]; [ | apply H2, Hin].
          injection E as <- <-. destruct (assoc k ys) as [v' | ]; [ | discriminate].
          exists v'. split; [reflexivity | apply IH, H1].
        + intros H. split; [ | intros k' v' Hin; apply H; right; exact Hin].
          destruct (H k v (or_introl eq_refl)) as (v' & -> & Hv). apply IH, Hv. }
    rewrite andb_true_iff, Hgo, Nat.eqb_eq. split.
    + intros [H1 H2]. constructor; assumption.
    + intros H. inversion H; subst; [discriminate | split; assumption].
Qed.

Lemma value_eqb_spec (v : value) (b : json) : value_eqb v b = true <-> value_equal v b.
Proof.
  revert v b. fix IH 1. intros [j | f | xs | xs] b.
  - cbn [value_eqb]. rewrite json_eqb_spec. split.
    + intros H. constructor. exact H.
    + intros H. inversion H; subst. assumption.
  - cbn [value_eqb]. split; [discriminate | intros H; inversion H].
  - destruct b as [ | y | y | y | ys | ys]; cbn [value_eqb];
      try (split; [discriminate | intros H; inversion H]).
    assert (Hgo : (fix go (xs : list value) (ys : list json) : bool :=
                     match xs, ys with
                     | [], [] => true
                     | x :: xs', y :: ys' => value_eqb x y && go xs' ys'
                     | _, _ => false
                     end) xs ys = true <-> Forall2 value_equal xs ys).
    { revert ys. induction xs as [| x xs IHxs]; intros [| y ys].
      - split; [constructor | reflexivity].
      - split; [discriminate | intros H; inversion H].
      - split; [discriminate | intros H; inversion H].
      - rewrite andb_true_iff, (IH x y), (IHxs ys). split.
        + intros [H1 H2]. constructor; assumption.
        + intros H. inversion H; subst. split; assumption. }
    rewrite Hgo. split.
    + intros H. constructor. exact H.
    + intros H. inversion H; subst. assumption.
  - destruct b as [ | y | y | y | ys | ys]; cbn [value_eqb];
      try (split; [discriminate | intros H; inversion H]).
    assert (Hgo : (fix go (xs : list (string * value)) : bool :=
                     match xs with
                     | [] => true
                     | (k, v) :: xs' =>
                         match assoc k ys with
                         | Some v' => value_eqb v v'
                         | None => false
                         end && go xs'
                     end) xs = true
                  <-> (forall k v, In (k, v) xs ->
                         exists v', assoc k ys = Some v' /\ value_equal v v')).
    { induction xs as [| [k v] xs IHxs].
      - split; [intros _ k v [] | reflexivity].
      - rewrite andb_true_iff, IHxs. split.
        + intros [H1 H2] k' v' [E | Hin]; [ | apply H2, Hin].
          injection E as <- <-. destruct (assoc k ys) as [v' | ]; [ | discriminate].
          exists v'. split; [reflexivity | apply IH, H1].
        + intros H. split; [ | intros k' v' Hin; apply H; right; exact Hin].
          destruct (H k v (or_introl eq_refl)) as (v' & -> & Hv). apply IH, Hv. }
    rewrite andb_true_iff, Hgo, Nat.eqb_eq. split.
    + intros [H1 H2]. constructor; assumption.
    + intros H. inversion H; subst. split; assumption.
Qed.

Section Checks.

Context (X : Externals).

(** The loop over a list is the loop over its first part followed by the
    loop over the rest. *)
Lemma check_expected_app (workflow_name : string) (outputs : json)
    (pre rest : list (string * value)) (w : world) :
  check_expected X workflow_name outputs (pre ++ rest) w
  = (check_expected X workflow_name outputs pre ;;;
     check_expected X workflow_name outputs rest) w.
Proof.
  revert w. induction pre as [| [name ev] pre IH]; intros w; [reflexivity | ].
  cbn [app check_expected]. rewrite bind_assoc. apply bind_cong. intros present w1.
  destruct (negb present); [reflexivity | ].
  rewrite bind_assoc. apply bind_cong. intros out w2.
  rewrite bind_assoc. apply bind_cong. intros _ w3. apply IH.
Qed.

(** C7, amended. After a successful engine run the expected outputs are
    checked in order. For the pair [(name, expected_value)] reached after
    the pairs before it have passed: if the key [workflow_name.name] is
    absent from the extracted outputs the run raises the missing-output
    error naming the key; if the expected value is a data file the
    comparison is that of its [assert_contents_equal] with the output
    value, and the loop goes on only if it passes; otherwise the loop goes
    on when the expected value equals the output value in the sense of
    Python's [==] (numbers by value, strings and [None] when they are the
    same, lists element by element, dicts as mappings; a data file inside
    a list or a dict equals nothing), and the mismatch error is raised,
    the world left as it is, when it does not. In particular an expected
    string passes against that very string and nothing else. *)
Theorem check_expected_step (workflow_name name : string) (kv : list (string * json))
    (pre post : list (string * value)) (ev : value) (w w1 : world) :
  check_expected X workflow_name (JDict kv) pre w = (inr tt, w1) ->
  let key := workflow_name +:+ "." +:+ name in
  let r := check_expected X workflow_name (JDict kv) (pre ++ (name, ev) :: post) w in
  (assoc key kv = None ->
   r = (inl (AssertionError ("Workflow did not generate output " +:+ key)), w1)) /\
  (forall out f, assoc key kv = Some out -> ev = VFile f ->
   r = (assert_contents_equal X f (VJson out) ;;;
        check_expected X workflow_name (JDict kv) post) w1) /\
  (forall out, assoc key kv = Some out -> (forall f, ev <> VFile f) ->
   (value_equal ev out -> r = check_expected X workflow_name (JDict kv) post w1) /\
   (~ value_equal ev out -> r = (inl (AssertionError ""), w1))) /\
  (forall out s, assoc key kv = Some out -> ev = VJson (JStr s) ->
   (out = JStr s -> r = check_expected X workflow_name (JDict kv) post w1) /\
   (out <> JStr s -> r = (inl (AssertionError ""), w1))).
Proof.
  intros Hpre key r.
  assert (Hr : r =
    match assoc key kv with
    | None => (inl (AssertionError ("Workflow did not generate output " +:+ key)), w1)
    | Some out =>
        match ev with
        | VFile f =>
            (assert_contents_equal X f (VJson out) ;;;
             check_expected X workflow_name (JDict kv) post) w1
        | _ =>
            if value_eqb ev out then check_expected X workflow_name (JDict kv) post w1
            else (inl (AssertionError ""), w1)
        end
    end).
  { subst r. rewrite check_expected_app, (bind_inr _ _ _ _ _ Hpre).
    cbn [check_expected]. fold key. unfold lift, py_in, py_getitem.
    unfold bind at 1.
    destruct (assoc key kv) as [out | ] eqn:E.
    - rewrite bool_decide_eq_true_2 by eauto. cbn [negb].
      unfold bind at 1.
      destruct ev; try reflexivity;
        unfold bind, ret, raise; destruct (value_eqb _ out); reflexivity.
    - rewrite bool_decide_eq_false_2 by (intros [? ?]; discriminate). reflexivity. }
  split; [ | split; [ | split]].
  - intros Hnone. rewrite Hr, Hnone. reflexivity.
  - intros out f Hout ->. rewrite Hr, Hout. reflexivity.
  - intros out Hout Hnf. rewrite Hr, Hout.
    assert (Hev : match ev with
                  | VFile f =>
                      (assert_contents_equal X f (VJson out) ;;;
                       check_expected X workflow_name (JDict kv) post) w1
                  | _ =>
                      if value_eqb ev out then check_expected X workflow_name (JDict kv) post w1
                      else (inl (AssertionError ""), w1)
                  end
                  = if value_eqb ev out then check_expected X workflow_name (JDict kv) post w1
                    else (inl (AssertionError ""), w1)).
    { destruct ev as [j | f | l | d]; try reflexivity. exfalso. exact (Hnf f eq_refl). }
    rewrite Hev. split.
    + intros Heq. apply value_eqb_spec in Heq. rewrite Heq. reflexivity.
    + intros Hne. destruct (value_eqb ev out) eqn:E; [ | reflexivity].
      exfalso. apply Hne, value_eqb_spec, E.
  - intros out s Hout ->. rewrite Hr, Hout. cbn [value_eqb]. split.
    + intros ->. cbn [json_eqb]. rewrite String.eqb_refl. reflexivity.
    + intros Hne. destruct out as [ | b | n | t | l | d]; try reflexivity.
      cbn [json_eqb]. destruct (String.eqb s t) eqn:E; [ | reflexivity].
      apply String.eqb_eq in E. congruence.
Qed.

End Checks.

(** The amended C7 on an output that differs from the expected value, on
    one that the engine did not produce, and on one that matches. *)
Lemma check_expected_step_witness :
  let X := reference (prints "") in
  let outputs := [("wf.count", JInt 5); ("wf.name", JStr "a")] in
  check_expected X "wf" (JDict outputs) [("name", VJson (JStr "a"))] world0 = (inr tt, world0) /\
  ~ value_equal (VJson (JInt 6)) (JInt 5) /\
  check_expected X "wf" (JDict outputs)
    ([("name", VJson (JStr "a"))] ++ ("count", VJson (JInt 6)) :: []) world0
  = (inl (AssertionError ""), world0) /\
  check_expected X "wf" (JDict outputs)
    ([("name", VJson (JStr "a"))] ++ ("missing", VJson (JInt 1)) :: []) world0
  = (inl (AssertionError "Workflow did not generate output wf.missing"), world0) /\
  check_expected X "wf" (JDict outputs)
    ([("name", VJson (JStr "a"))] ++ ("count", VJson (JInt 5)) :: []) world0
  = (inr tt, world0).
Proof.
  intros X outputs.
  assert (H : check_expected X "wf" (JDict outputs) [("name", VJson (JStr "a"))] world0
              = (inr tt, world0)) by reflexivity.
  assert (Hne : ~ value_equal (VJson (JInt 6)) (JInt 5)).
  { intros E. apply value_eqb_spec in E. discriminate E. }
  split; [exact H | ]. split; [exact Hne | ]. split; [ | split].
  - destruct (check_expected_step X "wf" "count" outputs [("name", VJson (JStr "a"))] []
                (VJson (JInt 6)) world0 world0 H) as (_ & _ & Hcmp & _).
    destruct (Hcmp (JInt 5) eq_refl) as [_ Hraise]; [discriminate | ].
    exact (Hraise Hne).
  - destruct (check_expected_step X "wf" "missing" outputs [("name", VJson (JStr "a"))] []
                (VJson (JInt 1)) world0 world0 H) as (Hmiss & _).
    exact (Hmiss eq_refl).
  - destruct (check_expected_step X "wf" "count" outputs [("name", VJson (JStr "a"))] []
                (VJson (JInt 5)) world0 world0 H) as (_ & _ & Hcmp & _).
    destruct (Hcmp (JInt 5) eq_refl) as [Hpass _]; [discriminate | ].
    rewrite Hpass; [reflexivity | ].
    apply value_eqb_spec. reflexivity.
Defined.

(** C7 as stated fails: the expected value [True] is not the output
    value [1], and the check passes, because [True == 1] in Python. *)
Lemma exact_equality_rule_fails :
  ~ exact_equality_rule (reference (prints "")) "wf" "ok" (JBool true) (JInt 1) world0.
Proof.
  intros [H _]. assert (E : JBool true = JInt 1) by (apply H; reflexivity). discriminate E.
Qed.

(** ** The outputs span *)

Lemma scan_outputs_cons (lines todo : list string) (line : string) (i : nat)
    (start : option nat) :
  scan_outputs lines (line :: todo) i start =
  if String.eqb line "{" then
    match lines !! S i with
    | None => inl (IndexError "list index out of range")
    | Some next =>
        if Txt.startswith outputs_marker (Txt.lstrip next)
        then scan_outputs lines todo (S i) (Some i)
        else scan_outputs lines todo (S i) start
    end
  else
    match start with
    | Some s => if String.eqb line "}" then inr (s, i)
                else scan_outputs lines todo (S i) start
    | None => scan_outputs lines todo (S i) start
    end.
Proof. reflexivity. Qed.

(** Lines that open no span and, once a span is open, do not close it,
    are passed over. *)
Lemma scan_outputs_skip (lines skipped todo : list string) (i : nat) (start : option nat) :
  Forall (fun l => l <> "{" /\ (is_Some start -> l <> "}")) skipped ->
  scan_outputs lines (skipped ++ todo) i start
  = scan_outputs lines todo (i + length skipped) start.
Proof.
  intros H. revert i. induction H as [| l skipped [Hopen Hclose] Hrest IH]; intros i.
  - cbn. rewrite Nat.add_0_r. reflexivity.
  - cbn [app scan_outputs length].
    apply String.eqb_neq in Hopen. rewrite Hopen.
    replace (i + S (length skipped))%nat with (S i + length skipped)%nat by lia.
    destruct start as [s | ]; [ | apply IH].
    assert (Hc : l <> "}") by (apply Hclose; eauto).
    apply String.eqb_neq in Hc. rewrite Hc. apply IH.
Qed.

Lemma marker_line_is_no_brace (next : string) :
  Txt.startswith outputs_marker (Txt.lstrip next) = true -> next <> "{" /\ next <> "}".
Proof. intros H. split; intros ->; vm_compute in H; discriminate H. Qed.

(** The scan finds the first span: a line [{] followed by a line that
    starts, after its leading blanks, with the outputs key, up to the
    next line [}]; the lines before it must not hold a line [{], the
    lines after it are never looked at. *)
Lemma scan_outputs_span (pre body post : list string) (next : string) :
  Forall (fun l => l <> "{") pre ->
  Txt.startswith outputs_marker (Txt.lstrip next) = true ->
  Forall (fun l => l <> "{" /\ l <> "}") body ->
  let lines := pre ++ "{" :: next :: body ++ "}" :: post in
  scan_outputs lines lines 0 None = inr (length pre, (length pre + 2 + length body)%nat)
  /\ slice lines (length pre) (length pre + 2 + length body + 1)
     = "{" :: next :: body ++ ["}"].
Proof.
  intros Hpre Hnext Hbody lines. split.
  - unfold lines at 2.
    rewrite scan_outputs_skip
      by (eapply Forall_impl; [exact Hpre | intros l Hl; split; [exact Hl | intros [? ?]; discriminate]]).
    rewrite scan_outputs_cons. change (String.eqb "{" "{") with true. cbn [Nat.add].
    assert (Hlook : lines !! S (length pre) = Some next).
    { unfold lines. rewrite lookup_app_r by lia.
      replace (S (length pre) - length pre)%nat with 1%nat by lia. reflexivity. }
    rewrite Hlook, Hnext.
    change (next :: body ++ "}" :: post) with ((next :: body) ++ "}" :: post).
    rewrite (scan_outputs_skip lines (next :: body) ("}" :: post) (S (length pre))
               (Some (length pre))).
    + rewrite scan_outputs_cons. change (String.eqb "}" "{") with false.
      change (String.eqb "}" "}") with true. cbn [length]. f_equal. f_equal. lia.
    + constructor.
      * destruct (marker_line_is_no_brace next Hnext) as [H1 H2]. split; [exact H1 | intros _; exact H2].
      * eapply Forall_impl; [exact Hbody | ]. intros l [H1 H2]. split; [exact H1 | intros _; exact H2].
  - unfold slice, lines. rewrite drop_app_length.
    replace (length pre + 2 + length body + 1 - length pre)%nat
      with (length ("{" :: next :: body ++ ["}"])) by (cbn; rewrite length_app; cbn; lia).
    change ("{" :: next :: body ++ "}" :: post) with (("{" :: next :: body) ++ [ "}" ] ++ post).
    rewrite app_assoc. change (("{" :: next :: body) ++ ["}"]) with ("{" :: next :: body ++ ["}"]).
    apply take_app_length.
Qed.

(** An output that ends with a line [{], with no line [{] before it, makes
    the scan index past the end. *)
Lemma scan_outputs_trailing_brace (pre : list string) :
  Forall (fun l => l <> "{") pre ->
  scan_outputs (pre ++ ["{"]) (pre ++ ["{"]) 0 None = inl (IndexError "list index out of range").
Proof.
  intros Hpre.
  rewrite scan_outputs_skip
    by (eapply Forall_impl; [exact Hpre | intros l Hl; split; [exact Hl | intros [? ?]; discriminate]]).
  rewrite scan_outputs_cons. change (String.eqb "{" "{") with true. cbn [Nat.add].
  rewrite lookup_ge_None_2 by (rewrite length_app; cbn; lia). reflexivity.
Qed.

(** An output without any line [{] or [}] is reported as holding no
    outputs. *)
Lemma scan_outputs_no_braces (lines : list string) :
  Forall (fun l => l <> "{") lines ->
  scan_outputs lines lines 0 None
  = inl (AssertionError "No outputs JSON found in Cromwell stdout").
Proof.
  intros H.
  rewrite <- (app_nil_r lines) at 2.
  rewrite scan_outputs_skip
    by (eapply Forall_impl; [exact H | intros l Hl; split; [exact Hl | intros [? ?]; discriminate]]).
  reflexivity.
Qed.

(** X16. The outputs of a text that holds a span (a line [{] followed by a
    line that starts, after leading blanks, with the outputs key, up to
    the next line [}], with no line [{] before it) are the [outputs] field
    of the JSON document made of the lines of the span, whatever the log
    lines before and after it. *)
Theorem get_cromwell_outputs_span (X : Externals) (output next : string)
    (pre body post : list string) :
  Txt.splitlines output = pre ++ "{" :: next :: body ++ "}" :: post ->
  Forall (fun l => l <> "{") pre ->
  Txt.startswith outputs_marker (Txt.lstrip next) = true ->
  Forall (fun l => l <> "{" /\ l <> "}") body ->
  get_cromwell_outputs X output
  = match json_loads X (Txt.join (Txt.chr Txt.LF) ("{" :: next :: body ++ ["}"])) with
    | None => inl JSONDecodeError
    | Some doc => py_getitem doc "outputs"
    end.
Proof.
  intros Hlines Hpre Hnext Hbody. unfold get_cromwell_outputs. rewrite Hlines.
  destruct (scan_outputs_span pre body post next Hpre Hnext Hbody) as [-> ->].
  reflexivity.
Qed.

(** An engine output with log lines around the outputs document. *)
Example outputs_between_log_lines :
  get_cromwell_outputs (reference (prints "")) engine_output
  = inr (JDict [("wf.out_txt", JStr "/run/out.txt"); ("wf.count", JInt 5)]).
Proof. vm_compute. reflexivity. Qed.

(** C3 fails on an output that ends with a line [{]: there is no outputs
    span in it, and the scan raises [IndexError] when it looks at the line
    after the last one, where the specification promises the parse error
    ([AssertionError] in the code). *)
Theorem lone_brace_raises_index_error (X : Externals) :
  get_cromwell_outputs X "{" = inl (IndexError "list index out of range").
Proof. reflexivity. Qed.

(** ** The inputs file *)

Lemma abspath_run (p : string) (w : world) : OsPath.abspath p w = (inr (abspath_in w p), w).
Proof. reflexivity. Qed.

Lemma pick_name_fresh (fuel : nat) (d suffix : string) (n n' : nat) (file : string) (w : world) :
  Tempfile.pick_name fuel d suffix n w = Some (n', file) -> OsPath.exists_in w file = false.
Proof.
  revert n. induction fuel as [| fuel IH]; intros n; cbn [Tempfile.pick_name]; [discriminate | ].
  destruct (OsPath.exists_in w (OsPath.join d ("tmp" +:+ pretty n +:+ suffix))) eqn:E;
    [apply IH | ].
  intros H. injection H as _ <-. exact E.
Qed.

Lemma choose_file_keeps (given : option string) (suffix : string) (w w' : world)
    (r : bool * string) :
  choose_file given suffix w = (inr r, w') -> keeps w w'.
Proof.
  unfold choose_file, keeps. destruct given as [f | ].
  - rewrite (bind_inr _ _ _ _ _ (abspath_run f w)).
    erewrite bind_inr by (unfold OsPath.exists_; reflexivity). cbn beta.
    destruct (OsPath.exists_in w (abspath_in w f)).
    + intros H. injection H as _ <-. repeat split; auto.
    + unfold bind, makedirs, ret.
      destruct (bool_decide _); [discriminate | ].
      intros H. injection H as _ <-. cbn. rewrite writes_app. cbn. rewrite app_nil_r.
      repeat split; auto.
  - unfold bind, Tempfile.mkstemp, ret. cbn [default from_option].
    destruct (negb _); [discriminate | ].
    destruct (Tempfile.pick_name _ _ _ _ _) as [[n file] | ] eqn:E; [ | discriminate].
    intros H. injection H as _ <-. cbn. repeat split; auto.
    intros p v Hp. rewrite lookup_insert_ne; [exact Hp | ].
    intros ->. apply pick_name_fresh in E. apply exists_in_false_file in E. congruence.
Qed.

Lemma choose_file_reuse (f suffix text : string) (w : world) :
  files w !! abspath_in w f = Some text ->
  choose_file (Some f) suffix w = (inr (false, abspath_in w f), w).
Proof.
  intros H. unfold choose_file.
  rewrite (bind_inr _ _ _ _ _ (abspath_run f w)).
  erewrite bind_inr by (unfold OsPath.exists_; reflexivity). cbn beta.
  rewrite (exists_in_file _ _ _ H). reflexivity.
Qed.

Section Inputs.
Context (X : Externals).







End Inputs.


Example empty_inputs_file_is_not_decoded :
  (prepare (reference (prints "")) harness0 "wf.wdl" "wf" [("n", VJson (JInt 1))] kwargs0
     (disk [("/run/inputs.json", "")])).1 = inl JSONDecodeError.
Proof. vm_compute. reflexivity. Qed.


(** ** Closed instances *)


(** C10, amended, on the first lookup of the vcf entry. *)
Lemma getitem_manifest_frame_witness :
  _values vcf_catalogue !! "v" = None /\
  assoc "v" (_data vcf_catalogue)
  = Some (JDict [("path", JStr "/data/a.vcf"); ("type", JStr "vcf")]) /\
  assoc "v" (_data (Data_getitem "v" vcf_catalogue world0).1.2)
  = Some (JDict [("path", JStr "/data/a.vcf")]).
Proof.
  assert (Hv : _values vcf_catalogue !! "v" = None) by (vm_compute; reflexivity).
  split; [exact Hv | ]. split; [reflexivity | ].
  destruct (getitem_manifest_frame "v" vcf_catalogue world0) as (_ & _ & _ & _ & Hfirst).
  destruct (Hfirst _ Hv eq_refl) as [Hdrop _]. exact Hdrop.
Defined.

(** An entry made of inline contents alone cannot be resolved either: its
    [_path] is the pair of [mkstemp]. *)
Example contents_only_entry_type_error :
  exists e w1,
    __init__ DataFileCls None None (Some "hello") "/tmp" None None 0 world0 = (inr e, w1) /\
    path (reference (prints "")) e w1
    = (inl (TypeError "stat: path should be string, bytes, os.PathLike or integer, not tuple"),
       w1).
Proof.
  destruct (__init__ DataFileCls None None (Some "hello") "/tmp" None None 0 world0)
    as [[ex | e] w1] eqn:E.
  - vm_compute in E. discriminate E.
  - exists e, w1. split; [reflexivity | ].
    exact (proj2 (scratch_entry_path_raises (reference (prints "")) _ _ _ _ _ _ _ _ _ E)).
Qed.

(** * Further properties of the code *)

(** ** Locations *)

Lemma isabs_cons (p : string) : OsPath.isabs p = true <-> exists r, p = String "/" r.
Proof.
  unfold OsPath.isabs, Txt.startswith. split.
  - destruct p as [| c r]; cbn [String.prefix]; [discriminate | ].
    destruct (ascii_dec "/" c) as [<- | Hne]; [eauto | discriminate].
  - intros [r ->]. cbn [String.prefix]. destruct r; reflexivity.
Qed.

Lemma isabs_join (a b : string) :
  OsPath.isabs a = true -> OsPath.isabs (OsPath.join a b) = true.
Proof.
  intros Ha. unfold OsPath.join.
  destruct (Txt.startswith "/" b) eqn:Eb; [exact Eb | ].
  apply isabs_cons in Ha as [r ->].
  destruct (_ || _)%bool; apply isabs_cons; rewrite append_cons; eauto.
Qed.

Lemma normpath_isabs (p : string) :
  OsPath.isabs p = true -> OsPath.isabs (OsPath.normpath p) = true.
Proof.
  intros Hp. unfold OsPath.normpath.
  destruct (isabs_cons p) as [H _]. destruct (H Hp) as [r ->].
  rewrite bool_decide_eq_false_2 by discriminate.
  change (Txt.startswith "/" (String "/" r)) with (OsPath.isabs (String "/" r)).
  rewrite Hp.
  destruct (_ && _)%bool; rewrite append_cons;
    (rewrite bool_decide_eq_false_2 by discriminate); apply isabs_cons; eauto.
Qed.

Lemma abspath_in_isabs (w : world) (p : string) :
  OsPath.isabs (cwd w) = true -> OsPath.isabs (abspath_in w p) = true.
Proof.
  intros Hc. unfold abspath_in. apply normpath_isabs.
  destruct (OsPath.isabs p) eqn:E; [exact E | apply isabs_join, Hc].
Qed.

(** X1. [DataFile.__init__] with a non-empty [path]: the entry is built
    without touching the disk and its location is a string; an absolute
    path is stored exactly as given (not normalised), a relative one is
    joined to [local_dir] and made absolute, so that the location is
    absolute whenever the working directory is. The [url] is stored but
    plays no part in the location. *)
Theorem init_path_location (c : cls) (p : string) (url contents : option string)
    (local_dir : string) (hh pp : option (list (string * string))) (k : Z) (w : world) :
  p <> "" ->
  let loc := if OsPath.isabs p then p else abspath_in w (OsPath.join local_dir p) in
  __init__ c (Some p) url contents local_dir hh pp k w
  = (inr (mkDataFile c url contents hh pp k (PathStr loc)), w)
  /\ (OsPath.isabs (cwd w) = true -> OsPath.isabs loc = true).
Proof.
  intros Hp loc. split.
  - unfold __init__. rewrite (truthy_some p Hp). cbn [from_option]. unfold id.
    subst loc. destruct (OsPath.isabs p); reflexivity.
  - intros Hc. subst loc. destruct (OsPath.isabs p) eqn:E; [exact E | ].
    apply abspath_in_isabs, Hc.
Qed.

Lemma split_on_app_sep (sep : ascii) (p r : string) :
  Txt.split_on sep (p +:+ String sep r) = Txt.split_on sep p ++ Txt.split_on sep r.
Proof.
  induction p as [| c p IH].
  - rewrite append_nil_l. cbn [Txt.split_on]. rewrite Ascii.eqb_refl. reflexivity.
  - rewrite append_cons. cbn [Txt.split_on]. rewrite IH.
    destruct (Ascii.eqb c sep); [reflexivity | ].
    pose proof (split_on_nonempty sep p) as Hne.
    destruct (Txt.split_on sep p) as [| l ls]; [congruence | reflexivity].
Qed.

Lemma last_snoc {A} (l : list A) (x d : A) : List.last (l ++ [x]) d = x.
Proof.
  induction l as [| y l IH]; [reflexivity | ].
  cbn [app]. destruct (l ++ [x]) eqn:E; [destruct l; discriminate | ].
  cbn [List.last]. exact IH.
Qed.

Lemma url_filename_no_slash (u : string) (w : world) :
  no_char "/" u = true -> url_filename u w = (inl (IndexError "list index out of range"), w).
Proof.
  intros H. unfold url_filename.
  change OsPath.SLASH with "/"%char. rewrite (split_on_single _ _ H). reflexivity.
Qed.

Lemma url_filename_last (prefix name : string) (w : world) :
  no_char "/" name = true ->
  url_filename (prefix +:+ "/" +:+ name) w = (inr name, w).
Proof.
  intros H. unfold url_filename. change OsPath.SLASH with "/"%char.
  change ("/" +:+ name) with (String "/" name).
  rewrite split_on_app_sep, (split_on_single _ _ H).
  pose proof (split_on_nonempty "/" prefix) as Hne.
  destruct (Txt.split_on "/" prefix) as [| l ls] eqn:E; [congruence | ].
  assert (Hlast : List.last ((l :: ls) ++ [name]) "" = name) by apply last_snoc.
  destruct ls as [| l' ls]; cbn [app] in Hlast |- *; unfold ret; rewrite Hlast; reflexivity.
Qed.

(** X2. [DataFile.__init__] with no [path] ([None] or the empty string)
    and a non-empty [url]: a url without any slash makes the constructor
    raise [IndexError]; otherwise the file name is what follows the last
    slash of the url and the location is that name joined to [local_dir],
    made absolute. Nothing on disk changes in either case. *)
Theorem init_url_location (c : cls) (path : option string) (u : string) (contents : option string)
    (local_dir : string) (hh pp : option (list (string * string))) (k : Z) (w : world) :
  truthy path = false -> u <> "" ->
  (no_char "/" u = true ->
   __init__ c path (Some u) contents local_dir hh pp k w
   = (inl (IndexError "list index out of range"), w)) /\
  (forall prefix name, u = prefix +:+ "/" +:+ name -> no_char "/" name = true ->
   __init__ c path (Some u) contents local_dir hh pp k w
   = (inr (mkDataFile c (Some u) contents hh pp k
             (PathStr (abspath_in w (OsPath.join local_dir name)))), w)).
Proof.
  intros Hpath Hu. split.
  - intros Hno. unfold __init__. rewrite Hpath, (truthy_some u Hu). cbn [from_option]. unfold id.
    erewrite bind_inl; [reflexivity | ].
    erewrite bind_inl; [reflexivity | apply url_filename_no_slash, Hno].
  - intros prefix name -> Hname. unfold __init__.
    rewrite Hpath, (truthy_some _ Hu). cbn [from_option]. unfold id.
    erewrite bind_inr; [reflexivity | ].
    erewrite bind_inr by (apply url_filename_last, Hname).
    reflexivity.
Qed.

(** ** Materialisation from a url *)

Section Download.

Context (X : Externals).

Lemma path_downloads (e : DataFile) (p u body : string) (w : world) :
  url e = Some u -> u <> "" -> _path e = PathStr p -> OsPath.exists_in w p = false ->
  urlopen X u (default [] (http_headers e)) (default [] (proxies e)) = Some body ->
  exists w1, path X e w = (inr p, w1) /\
             files w1 !! p = Some body /\
             writes (trace w1) = writes (trace w) ++ [(p, body)] /\
             fetches (trace w1) = fetches (trace w) ++ [u].
Proof.
  intros Hu Hne Hp Hex Hopen.
  unfold path. rewrite Hp. cbn [fspath].
  unfold bind at 1. cbn [ret].
  unfold bind at 1. unfold OsPath.exists_ at 1. rewrite Hex. cbn [negb].
  unfold _persist. rewrite Hu, (truthy_some u Hne), Hp. cbn [orb negb fspath].
  change (default "" (Some u)) with u. rewrite Hopen.
  unfold bind, ret, OsPath.exists_, LOG, write_file.
  destruct (OsPath.exists_in w (OsPath.dirname p)) eqn:Epar; cbn [negb].
  - eexists. split; [reflexivity | ]. cbn. split; [apply lookup_insert_eq | ].
    rewrite !writes_app, !fetches_app. cbn. rewrite !app_nil_r. split; reflexivity.
  - unfold makedirs. rewrite (exists_in_false_file _ _ Epar).
    rewrite bool_decide_eq_false_2 by (intros [? ?]; discriminate).
    eexists. split; [reflexivity | ]. cbn. split; [apply lookup_insert_eq | ].
    rewrite !writes_app, !fetches_app. cbn. rewrite !app_nil_r. split; reflexivity.
Qed.

(** X3. An entry with a url whose location holds no file, on a network
    that answers: the first access of [path] downloads the url once and
    writes the body to the location, whatever the entry's inline contents
    are (the url wins over them); the second access returns the same path
    and leaves the world as it is, so nothing is fetched again. *)
Theorem url_entry_fetched_once (e : DataFile) (p u body : string) (w : world) :
  url e = Some u -> u <> "" -> _path e = PathStr p -> OsPath.exists_in w p = false ->
  urlopen X u (default [] (http_headers e)) (default [] (proxies e)) = Some body ->
  let r1 := path X e w in
  let r2 := path X e r1.2 in
  r1.1 = inr p /\ r2 = (inr p, r1.2) /\
  files r1.2 !! p = Some body /\
  fetches (trace r1.2) = fetches (trace w) ++ [u] /\
  writes (trace r1.2) = writes (trace w) ++ [(p, body)].
Proof.
  intros Hu Hne Hp Hex Hopen r1 r2.
  destruct (path_downloads e p u body w Hu Hne Hp Hex Hopen) as (w1 & Hr1 & Hf & Hw & Hfe).
  subst r2 r1. rewrite Hr1. cbn [fst snd].
  split; [reflexivity | ]. split; [ | auto].
  apply path_existing; [exact Hp | eapply exists_in_file; exact Hf].
Qed.

(** X4. When the download fails, the access of [path] raises the error of
    the request, no file is written, nothing is recorded as fetched, and
    the files on disk are those from before. *)
Theorem failed_download_leaves_no_file (e : DataFile) (p u : string) (w : world) :
  url e = Some u -> u <> "" -> _path e = PathStr p -> OsPath.exists_in w p = false ->
  urlopen X u (default [] (http_headers e)) (default [] (proxies e)) = None ->
  let r := path X e w in
  r.1 = inl (URLError u) /\ files r.2 = files w /\
  writes (trace r.2) = writes (trace w) /\ fetches (trace r.2) = fetches (trace w).
Proof.
  intros Hu Hne Hp Hex Hopen r.
  assert (H : exists w1, path X e w = (inl (URLError u), w1) /\ files w1 = files w /\
                         writes (trace w1) = writes (trace w) /\
                         fetches (trace w1) = fetches (trace w)).
  { unfold path. rewrite Hp. cbn [fspath].
    unfold bind at 1. cbn [ret].
    unfold bind at 1. unfold OsPath.exists_ at 1. rewrite Hex. cbn [negb].
    unfold _persist. rewrite Hu, (truthy_some u Hne), Hp. cbn [orb negb fspath].
    change (default "" (Some u)) with u. rewrite Hopen.
    unfold bind, ret, raise, OsPath.exists_, LOG.
    destruct (OsPath.exists_in w (OsPath.dirname p)) eqn:Epar; cbn [negb].
    - eexists. split; [reflexivity | ]. cbn. repeat split; reflexivity.
    - unfold makedirs. rewrite (exists_in_false_file _ _ Epar).
      rewrite bool_decide_eq_false_2 by (intros [? ?]; discriminate).
      eexists. split; [reflexivity | ].
      cbn. rewrite !writes_app, !fetches_app. cbn. rewrite !app_nil_r. repeat split; reflexivity. }
  destruct H as (w1 & Hr & Hf & Hw & Hfe). subst r. rewrite Hr. cbn [fst snd].
  repeat split; assumption.
Qed.

(** X5. For an entry whose location is a string: if something exists at
    the location the access of [path] returns it and leaves the world
    untouched, whether or not the entry has a url or contents; if nothing
    exists there and the entry has neither url nor contents, the access
    raises [ValueError] naming the location and leaves the world
    untouched. *)
Theorem string_entry_path (e : DataFile) (p : string) (w : world) :
  _path e = PathStr p ->
  (OsPath.exists_in w p = true -> path X e w = (inr p, w)) /\
  (OsPath.exists_in w p = false -> truthy (url e) = false -> truthy (contents e) = false ->
   path X e w =
   (inl (ValueError ("File " +:+ p +:+
      " does not exist. Either a url, file contents, or a local file must be provided.")), w)).
Proof.
  intros Hp. split.
  - intros Hex. apply path_existing; assumption.
  - intros Hex Hu Hc. apply path_no_source; assumption.
Qed.

End Download.

(** ** Comparison: edge cases *)

Section Compare.

Context (X : Externals).



(** X7. The vcf comparison treats a file that does not exist as an empty
    file, under either kind of shell: what the pipeline prints for it is
    the empty text, which is also what it prints for an empty file, and
    the count is that of the [diff] of what it prints for the other file
    against the empty text. The paths are words for the shell. *)
Theorem vcf_missing_file_counts_as_empty (file1 file2 a d : string) (w w1 : world) :
  Tempfile.mkdtemp w = (inr d, w1) ->
  shell_word file1 = true -> shell_word file2 = true ->
  files w !! file1 = Some a -> files w !! file2 = None ->
  file2 <> OsPath.join d "file1" ->
  vcf_pipeline X "" = "" /\
  exists w', _diff X VcfDataFileCls file1 file2 w
             = (inr (Z.of_nat (diff_rows X (vcf_pipeline X a) "")), w').
Proof.
  intros Hmk S1 S2 H1 H2 Hne. split.
  - unfold vcf_pipeline. destruct (ansi_c_quoting X); reflexivity.
  - destruct (vcf_diff_run X _ _ _ _ _ Hmk S1 S2 Hne) as [w' Hrun].
    unfold view_of in Hrun. rewrite H1, H2 in Hrun. eauto.
Qed.

(** X8. When the expected value of an output is a data file and the
    engine's output for that key is not a string (a list of files, a
    number, ...), the check raises [AttributeError] before anything is
    materialised or compared: the world is left as it was and the
    remaining expectations are not looked at. *)
Theorem data_file_needs_string_output (workflow_name name : string) (kv : list (string * json))
    (f : DataFile) (out : json) (rest : list (string * value)) (w : world) :
  assoc (workflow_name +:+ "." +:+ name) kv = Some out ->
  (forall s, out <> JStr s) ->
  check_expected X workflow_name (JDict kv) ((name, VFile f) :: rest) w
  = (inl (AttributeError "object has no attribute 'path'"), w).
Proof.
  intros Hout Hns. cbn [check_expected]. unfold lift, py_in, py_getitem.
  unfold bind at 1. rewrite Hout.
  rewrite bool_decide_eq_true_2 by eauto. cbn [negb].
  unfold bind at 1. unfold bind at 1. unfold assert_contents_equal.
  unfold bind at 1.
  destruct out; try reflexivity. exfalso. eapply Hns. reflexivity.
Qed.

(** X9. For two entries of the default class with both tolerances zero and
    both files on disk, the comparison is symmetric: [a] compares equal to
    [b] exactly when [b] compares equal to [a]. *)
Theorem zero_tolerance_comparison_symmetric (e1 e2 : DataFile) (p1 p2 a b : string)
    (w : world) :
  klass e1 = DataFileCls -> klass e2 = DataFileCls ->
  _path e1 = PathStr p1 -> _path e2 = PathStr p2 ->
  files w !! p1 = Some a -> files w !! p2 = Some b ->
  Z.max (allowed_diff_lines e1) (allowed_diff_lines e2) = 0 ->
  ((assert_contents_equal X e1 (VFile e2) w).1 = inr tt <->
   (assert_contents_equal X e2 (VFile e1) w).1 = inr tt).
Proof.
  intros Hc1 Hc2 Hp1 Hp2 H1 H2 Hmax.
  assert (Hrun : forall (x y : DataFile) px py dx dy,
            klass x = DataFileCls -> _path x = PathStr px -> _path y = PathStr py ->
            files w !! px = Some dx -> files w !! py = Some dy ->
            Z.max (allowed_diff_lines x) (allowed_diff_lines y) = 0 ->
            (assert_contents_equal X x (VFile y) w).1 = inr tt <->
            md5_hexdigest X dx = md5_hexdigest X dy).
  { intros x y px py dx dy Hc Hpx Hpy Hx Hy Hm.
    unfold assert_contents_equal.
    erewrite bind_inr; cycle 1.
    { erewrite bind_inr by (apply path_existing; [eassumption | eapply exists_in_file; eassumption]).
      reflexivity. }
    erewrite bind_inr by (apply path_existing; [eassumption | eapply exists_in_file; eassumption]).
    cbn [fst snd]. rewrite Hc, Hm. cbn [_assert_contents_equal Z.eqb negb].
    rewrite (compare_hashes_present X _ _ dx dy) by assumption. cbn [fst].
    destruct (bool_decide _) eqn:E.
    - apply bool_decide_eq_true in E. split; [intros _; exact E | reflexivity].
    - apply bool_decide_eq_false in E. split; [discriminate | intros H; contradiction]. }
  rewrite (Hrun e1 e2 p1 p2 a b) by assumption.
  rewrite (Hrun e2 e1 p2 p1 b a) by (try assumption; rewrite Z.max_comm; exact Hmax).
  split; intros H; symmetry; exact H.
Qed.

(** X10. Raising the tolerance never turns a passing line comparison into
    a failing one: if [_diff_contents] passes with tolerance [k] it passes,
    with the same final world, for every [k' >= k]; the same holds for
    [_assert_contents_equal] of the vcf class, and of the default class
    when [k] is positive (at zero the default class compares hashes). *)
Theorem tolerance_monotone (c : cls) (file1 file2 : string) (k k' : Z) (w w' : world) :
  k <= k' ->
  (_diff_contents X c file1 file2 k w = (inr tt, w') ->
   _diff_contents X c file1 file2 k' w = (inr tt, w')) /\
  (c = VcfDataFileCls \/ 0 < k ->
   _assert_contents_equal X c file1 file2 k w = (inr tt, w') ->
   _assert_contents_equal X c file1 file2 k' w = (inr tt, w')).
Proof.
  intros Hle.
  assert (Hd : _diff_contents X c file1 file2 k w = (inr tt, w') ->
               _diff_contents X c file1 file2 k' w = (inr tt, w')).
  { unfold _diff_contents.
    match goal with |- context [bind ?m _] => generalize m end.
    intros m. unfold bind. destruct (m w) as [[e | n] w1]; [discriminate | ].
    destruct (n >? k) eqn:E; [discriminate | ].
    intros H. injection H as <-.
    destruct (n >? k') eqn:E'; [ | reflexivity].
    apply Z.gtb_gt in E'. rewrite Z.gtb_ltb in E. apply Z.ltb_ge in E. lia. }
  split; [exact Hd | ].
  intros Hc. unfold _assert_contents_equal. destruct c.
  - destruct Hc as [Hc | Hk]; [discriminate | ].
    destruct (k =? 0) eqn:E; [apply Z.eqb_eq in E; lia | ].
    destruct (k' =? 0) eqn:E'; [apply Z.eqb_eq in E'; lia | ]. exact Hd.
  - exact Hd.
Qed.

End Compare.

(** ** Scopes *)

Lemma mkdtemp_fresh (w w1 : world) (d : string) :
  Tempfile.mkdtemp w = (inr d, w1) -> OsPath.exists_in w d = false.
Proof.
  unfold Tempfile.mkdtemp.
  destruct (Tempfile.pick_name _ _ _ _ _) as [[n d'] | ] eqn:E; [ | discriminate].
  intros H. injection H as <- _. eapply pick_name_fresh, E.
Qed.

Lemma exists_in_false_dir (w : world) (p : string) :
  OsPath.exists_in w p = false -> p ∉ dirs w.
Proof.
  unfold OsPath.exists_in. intros H. apply orb_false_elim in H as [_ H].
  apply bool_decide_eq_false in H. exact H.
Qed.

Lemma rmtree_run (d : string) (w : world) :
  d ∈ dirs w ->
  rmtree d w = (inr tt, emit (EvRmtree d)
                  (with_dirs (filter (fun p => under d p = false) (dirs w))
                     (with_files (filter (fun kv => under d kv.1 = false) (files w)) w))).
Proof. intros Hd. unfold rmtree. rewrite bool_decide_eq_true_2 by exact Hd. reflexivity. Qed.

Lemma filter_under_files (d : string) (m m0 : gmap string string) :
  (forall p, under d p = true -> m0 !! p = None) ->
  (forall p, under d p = false -> m !! p = m0 !! p) ->
  filter (fun kv : string * string => under d kv.1 = false) m = m0.
Proof.
  intros Hbelow Hframe. apply map_eq. intros i.
  destruct (under d i) eqn:Eu.
  - rewrite (Hbelow i Eu). apply map_lookup_filter_None. right.
    intros x _. cbn. rewrite Eu. discriminate.
  - rewrite <- (Hframe i Eu). destruct (m !! i) as [x | ] eqn:Em.
    + apply map_lookup_filter_Some. split; [exact Em | exact Eu].
    + apply map_lookup_filter_None. left. exact Em.
Qed.

Lemma filter_under_dirs (d : string) (s s0 : gset string) :
  (forall p, under d p = true -> p ∉ s0) ->
  (forall p, under d p = false -> (p ∈ s <-> p ∈ s0)) ->
  filter (fun p => under d p = false) s = s0.
Proof.
  intros Hbelow Hframe. apply set_eq. intros p. rewrite elem_of_filter. split.
  - intros [Hu Hp]. apply (Hframe p Hu), Hp.
  - intros Hp. destruct (under d p) eqn:Eu.
    + exfalso. exact (Hbelow p Eu Hp).
    + split; [reflexivity | apply (Hframe p Eu), Hp].
Qed.

(** X11. [tempdir()]: the directory handed to the scope is new (nothing
    existed under that name), it is a directory while the scope runs, and
    it is not one afterwards, whether the scope returned or raised. If the
    scope left it in place, its result or exception is passed on and
    nothing remains at or below the directory; if moreover nothing lay
    below the name before and the scope touched only what is below it, the
    files and directories afterwards are exactly those from before. If the
    scope removed the directory itself, the clean-up raises
    [FileNotFoundError] in place of the scope's outcome. *)
Theorem tempdir_scope {A : Type} (body : string -> M A) (w w1 : world) (d : string) :
  Tempfile.mkdtemp w = (inr d, w1) ->
  let rb := body d w1 in
  let r := tempdir body w in
  OsPath.exists_in w d = false /\ d ∈ dirs w1 /\ files w1 = files w /\
  (d ∉ dirs r.2) /\
  (d ∉ dirs rb.2 -> r = (inl (FileNotFoundError d), rb.2)) /\
  (d ∈ dirs rb.2 ->
     r.1 = rb.1 /\
     (forall p, under d p = true -> files r.2 !! p = None /\ p ∉ dirs r.2) /\
     ((forall p, under d p = true -> files w !! p = None /\ p ∉ dirs w) ->
      (forall p, under d p = false ->
         files rb.2 !! p = files w1 !! p /\ (p ∈ dirs rb.2 <-> p ∈ dirs w1)) ->
      files r.2 = files w /\ dirs r.2 = dirs w)).
Proof.
  intros Hmk rb r.
  destruct (mkdtemp_inr _ _ _ Hmk) as (Hf & Hd & _).
  assert (Hin : d ∈ dirs w1)
    by (rewrite Hd; apply elem_of_union; right; apply elem_of_singleton; reflexivity).
  split; [eapply mkdtemp_fresh, Hmk | ]. split; [exact Hin | ]. split; [exact Hf | ].
  assert (Hr : r = finally (body d) (rmtree d) w1).
  { subst r. unfold tempdir. rewrite (bind_inr _ _ _ _ _ Hmk). reflexivity. }
  unfold finally in Hr. fold rb in Hr. destruct rb as [res w2] eqn:Erb. cbn [fst snd] in *.
  destruct (decide (d ∈ dirs w2)) as [Hd2 | Hd2].
  - rewrite (rmtree_run d w2 Hd2) in Hr. rewrite Hr. cbn [fst snd].
    assert (Hgone : forall p, under d p = true ->
              filter (fun kv : string * string => under d kv.1 = false) (files w2) !! p = None /\
              p ∉ filter (fun p => under d p = false) (dirs w2)).
    { intros p Hp. split.
      - apply map_lookup_filter_None. right. intros x _. cbn. rewrite Hp. discriminate.
      - intros Hq. apply elem_of_filter in Hq as [Hq _]. rewrite Hp in Hq. discriminate Hq. }
    split; [apply (Hgone d), under_refl | ].
    split; [intros Hc; contradiction | ].
    intros _. split; [reflexivity | ]. split; [exact Hgone | ].
    intros Hbelow Hframe. cbn. split.
    + apply filter_under_files.
      * intros p Hp. apply (Hbelow p Hp).
      * intros p Hp. rewrite <- Hf. apply (Hframe p Hp).
    + apply filter_under_dirs.
      * intros p Hp. apply (Hbelow p Hp).
      * intros p Hp. destruct (Hframe p Hp) as [_ Hiff]. rewrite Hiff, Hd.
        rewrite elem_of_union, elem_of_singleton. split; [ | auto].
        intros [Hq | ->]; [exact Hq | ]. rewrite under_refl in Hp. discriminate Hp.
  - rewrite (rmtree_missing d w2 Hd2) in Hr. rewrite Hr. cbn [fst snd].
    split; [exact Hd2 | ]. split; [reflexivity | ]. intros Hc. contradiction.
Qed.

Section Tidy.

Context (X : Externals).





End Tidy.

(** ** The catalogue: caching and retries *)

(** X13. [Data.__getitem__] caches: after a lookup that returned a value,
    the value is stored under the name, and every later lookup of the
    name, in any world, returns the same value and changes neither the
    catalogue nor the world. *)
Theorem getitem_cached (name : string) (self self1 : Data) (v : value) (w w1 w2 : world) :
  Data_getitem name self w = (inr v, self1, w1) ->
  _values self1 !! name = Some v /\
  Data_getitem name self1 w2 = (inr v, self1, w2).
Proof.
  intros H.
  assert (Hv : _values self1 !! name = Some v).
  { unfold Data_getitem in H.
    destruct (_values self !! name) as [v0 | ] eqn:Ev.
    { injection H as <- <- _. exact Ev. }
    destruct (assoc name (_data self)) as [[ | b | n | s | items | kv] | ];
      try (injection H as <- <- _; cbn; apply lookup_insert_eq); try discriminate.
    destruct (DATA_TYPES _); [discriminate | ].
    destruct (construct _ _ _ _ _ _) as [[e | f] w']; [discriminate | ].
    injection H as <- <- _. cbn. apply lookup_insert_eq. }
  split; [exact Hv | ]. unfold Data_getitem. rewrite Hv. reflexivity.
Qed.

Lemma assoc_remove_idem {A} (k : string) (kv : list (string * A)) :
  assoc_remove k (assoc_remove k kv) = assoc_remove k kv.
Proof.
  induction kv as [| [k0 v0] kv IH]; [reflexivity | ].
  cbn [assoc_remove]. destruct (String.eqb k k0) eqn:E; [exact IH | ].
  cbn [assoc_remove]. rewrite E, IH. reflexivity.
Qed.

(** X14. A descriptor whose [type] is not a key of [DATA_TYPES] makes the
    first lookup raise [KeyError] and leaves the world untouched; since the
    [type] key has by then been popped from the stored descriptor, the
    second lookup of the same name builds an entry of the default class
    from the remaining keys. *)
Theorem unknown_type_becomes_default (name t : string) (kv : list (string * json))
    (self : Data) (w : world) :
  _values self !! name = None -> assoc name (_data self) = Some (JDict kv) ->
  assoc "type" kv = Some (JStr t) -> t <> "vcf" -> t <> "default" ->
  let r1 := Data_getitem name self w in
  let r2 := Data_getitem name r1.1.2 w in
  r1.1.1 = inl (KeyError t) /\ r1.2 = w /\
  r2.1.1 = match construct DataFileCls (data_dir self) (data_http_headers self)
                   (data_proxies self) (assoc_remove "type" kv) w with
           | (inl e, _) => inl e
           | (inr f, _) => inr (VFile f)
           end.
Proof.
  intros Hv Hd Ht Hvcf Hdef r1 r2.
  assert (Hty : DATA_TYPES (JStr t) = inl (KeyError t)).
  { unfold DATA_TYPES.
    destruct (String.eqb t "vcf") eqn:E1; [apply String.eqb_eq in E1; congruence | ].
    destruct (String.eqb t "default") eqn:E2; [apply String.eqb_eq in E2; congruence | ].
    clear - E1 E2. 
    repeat (match goal with
            | |- match ?s with EmptyString => _ | String _ _ => _ end = _ => destruct s
            | |- match ?c with Ascii _ _ _ _ _ _ _ _ => _ end = _ => destruct c
            | |- (if ?b then _ else _) = _ => destruct b
            end; try reflexivity; try discriminate). }
  assert (Hr1 : r1 = (inl (KeyError t),
                      mkData (data_dir self) (data_http_headers self) (data_proxies self)
                        (_values self)
                        (assoc_set name (JDict (assoc_remove "type" kv)) (_data self)), w)).
  { subst r1. unfold Data_getitem. rewrite Hv, Hd, Ht.
    change (default (JStr "default") (Some (JStr t))) with (JStr t).
    rewrite Hty. reflexivity. }
  subst r2. rewrite Hr1. cbn [fst snd]. split; [reflexivity | ]. split; [reflexivity | ].
  unfold Data_getitem. cbn [_values _data data_dir data_http_headers data_proxies].
  rewrite Hv, assoc_assoc_set, String.eqb_refl, assoc_remove_gone.
  change (DATA_TYPES (default (JStr "default") None)) with (@inr exn cls DataFileCls).
  cbv iota. rewrite assoc_remove_idem.
  destruct (construct _ _ _ _ _ _) as [[e | f] w']; reflexivity.
Qed.

Lemma init_fields (c : cls) (p u ct : option string) (local_dir : string)
    (hh pp : option (list (string * string))) (k : Z) (w w1 : world) (f : DataFile) :
  __init__ c p u ct local_dir hh pp k w = (inr f, w1) ->
  klass f = c /\ url f = u /\ contents f = ct /\
  http_headers f = hh /\ proxies f = pp /\ allowed_diff_lines f = k.
Proof.
  unfold __init__, bind.
  match goal with |- context [match ?m w with _ => _ end] => destruct (m w) as [[e | pv] w'] end;
    [discriminate | ].
  unfold ret. intros H. injection H as <- _. repeat split; reflexivity.
Qed.

Lemma in_assoc_remove {A} (k : string) (kv : list (string * A)) (e : string * A) :
  In e kv -> e.1 = k \/ In e (assoc_remove k kv).
Proof.
  induction kv as [| [k0 v0] kv IH]; [intros [] | ].
  cbn [assoc_remove]. intros [<- | Hin].
  - cbn [fst]. destruct (String.eqb k k0) eqn:E.
    + left. apply String.eqb_eq in E. auto.
    + right. left. reflexivity.
  - destruct (IH Hin) as [H | H]; [left; exact H | ].
    right. destruct (String.eqb k k0); [exact H | right; exact H].
Qed.

(** X15. The entry that a first lookup builds from a record descriptor:
    its class is the one [DATA_TYPES] gives for the descriptor's [type]
    ([default] when absent), its http headers and proxies are those of the
    catalogue, its url, contents and tolerance are the descriptor's, and
    the descriptor has no key other than [type], [path], [url], [contents]
    and [allowed_diff_lines]. *)
Theorem getitem_builds_entry (name : string) (kv : list (string * json))
    (self self1 : Data) (f : DataFile) (w w1 : world) :
  _values self !! name = None -> assoc name (_data self) = Some (JDict kv) ->
  Data_getitem name self w = (inr (VFile f), self1, w1) ->
  DATA_TYPES (default (JStr "default") (assoc "type" kv)) = inr (klass f) /\
  http_headers f = data_http_headers self /\ proxies f = data_proxies self /\
  kw_string "url" kv = inr (url f) /\ kw_string "contents" kv = inr (contents f) /\
  kw_int "allowed_diff_lines" 0 kv = inr (allowed_diff_lines f) /\
  (forall e, In e kv -> In e.1 ("type" :: init_keywords)).
Proof.
  intros Hv Hd. unfold Data_getitem. rewrite Hv, Hd.
  destruct (DATA_TYPES _) as [e | c] eqn:Ety; [discriminate | ].
  destruct (construct _ _ _ _ _ _) as [[e | f'] w'] eqn:Ec; [discriminate | ].
  intros H. injection H as -> _ _.
  unfold construct in Ec.
  destruct (List.find _ _) as [[k0 v0] | ] eqn:Efind.
  { destruct (bool_decide _); discriminate Ec. }
  unfold bind, lift in Ec.
  destruct (kw_string "path" _) as [e | path] eqn:Epath; [discriminate | ].
  destruct (kw_string "url" _) as [e | u] eqn:Eurl; [discriminate | ].
  destruct (kw_string "contents" _) as [e | cts] eqn:Ects; [discriminate | ].
  destruct (kw_int "allowed_diff_lines" 0 _) as [e | k] eqn:Ek; [discriminate | ].
  destruct (init_fields _ _ _ _ _ _ _ _ _ _ _ Ec) as (Hc & Hu & Hct & Hh & Hp & Ha).
  unfold kw_string, kw_int in *.
  rewrite assoc_assoc_remove in Eurl, Ects, Ek by discriminate.
  rewrite Hc, Hu, Hct, Hh, Hp, Ha. repeat split; try assumption; try reflexivity.
  intros e He. destruct (in_assoc_remove "type" kv e He) as [-> | Hin]; [left; reflexivity | ].
  right. pose proof (List.find_none _ _ Efind e Hin) as Hnone. cbn beta in Hnone.
  apply negb_false_iff, bool_decide_eq_true in Hnone.
  apply list_elem_of_In. exact Hnone.
Qed.

(** ** Outputs: no span *)

Lemma scan_outputs_none (lines todo : list string) (i : nat) :
  (forall j, lines !! j = Some "{" ->
     exists next, lines !! S j = Some next /\
                  Txt.startswith outputs_marker (Txt.lstrip next) = false) ->
  drop i lines = todo ->
  scan_outputs lines todo i None
  = inl (AssertionError "No outputs JSON found in Cromwell stdout").
Proof.
  intros Hopen. revert i. induction todo as [| line todo IH]; intros i Hdrop; [reflexivity | ].
  assert (Hi : lines !! i = Some line).
  { pose proof (lookup_drop lines i 0) as H0. rewrite Hdrop, Nat.add_0_r in H0.
    symmetry. exact H0. }
  assert (Hnext : drop (S i) lines = todo).
  { replace (S i) with (i + 1)%nat by lia. rewrite <- drop_drop, Hdrop. reflexivity. }
  rewrite scan_outputs_cons. destruct (String.eqb line "{") eqn:E.
  - apply String.eqb_eq in E. subst line.
    destruct (Hopen i Hi) as (next & -> & ->). apply IH, Hnext.
  - apply IH, Hnext.
Qed.

(** An output in which no line opens a span. *)
Lemma outputs_never_opened (X : Externals) (output : string) :
  (forall j, Txt.splitlines output !! j = Some "{" ->
     exists next, Txt.splitlines output !! S j = Some next /\
                  Txt.startswith outputs_marker (Txt.lstrip next) = false) ->
  get_cromwell_outputs X output
  = inl (AssertionError "No outputs JSON found in Cromwell stdout").
Proof.
  intros H. unfold get_cromwell_outputs.
  rewrite (scan_outputs_none (Txt.splitlines output) (Txt.splitlines output) 0 H eq_refl).
  reflexivity.
Qed.

(** An output whose span is opened and never closed. *)
Lemma outputs_never_closed (X : Externals) (output next : string)
    (pre body : list string) :
  Txt.splitlines output = pre ++ "{" :: next :: body ->
  Forall (fun l => l <> "{") pre ->
  Txt.startswith outputs_marker (Txt.lstrip next) = true ->
  Forall (fun l => l <> "{" /\ l <> "}") body ->
  get_cromwell_outputs X output
  = inl (AssertionError "No outputs JSON found in Cromwell stdout").
Proof.
  intros Hlines Hpre Hnext Hbody. unfold get_cromwell_outputs. rewrite Hlines.
  set (lines := pre ++ "{" :: next :: body).
  assert (Hscan : scan_outputs lines lines 0 None
                  = inl (AssertionError "No outputs JSON found in Cromwell stdout")).
  { unfold lines at 2.
    rewrite scan_outputs_skip
      by (eapply Forall_impl; [exact Hpre | intros l Hl; split; [exact Hl | intros [? ?]; discriminate]]).
    rewrite scan_outputs_cons. change (String.eqb "{" "{") with true. cbn [Nat.add].
    assert (Hlook : lines !! S (length pre) = Some next).
    { unfold lines. rewrite lookup_app_r by lia.
      replace (S (length pre) - length pre)%nat with 1%nat by lia. reflexivity. }
    rewrite Hlook, Hnext.
    rewrite <- (app_nil_r (next :: body)).
    rewrite (scan_outputs_skip lines (next :: body) [] (S (length pre)) (Some (length pre))).
    - reflexivity.
    - constructor.
      + destruct (marker_line_is_no_brace next Hnext) as [H1 H2]. split; [exact H1 | intros _; exact H2].
      + eapply Forall_impl; [exact Hbody | ]. intros l [H1 H2]. split; [exact H1 | intros _; exact H2]. }
  rewrite Hscan. reflexivity.
Qed.

(** X17. An engine output without a complete outputs span is reported
    with the [AssertionError] of the missing outputs in both of these
    cases: every line [{] is followed by a line that does not start (after
    leading blanks) with the outputs key, so that no span is ever opened;
    or a span is opened, with no line [{] before it, and no line [}]
    follows to close it. *)
Theorem no_outputs_span_assertion_error (X : Externals) (output : string) :
  ((forall j, Txt.splitlines output !! j = Some "{" ->
      exists next, Txt.splitlines output !! S j = Some next /\
                   Txt.startswith outputs_marker (Txt.lstrip next) = false) ->
   get_cromwell_outputs X output
   = inl (AssertionError "No outputs JSON found in Cromwell stdout")) /\
  (forall pre next body,
     Txt.splitlines output = pre ++ "{" :: next :: body ->
     Forall (fun l => l <> "{") pre ->
     Txt.startswith outputs_marker (Txt.lstrip next) = true ->
     Forall (fun l => l <> "{" /\ l <> "}") body ->
     get_cromwell_outputs X output
     = inl (AssertionError "No outputs JSON found in Cromwell stdout")).
Proof.
  split.
  - apply outputs_never_opened.
  - intros pre next body. apply outputs_never_closed.
Qed.

(** ** Script and import paths *)


Lemma get_path_isabs (self : CromwellHarness) (p : string) :
  OsPath.isabs (project_root self) = true -> OsPath.isabs (_get_path self p) = true.
Proof.
  intros Hr. unfold _get_path. destruct (OsPath.isabs p) eqn:E; cbn [negb]; [exact E | ].
  apply isabs_join, Hr.
Qed.

(** X18. [_get_path] of a harness whose project root is absolute always
    gives an absolute path, leaves an absolute path as it is, and is
    idempotent. *)
Theorem get_path_idempotent (self : CromwellHarness) (p : string) :
  OsPath.isabs (project_root self) = true ->
  OsPath.isabs (_get_path self p) = true /\
  _get_path self (_get_path self p) = _get_path self p /\
  (OsPath.isabs p = true -> _get_path self p = p).
Proof.
  intros Hr. pose proof (get_path_isabs self p Hr) as Habs.
  split; [exact Habs | ]. split.
  - unfold _get_path at 1. rewrite Habs. reflexivity.
  - intros Hp. unfold _get_path. rewrite Hp. reflexivity.
Qed.


(** ** Changing directory *)

Lemma with_cwd_same (w : world) : with_cwd (cwd w) w = w.
Proof. destruct w. reflexivity. Qed.

Lemma chdir_run {A : Type} (todir : string) (body : string -> M A) (w : world) :
  cwd w ∈ dirs w ->
  (todir ∉ dirs w -> chdir todir body w = (inl (chdir_error w todir), w)) /\
  (todir ∈ dirs w ->
     let rb := body todir (with_cwd todir w) in
     (cwd w ∈ dirs rb.2 -> chdir todir body w = (rb.1, with_cwd (cwd w) rb.2)) /\
     (cwd w ∉ dirs rb.2 ->
        chdir todir body w = (inl (chdir_error rb.2 (cwd w)), rb.2))).
Proof.
  intros Hcur. split.
  - intros Hno. unfold chdir.
    erewrite bind_inr by (unfold get_world; reflexivity). unfold finally.
    erewrite bind_inl by (unfold chdir_to; rewrite bool_decide_eq_false_2 by exact Hno; reflexivity).
    unfold chdir_to. rewrite bool_decide_eq_true_2 by exact Hcur.
    rewrite with_cwd_same. reflexivity.
  - intros Hto rb. unfold chdir.
    erewrite bind_inr by (unfold get_world; reflexivity). unfold finally.
    erewrite bind_inr by (unfold chdir_to; rewrite bool_decide_eq_true_2 by exact Hto; reflexivity).
    fold rb. destruct rb as [res w2]. cbn [fst snd]. unfold chdir_to. split; intros H.
    + rewrite bool_decide_eq_true_2 by exact H. reflexivity.
    + rewrite bool_decide_eq_false_2 by exact H. reflexivity.
Qed.

(** The error of [os.chdir] on a regular file, and where nothing is. *)
Lemma chdir_error_cases (w : world) (d : string) :
  (is_Some (files w !! d) -> chdir_error w d = NotADirectoryError d) /\
  (through_file w d = false -> chdir_error w d = FileNotFoundError d).
Proof.
  unfold chdir_error. split.
  - intros Hf. replace (through_file w d) with true; [reflexivity | ].
    symmetry. unfold through_file. apply existsb_exists. exists d. split.
    + apply list_elem_of_In, ancestors_head.
    + apply bool_decide_eq_true_2, Hf.
  - intros ->. reflexivity.
Qed.

(** X20. [chdir(todir)], called in a working directory that exists. If
    [todir] is not a directory the scope is not run, the world is
    unchanged and the error of [os.chdir] is raised: [NotADirectoryError]
    when [todir] is a regular file (or leads through one),
    [FileNotFoundError] when nothing is there. Otherwise the scope runs
    with [todir] as working directory and, when the original directory is
    still a directory at the end, the result or exception of the scope is
    passed on and the working directory is the original one again; when it
    is not, the way back raises the error of [os.chdir] in place of the
    scope's outcome ([FileNotFoundError] when the directory was removed). *)
Theorem chdir_scope {A : Type} (todir : string) (body : string -> M A) (w : world) :
  cwd w ∈ dirs w ->
  (todir ∉ dirs w ->
     chdir todir body w = (inl (chdir_error w todir), w) /\
     (is_Some (files w !! todir) -> chdir_error w todir = NotADirectoryError todir) /\
     (through_file w todir = false -> chdir_error w todir = FileNotFoundError todir)) /\
  (todir ∈ dirs w ->
     let rb := body todir (with_cwd todir w) in
     (cwd w ∈ dirs rb.2 ->
        chdir todir body w = (rb.1, with_cwd (cwd w) rb.2) /\
        cwd (chdir todir body w).2 = cwd w) /\
     (cwd w ∉ dirs rb.2 ->
        chdir todir body w = (inl (chdir_error rb.2 (cwd w)), rb.2) /\
        (through_file rb.2 (cwd w) = false ->
         chdir_error rb.2 (cwd w) = FileNotFoundError (cwd w)))).
Proof.
  intros Hcur. destruct (chdir_run todir body w Hcur) as [Hmiss Hrun].
  split.
  - intros Hno. split; [apply Hmiss, Hno | apply chdir_error_cases].
  - intros Hto rb. destruct (Hrun Hto) as [Hback Hgone]. split.
    + intros H. split; [apply Hback, H | ]. rewrite (Hback H). reflexivity.
    + intros H. split; [apply Hgone, H | apply chdir_error_cases].
Qed.

Section RunnerFacts.
Context (X : Externals).

(** X21. The callable of [workflow_runner], called in a working directory
    that exists. With an execution directory that is not a directory
    nothing is run, the world is unchanged and the error of [os.chdir] is
    raised ([NotADirectoryError] for a regular file, [FileNotFoundError]
    where nothing is); otherwise the workflow is run, without keyword
    arguments, with the execution directory as working directory, and its
    outcome is passed on with the working directory set back to the
    original one. *)
Theorem workflow_runner_runs_in_execution_dir (h : CromwellHarness) (d wdl name : string)
    (inputs expected : list (string * value)) (w : world) :
  cwd w ∈ dirs w ->
  (d ∉ dirs w ->
   Fixtures.workflow_runner X h d wdl name inputs expected w = (inl (chdir_error w d), w) /\
   (is_Some (files w !! d) -> chdir_error w d = NotADirectoryError d) /\
   (through_file w d = false -> chdir_error w d = FileNotFoundError d)) /\
  (d ∈ dirs w ->
   let rb := run_workflow X h wdl name inputs expected (mkKwargs None None None None None)
               (with_cwd d w) in
   cwd w ∈ dirs rb.2 ->
   Fixtures.workflow_runner X h d wdl name inputs expected w
   = (rb.1, with_cwd (cwd w) rb.2)).
Proof.
  intros Hcur. unfold Fixtures.workflow_runner.
  destruct (chdir_run d (fun _ => run_workflow X h wdl name inputs expected
                                    (mkKwargs None None None None None)) w Hcur)
    as [Hmiss Hrun].
  split.
  - intros Hno. split; [apply Hmiss, Hno | apply chdir_error_cases].
  - intros Hd. cbv zeta. intros Hback.
    destruct (Hrun Hd) as [H1 _]. apply H1, Hback.
Qed.

End RunnerFacts.

(** ** Values taken from the environment *)

Lemma env_map_loop_run (items acc : list (string * string)) (w : world) :
  NoDup (map fst items) ->
  (forall k, In k (map fst items) -> assoc k acc = None) ->
  exists res, Fixtures._env_map_loop items acc w = (inr res, w) /\
    forall name, assoc name res
                 = match assoc name acc with
                   | Some v => Some v
                   | None => assoc name items ≫= env_value w
                   end.
Proof.
  revert acc. induction items as [| [k ev] items IH]; intros acc Hnd Hfresh.
  - exists acc. split; [reflexivity | ]. intros name. destruct (assoc name acc); reflexivity.
  - cbn [map fst] in Hnd. apply NoDup_cons in Hnd as [Hk Hnd].
    cbn [Fixtures._env_map_loop].
    erewrite bind_inr by (unfold environ_get; reflexivity).
    set (acc' := if truthy (environ w !! ev)
                 then assoc_set k (default "" (environ w !! ev)) acc else acc).
    assert (Hacc' : forall name, assoc name acc'
                    = if String.eqb name k then env_value w ev else assoc name acc).
    { intros name. unfold acc', env_value.
      destruct (String.eqb name k) eqn:E.
      - apply String.eqb_eq in E. subst name.
        destruct (environ w !! ev) as [[| c s] | ]; cbn [truthy].
        + apply Hfresh. left. reflexivity.
        + rewrite assoc_assoc_set, String.eqb_refl. reflexivity.
        + apply Hfresh. left. reflexivity.
      - destruct (truthy _); [ | reflexivity]. rewrite assoc_assoc_set, E. reflexivity. }
    destruct (IH acc' Hnd) as (res & Hrun & Hres).
    { intros k' Hk'. rewrite Hacc'.
      destruct (String.eqb k' k) eqn:E.
      - apply String.eqb_eq in E. subst k'. exfalso. apply Hk. apply list_elem_of_In. exact Hk'.
      - apply Hfresh. right. exact Hk'. }
    exists res. split; [exact Hrun | ]. intros name. rewrite Hres, Hacc'. cbn [assoc].
    destruct (String.eqb name k) eqn:E.
    + apply String.eqb_eq in E. subst name.
      rewrite (Hfresh k) by (left; reflexivity). cbn [mbind option_bind].
      destruct (env_value w ev) eqn:Ev; [reflexivity | ].
      assert (Hnone : assoc k items = None).
      { clear - Hk. induction items as [| [k0 v0] items IH]; [reflexivity | ].
        cbn [assoc]. destruct (String.eqb k k0) eqn:E.
        - apply String.eqb_eq in E. subst k0. exfalso. apply Hk. cbn. left.
        - apply IH. intros H. apply Hk. cbn. right. exact H. }
      rewrite Hnone. reflexivity.
    + reflexivity.
Qed.

(** X22. [_env_map] reads the environment and changes nothing; a key of
    the given mapping is in the result exactly when its environment
    variable is set to a non-empty value, and it is then bound to that
    value: unset and empty variables produce no entry. *)
Theorem env_map_keeps_set_variables (key_env_map : list (string * string)) (w : world) :
  NoDup (map fst key_env_map) ->
  exists env_map,
    Fixtures._env_map key_env_map w = (inr env_map, w) /\
    forall name v,
      assoc name env_map = Some v <->
      exists ev, assoc name key_env_map = Some ev /\ environ w !! ev = Some v /\ v <> "".
Proof.
  intros Hnd. destruct (env_map_loop_run key_env_map [] w Hnd) as (res & Hrun & Hres).
  { intros k _. reflexivity. }
  exists res. split; [exact Hrun | ]. intros name v. rewrite Hres. cbn [assoc].
  destruct (assoc name key_env_map) as [ev | ]; cbn [mbind option_bind].
  - unfold env_value. split.
    + destruct (environ w !! ev) as [[| c s] | ] eqn:Ee; try discriminate.
      intros H. injection H as <-. exists ev. repeat split; [exact Ee | discriminate].
    + intros (ev' & Hev & Hv & Hne). injection Hev as <-. rewrite Hv.
      destruct v; [congruence | reflexivity].
  - split; [discriminate | intros (ev & H & _); discriminate].
Qed.

(** ** The java binary and the engine archive *)

Lemma normpath_nonempty (p : string) : OsPath.normpath p <> "".
Proof.
  unfold OsPath.normpath. destruct (bool_decide (p = "")); [discriminate | ].
  destruct (bool_decide (_ = "")) eqn:E; [discriminate | ].
  apply bool_decide_eq_false in E. exact E.
Qed.

Lemma string_snoc_cases (s : string) : s = "" \/ exists t c, s = t +:+ String c "".
Proof.
  induction s as [| a s IH]; [left; reflexivity | right].
  destruct IH as [-> | (t & c & ->)].
  - exists "", a. reflexivity.
  - exists (String a t), c. reflexivity.
Qed.

Lemma endswith_slash_snoc_eq (s : string) (c : ascii) :
  Txt.endswith "/" (s +:+ String c "") = Ascii.eqb "/"%char c.
Proof.
  unfold Txt.endswith, String.rev. rewrite rev_app_snoc.
  cbn [String.rev_app String.prefix].
  destruct (ascii_dec "/" c) as [E | E].
  - subst c. destruct (String.rev_app s ""); reflexivity.
  - symmetry. apply Ascii.eqb_neq. exact E.
Qed.

Lemma join_name (a name : string) :
  a <> "" -> Txt.startswith "/" name = false ->
  exists t, OsPath.join a name = t +:+ "/" +:+ name.
Proof.
  intros Ha Hn. unfold OsPath.join. rewrite Hn.
  rewrite bool_decide_eq_false_2 by exact Ha. cbn [orb].
  destruct (string_snoc_cases a) as [-> | (t & c & ->)]; [congruence | ].
  rewrite endswith_slash_snoc_eq. destruct (Ascii.eqb "/" c) eqn:E.
  - apply Ascii.eqb_eq in E. subst c. exists t. rewrite append_assoc. reflexivity.
  - eexists. reflexivity.
Qed.

(** X23. [java_bin()]: without [JAVA_HOME] the binary is
    [/usr/bin/java]; in every environment the result ends with
    [/bin/java], and it is absolute when the working directory is. *)
Theorem java_bin_location (w : world) :
  (environ w !! "JAVA_HOME" = None -> Fixtures.java_bin w = (inr "/usr/bin/java", w)) /\
  exists t, Fixtures.java_bin w = (inr (t +:+ "/bin/java"), w) /\
            (OsPath.isabs (cwd w) = true -> OsPath.isabs (t +:+ "/bin/java") = true).
Proof.
  split.
  - intros H. unfold Fixtures.java_bin.
    erewrite bind_inr by (unfold environ_get; reflexivity). rewrite H. reflexivity.
  - unfold Fixtures.java_bin.
    erewrite bind_inr by (unfold environ_get; reflexivity).
    rewrite (bind_inr _ _ _ _ _ (abspath_run _ w)). unfold ret.
    set (a := abspath_in w _).
    assert (Ha : a <> "") by apply normpath_nonempty.
    destruct (join_name a "bin" Ha eq_refl) as [t Ht]. rewrite Ht.
    assert (Hj : OsPath.join (t +:+ "/" +:+ "bin") "java" = t +:+ "/bin/java").
    { unfold OsPath.join. change (Txt.startswith "/" "java") with false. cbv iota.
      change (t +:+ "/" +:+ "bin") with (t +:+ "/bi" +:+ String "n" "").
      rewrite <- append_assoc, endswith_slash_snoc_eq.
      rewrite bool_decide_eq_false_2.
      - cbn [orb Ascii.eqb]. cbv iota. rewrite !append_assoc. reflexivity.
      - destruct t; discriminate. }
    exists t. rewrite Hj. split; [reflexivity | ].
    intros Hc. rewrite <- Hj, <- Ht. apply isabs_join, isabs_join.
    apply abspath_in_isabs, Hc.
Qed.

(** X24. [cromwell_jar_file()]: when [CROMWELL_JAR] is set its value is
    returned as it is, even empty, and the class path is not looked at;
    otherwise the result is the first entry of the class path whose base
    name starts with [cromwell] in any letter case, and [cromwell.jar]
    when there is no such entry or no class path. *)
Theorem cromwell_jar_file_choice (w : world) :
  (forall v, environ w !! "CROMWELL_JAR" = Some v ->
     Fixtures.cromwell_jar_file w = (inr v, w)) /\
  (environ w !! "CROMWELL_JAR" = None ->
   exists r, Fixtures.cromwell_jar_file w = (inr r, w) /\
     ((r = "cromwell.jar" /\
       forall cp, environ w !! "CLASSPATH" = Some cp -> cp <> "" ->
         Forall (fun p => Txt.startswith "cromwell" (Txt.lower (OsPath.basename p)) = false)
                (Txt.split_on ":" cp)) \/
      exists cp pre post,
        environ w !! "CLASSPATH" = Some cp /\
        Txt.split_on ":" cp = pre ++ r :: post /\
        Txt.startswith "cromwell" (Txt.lower (OsPath.basename r)) = true /\
        Forall (fun p => Txt.startswith "cromwell" (Txt.lower (OsPath.basename p)) = false) pre)).
Proof.
  split.
  - intros v H. unfold Fixtures.cromwell_jar_file.
    erewrite bind_inr by (unfold environ_get; reflexivity). rewrite H. reflexivity.
  - intros H. unfold Fixtures.cromwell_jar_file.
    erewrite bind_inr by (unfold environ_get; reflexivity). rewrite H.
    erewrite bind_inr by (unfold environ_get; reflexivity).
    destruct (environ w !! "CLASSPATH") as [cp | ] eqn:Ecp.
    2:{ exists "cromwell.jar". split; [reflexivity | ]. left. split; [reflexivity | ].
        intros cp Hcp. discriminate Hcp. }
    destruct cp as [| c0 cp0] eqn:Ecp0.
    { exists "cromwell.jar". split; [reflexivity | ]. left. split; [reflexivity | ].
      intros cp' Hcp' Hne. injection Hcp' as <-. congruence. }
    rewrite <- Ecp0. assert (Ht : truthy (Some cp) = true) by (subst cp; reflexivity).
    rewrite Ht. change (default "" (Some cp)) with cp.
    destruct (List.find _ (Txt.split_on ":" cp)) as [r | ] eqn:Efind.
    + exists r. split; [reflexivity | ]. right.
      destruct (List.find_some _ _ Efind) as [Hin Hr].
      assert (Hsplit : exists pre post, Txt.split_on ":" cp = pre ++ r :: post /\
                Forall (fun p => Txt.startswith "cromwell" (Txt.lower (OsPath.basename p)) = false) pre).
      { clear Hin. revert Efind. generalize (Txt.split_on ":" cp).
        induction l as [| x l IH]; [discriminate | ].
        cbn [List.find]. destruct (Txt.startswith "cromwell" (Txt.lower (OsPath.basename x))) eqn:Ex.
        - intros E. injection E as ->. exists [], l. split; [reflexivity | constructor].
        - intros E. destruct (IH E) as (pre & post & -> & Hpre).
          exists (x :: pre), post. split; [reflexivity | constructor; assumption]. }
      destruct Hsplit as (pre & post & Hs & Hpre).
      exists cp, pre, post. repeat split; assumption.
    + exists "cromwell.jar". split; [reflexivity | ]. left. split; [reflexivity | ].
      intros cp' Hcp' _. injection Hcp' as <-. apply Forall_forall. intros p Hp.
      apply list_elem_of_In in Hp. exact (List.find_none _ _ Efind p Hp).
Qed.

(** ** Inputs with data files inside *)

Section Nested.
Context (X : Externals).

Lemma jsonify_resolved (v : value) (w : world) :
  ready_deep w v -> jsonify X v w = (inr (resolved v), w).
Proof.
  revert v w. fix IH 1. intros [j | f | items | kv] w Hr.
  - reflexivity.
  - cbn [ready_deep] in Hr. destruct Hr as (p & Hp & [d Hd]).
    cbn [jsonify resolved].
    erewrite bind_inr by (apply path_existing; [exact Hp | eapply exists_in_file; exact Hd]).
    rewrite Hp. reflexivity.
  - cbn [jsonify resolved]. cbn [ready_deep] in Hr.
    erewrite bind_inr; [reflexivity | ].
    induction items as [| x xs IHxs]; [reflexivity | ].
    destruct Hr as [Hx Hxs].
    rewrite (bind_inr _ _ _ _ _ (IH x w Hx)).
    rewrite (bind_inr _ _ _ _ _ (IHxs Hxs)). reflexivity.
  - cbn [jsonify resolved]. cbn [ready_deep] in Hr.
    erewrite bind_inr; [reflexivity | ].
    induction kv as [| [k x] xs IHxs]; [reflexivity | ].
    destruct Hr as [Hx Hxs].
    rewrite (bind_inr _ _ _ _ _ (IH x w Hx)).
    rewrite (bind_inr _ _ _ _ _ (IHxs Hxs)). reflexivity.
Qed.

(** The generator of [run_workflow] replaces a data file at the top level
    by its path. *)
Lemma qualify_deep (workflow_name : string) (inputs : list (string * value)) (w : world) :
  Forall (fun e => ready_deep w e.2) inputs ->
  exists kv, qualify_inputs X workflow_name inputs w = (inr kv, w) /\
             ready_deep w (VDict kv) /\
             resolved (VDict kv)
             = JDict (map (fun e => (workflow_name +:+ "." +:+ e.1, resolved e.2)) inputs).
Proof.
  induction 1 as [| [key v] inputs Hv Hrest IH].
  - exists []. repeat split; reflexivity.
  - destruct IH as (kv & Hrun & Hready & Hres). cbn [fst snd] in Hv.
    assert (Hq : exists v', match v with
                            | VFile f => p <- path X f ;; ret (VJson (JStr p))
                            | _ => ret v
                            end w = (inr v', w) /\ ready_deep w v' /\ resolved v' = resolved v).
    { destruct v as [j | f | l | d].
      - exists (VJson j). repeat split.
      - destruct Hv as (p & Hp & [dt Hd]). exists (VJson (JStr p)). split; [ | split].
        + erewrite bind_inr by (apply path_existing; [exact Hp | eapply exists_in_file; exact Hd]).
          reflexivity.
        + exact I.
        + cbn [resolved]. rewrite Hp. reflexivity.
      - exists (VList l). split; [reflexivity | split; [exact Hv | reflexivity]].
      - exists (VDict d). split; [reflexivity | split; [exact Hv | reflexivity]]. }
    destruct Hq as (v' & Hqv & Hrv & Heq).
    exists ((workflow_name +:+ "." +:+ key, v') :: kv). split; [ | split].
    + cbn [qualify_inputs]. rewrite (bind_inr _ _ _ _ _ Hqv), (bind_inr _ _ _ _ _ Hrun).
      reflexivity.
    + cbn [ready_deep] in Hready |- *. split; assumption.
    + cbn [resolved map fst snd] in Hres |- *. rewrite Heq. injection Hres as ->. reflexivity.
Qed.

(** X25. Inputs that hold data files inside lists or dicts: when every data
    file in the inputs has a string path that holds a file, the inputs
    file that [run_workflow] writes is the JSON mapping from
    [workflow_name.key] to the value in which every data file, at the top
    level or nested, is replaced by its path ([json.dump] falls back on
    [str], which is [DataFile.__str__]); that text is written once, to the
    inputs file. *)
Theorem nested_inputs_written_as_paths (file workflow_name : string)
    (inputs : list (string * value)) (w : world) :
  Forall (fun e => ready_deep w e.2) inputs ->
  let text := json_dumps X (JDict (map (fun e => (workflow_name +:+ "." +:+ e.1, resolved e.2))
                                       inputs)) in
  exists bound w',
    make_inputs X true file workflow_name inputs w = (inr bound, w') /\
    files w' !! file = Some text /\
    writes (trace w') = writes (trace w) ++ [(file, text)].
Proof.
  intros Hready text. destruct (qualify_deep workflow_name inputs w Hready) as (kv & Hrun & Hr & Hres).
  assert (Hd : forall w0, ready_deep w0 (VDict kv) ->
                 dumps_default_str X (VDict kv) w0 = (inr text, w0)).
  { intros w0 H0. unfold dumps_default_str.
    rewrite (bind_inr _ _ _ _ _ (jsonify_resolved (VDict kv) w0 H0)). rewrite Hres. reflexivity. }
  exists (VDict kv). eexists. split; [ | split].
  - unfold make_inputs. rewrite (bind_inr _ _ _ _ _ Hrun).
    rewrite (bind_inr _ _ _ _ _ (Hd w Hr)).
    erewrite bind_inr by (unfold write_file; reflexivity). reflexivity.
  - cbn. apply lookup_insert_eq.
  - cbn. rewrite writes_app. reflexivity.
Qed.

End Nested.

(** ** Expected values that hold data files *)

Lemma value_eqb_list_with_file (items : list value) (f : DataFile) (out : json) :
  In (VFile f) items -> value_eqb (VList items) out = false.
Proof.
  intros Hin. destruct out as [ | b | n | s | ys | kv]; try reflexivity.
  cbn [value_eqb]. revert ys. induction items as [| x xs IH]; intros ys; [destruct Hin | ].
  destruct ys as [| y ys]; [reflexivity | ].
  destruct Hin as [-> | Hin].
  - reflexivity.
  - rewrite (IH Hin). apply andb_false_r.
Qed.

Section ExpectedLists.
Context (X : Externals).

(** X26. An expected value that is a list holding a data file never equals
    the engine's output: a [DataFile] has no [__eq__] and equals no JSON
    value, so the check of such an expectation raises the
    [AssertionError] of the [assert], whatever the output is, and nothing
    is compared by content. *)
Theorem expected_list_of_files_never_matches (workflow_name name : string)
    (kv : list (string * json)) (items : list value) (f : DataFile) (out : json)
    (rest : list (string * value)) (w : world) :
  assoc (workflow_name +:+ "." +:+ name) kv = Some out ->
  In (VFile f) items ->
  check_expected X workflow_name (JDict kv) ((name, VList items) :: rest) w
  = (inl (AssertionError ""), w).
Proof.
  intros Hout Hin. cbn [check_expected]. unfold lift, py_in, py_getitem.
  unfold bind at 1. rewrite Hout.
  rewrite bool_decide_eq_true_2 by eauto. cbn [negb].
  unfold bind at 1. unfold bind at 1.
  rewrite (value_eqb_list_with_file items f out Hin). reflexivity.
Qed.

(** ** The imports archive *)

(** X27. When the caller supplies an [imports_file] that exists, no archive
    is built and the command line carries no [-p] option at all, whatever
    import paths the harness has: the existing archive is not passed to
    the engine. *)
Theorem existing_imports_file_is_not_passed (self : CromwellHarness) (wdl workflow_name : string)
    (inputs : list (string * value)) (kw : kwargs) (f z cmd : string) (w w' : world) :
  execution_dir kw = None -> imports_file kw = Some f ->
  files w !! abspath_in w f = Some z ->
  prepare X self wdl workflow_name inputs kw w = (inr cmd, w') ->
  exists file,
    cmd = command_line self (default "" (java_args kw)) (default "" (cromwell_args kw))
            file "" (_get_path self wdl).
Proof.
  intros He Hf Hz. unfold prepare. rewrite He, Hf.
  unfold bind at 1. cbn [ret].
  unfold bind at 1.
  destruct (choose_file (inputs_file kw) ".json" w) as [[e | wi] w1] eqn:E1; [discriminate | ].
  destruct (choose_file_keeps _ _ _ _ _ E1) as (Hcwd & _ & _ & Hkeep).
  assert (Habs : abspath_in w1 f = abspath_in w f) by (unfold abspath_in; rewrite Hcwd; reflexivity).
  assert (Hz1 : files w1 !! abspath_in w1 f = Some z) by (rewrite Habs; apply Hkeep, Hz).
  rewrite (bind_inr _ _ _ _ _ (choose_file_reuse f ".zip" z w1 Hz1)). cbn [fst snd].
  unfold bind at 1.
  destruct (make_inputs X wi.1 wi.2 workflow_name inputs w1) as [[e | ci] w2]; [discriminate | ].
  assert (Hm : make_imports X self false (abspath_in w1 f) w2 = (inr "", w2)).
  { unfold make_imports. destruct (import_paths self) as [[| p ps] | ]; reflexivity. }
  rewrite (bind_inr _ _ _ _ _ Hm).
  unfold bind at 1.
  destruct (dumps_default_str X ci w2) as [[e | shown] w3]; [discriminate | ].
  unfold bind, LOG, ret. intros H. injection H as <- _. eauto.
Qed.

End ExpectedLists.

(** ** The project root *)



Lemma rev_app_acc (s acc : string) : String.rev_app s acc = String.rev_app s "" +:+ acc.
Proof.
  revert acc. induction s as [| c s IH]; intros acc; [reflexivity | ].
  cbn [String.rev_app]. rewrite (IH (String c acc)), (IH (String c "")).
  rewrite append_assoc. reflexivity.
Qed.

Lemma rev_snoc (s : string) (c : ascii) : String.rev (s +:+ String c "") = String c (String.rev s).
Proof. apply rev_app_snoc. Qed.

Lemma rev_rev (s : string) : String.rev (String.rev s) = s.
Proof.
  induction s as [| c s IH]; [reflexivity | ].
  unfold String.rev at 2. cbn [String.rev_app]. rewrite rev_app_acc.
  fold (String.rev s). rewrite rev_snoc, IH. reflexivity.
Qed.

Lemma rstrip_slash_dir (s : string) (c : ascii) :
  c <> "/"%char ->
  OsPath.rstrip_slash ((s +:+ String c "") +:+ "/") = s +:+ String c "".
Proof.
  intros Hc. unfold OsPath.rstrip_slash.
  change "/" with (String "/" "") at 1. rewrite rev_snoc. cbn [OsPath.lstrip_slash].
  change OsPath.SLASH with "/"%char. rewrite Ascii.eqb_refl.
  rewrite rev_snoc. cbn [OsPath.lstrip_slash].
  assert (E : Ascii.eqb c "/" = false) by (apply Ascii.eqb_neq; exact Hc).
  change OsPath.SLASH with "/"%char. rewrite E.
  rewrite <- rev_snoc. apply rev_rev.
Qed.

Lemma plain_snoc (c : string) : plain c -> exists t x, c = t +:+ String x "" /\ x <> "/"%char.
Proof.
  intros (Hne & _ & _ & Hno).
  destruct (string_snoc_cases c) as [-> | (t & x & ->)]; [congruence | ].
  exists t, x. split; [reflexivity | ].
  rewrite no_char_app in Hno. apply andb_true_iff in Hno as [_ Hx].
  cbn [no_char] in Hx. rewrite andb_true_r in Hx. apply negb_true_iff in Hx.
  apply Ascii.eqb_neq. exact Hx.
Qed.

Lemma plain_cons (c : string) : plain c -> exists x t, c = String x t /\ x <> "/"%char.
Proof.
  intros (Hne & _ & _ & Hno). destruct c as [| x t]; [congruence | ].
  exists x, t. split; [reflexivity | ].
  cbn [no_char] in Hno. apply andb_true_iff in Hno as [Hx _].
  apply negb_true_iff in Hx. apply Ascii.eqb_neq. exact Hx.
Qed.

Lemma join_snoc (sep y : string) (l : list string) :
  l <> [] -> Txt.join sep (l ++ [y]) = Txt.join sep l +:+ sep +:+ y.
Proof.
  induction l as [| x l IH]; [congruence | intros _].
  destruct l as [| x' l].
  - reflexivity.
  - cbn [app]. rewrite (join_cons sep x) by discriminate.
    change (x' :: l ++ [y]) with ((x' :: l) ++ [y]). rewrite IH by discriminate.
    rewrite (join_cons sep x) by discriminate. rewrite !append_assoc. reflexivity.
Qed.

(** A rooted path made of names. *)
Lemma rooted_snoc (ds : list string) (y : string) :
  plain y ->
  exists s x, String "/" (Txt.join "/" (ds ++ [y])) = s +:+ String x "" /\ x <> "/"%char.
Proof.
  intros Hy. destruct (plain_snoc y Hy) as (t & x & -> & Hx).
  destruct ds as [| d ds].
  - exists (String "/" t), x. split; [reflexivity | exact Hx].
  - rewrite join_snoc by discriminate.
    exists (String "/" (Txt.join "/" (d :: ds) +:+ "/" +:+ t)), x. split; [ | exact Hx].
    change (String "/" (Txt.join "/" (d :: ds) +:+ "/" +:+ t +:+ String x "")
            = String "/" ((Txt.join "/" (d :: ds) +:+ "/" +:+ t) +:+ String x "")).
    rewrite !append_assoc. reflexivity.
Qed.

Lemma split_rooted (comps : list string) :
  Forall (fun c => no_char "/" c = true) comps -> comps <> [] ->
  Txt.split_on "/" (String "/" (Txt.join "/" comps)) = "" :: comps.
Proof.
  intros Hno Hne. cbn [Txt.split_on]. rewrite Ascii.eqb_refl.
  pose proof (split_on_join "/" comps Hno Hne) as H. unfold Txt.chr in H.
  rewrite H. reflexivity.
Qed.

Lemma removelast_snoc {A} (l : list A) (x : A) : removelast (l ++ [x]) = l.
Proof. apply removelast_last. Qed.

Lemma lstrip_slash_rooted (c r : string) :
  plain c -> OsPath.lstrip_slash (String "/" (c +:+ r)) <> "".
Proof.
  intros Hc. destruct (plain_cons c Hc) as (x & t & -> & Hx).
  cbn [OsPath.lstrip_slash]. change OsPath.SLASH with "/"%char. rewrite Ascii.eqb_refl.
  rewrite append_cons. cbn [OsPath.lstrip_slash].
  assert (E : Ascii.eqb x "/" = false) by (apply Ascii.eqb_neq; exact Hx).
  change OsPath.SLASH with "/"%char. rewrite E. discriminate.
Qed.

Lemma join_head (sep c : string) (l : list string) :
  exists r, Txt.join sep (c :: l) = c +:+ r.
Proof.
  destruct l as [| c' l].
  - exists "". cbn [Txt.join]. rewrite append_nil_r. reflexivity.
  - eexists. rewrite join_cons by discriminate. reflexivity.
Qed.

(** The directory of a file given by a rooted path made of names. *)
Lemma dirname_rooted (ds : list string) (y f : string) :
  Forall plain ds -> plain y -> plain f ->
  OsPath.dirname (String "/" (Txt.join "/" (ds ++ [y; f])))
  = String "/" (Txt.join "/" (ds ++ [y])).
Proof.
  intros Hds Hy Hf. unfold OsPath.dirname. change OsPath.SLASH with "/"%char.
  assert (Hno : Forall (fun c => no_char "/" c = true) (ds ++ [y; f])).
  { apply Forall_app. split.
    - eapply Forall_impl; [exact Hds | ]. intros c Hc. apply Hc.
    - repeat constructor; [apply Hy | apply Hf]. }
  rewrite split_rooted by (try exact Hno; destruct ds; discriminate).
  replace ("" :: ds ++ [y; f]) with (("" :: ds ++ [y]) ++ [f])
    by (cbn [app]; rewrite <- app_assoc; reflexivity).
  rewrite removelast_snoc.
  rewrite (join_cons "/" "") by (destruct ds; discriminate).
  rewrite append_nil_l. change ("/" +:+ Txt.join "/" (ds ++ [y]))
    with (String "/" (Txt.join "/" (ds ++ [y]))).
  assert (Hhead : exists c r, ds ++ [y] = c :: r /\ plain c).
  { destruct ds as [| d ds]; [exists y, []; split; [reflexivity | exact Hy] | ].
    exists d, (ds ++ [y]). split; [reflexivity | ]. inversion Hds; assumption. }
  destruct Hhead as (c & r & Hcr & Hc).
  rewrite bool_decide_eq_false_2.
  - destruct (rooted_snoc ds y Hy) as (s & x & -> & Hx). apply rstrip_slash_dir, Hx.
  - rewrite Hcr. destruct (join_head "/" c r) as [r' ->].
    rewrite append_cons, append_assoc. apply lstrip_slash_rooted, Hc.
Qed.

Lemma norm_comps_plain (rooted : bool) (ds acc rest : list string) :
  Forall plain ds ->
  OsPath.norm_comps rooted acc (ds ++ rest) = OsPath.norm_comps rooted (rev ds ++ acc) rest.
Proof.
  intros Hds. revert acc. induction Hds as [| c ds (Hne & Hdot & Hdd & _) _ IH]; intros acc.
  - reflexivity.
  - cbn [app OsPath.norm_comps].
    rewrite (bool_decide_eq_false_2 (c = "")) by exact Hne.
    rewrite (bool_decide_eq_false_2 (c = ".")) by exact Hdot.
    rewrite (bool_decide_eq_false_2 (c = "..")) by exact Hdd.
    cbn [orb]. rewrite IH. cbn [rev]. rewrite <- app_assoc. reflexivity.
Qed.

Lemma norm_comps_up (rooted : bool) (c : string) (acc rest : list string) :
  plain c ->
  OsPath.norm_comps rooted (c :: acc) (".." :: rest) = OsPath.norm_comps rooted acc rest.
Proof.
  intros (_ & _ & Hdd & _). cbn [OsPath.norm_comps].
  rewrite (bool_decide_eq_false_2 (".." = "")) by discriminate.
  rewrite (bool_decide_eq_false_2 (".." = ".")) by discriminate.
  rewrite (bool_decide_eq_true_2 (".." = "..")) by reflexivity.
  cbn [orb]. rewrite (bool_decide_eq_false_2 (c = "..")) by exact Hdd. reflexivity.
Qed.

(** X28. [project_root(request)] for a test module given by a rooted path
    of plain names: the project root is two directories above the
    directory of the module, so [/proj/task/tests/test_x.py] has the root
    [/proj]. *)
Theorem project_root_two_levels_up (ds : list string) (x y f : string) (w : world) :
  Forall plain ds -> plain x -> plain y -> plain f ->
  Fixtures.project_root (String "/" (Txt.join "/" (ds ++ [x; y; f]))) w
  = (inr (String "/" (Txt.join "/" ds)), w).
Proof.
  intros Hds Hx Hy Hf. unfold Fixtures.project_root.
  change (ds ++ [x; y; f]) with (ds ++ [x] ++ [y; f]). rewrite app_assoc.
  assert (Hdsx : Forall plain (ds ++ [x])).
  { apply Forall_app. split; [exact Hds | ].
    apply List.Forall_cons; [exact Hx | apply List.Forall_nil]. }
  rewrite (dirname_rooted (ds ++ [x]) y f Hdsx Hy Hf).
  rewrite <- app_assoc. cbn [app].
  (* the joined path *)
  assert (Hjoin : OsPath.join (String "/" (Txt.join "/" (ds ++ [x; y]))) "../.."
                  = String "/" (Txt.join "/" (ds ++ [x; y; ".."; ".."]))).
  { destruct (rooted_snoc (ds ++ [x]) y Hy) as (s & c & Hs & Hc).
    rewrite <- app_assoc in Hs. cbn [app] in Hs.
    unfold OsPath.join. change (Txt.startswith "/" "../..") with false. cbv iota.
    rewrite Hs. rewrite endswith_slash_snoc by exact Hc.
    rewrite bool_decide_eq_false_2 by (destruct s; discriminate). cbn [orb].
    rewrite <- Hs.
    change (ds ++ [x; y; ".."; ".."]) with (ds ++ [x; y] ++ [".."] ++ [".."]).
    rewrite !app_assoc. rewrite !join_snoc by (destruct ds; discriminate).
    generalize (Txt.join "/" (ds ++ [x; y])). intros J.
    change (String "/" (J +:+ "/../..") = String "/" ((J +:+ "/..") +:+ "/..")).
    rewrite append_assoc. reflexivity. }
  rewrite Hjoin. unfold OsPath.abspath.
  assert (Habs : OsPath.isabs (String "/" (Txt.join "/" (ds ++ [x; y; ".."; ".."]))) = true)
    by (apply isabs_cons; eauto).
  rewrite Habs. f_equal. f_equal.
  unfold OsPath.normpath. rewrite bool_decide_eq_false_2 by discriminate.
  change (Txt.startswith "/" (String "/" (Txt.join "/" (ds ++ [x; y; ".."; ".."]))))
    with (OsPath.isabs (String "/" (Txt.join "/" (ds ++ [x; y; ".."; ".."])))).
  rewrite Habs.
  assert (Hhead : exists c r, Txt.join "/" (ds ++ [x; y; ".."; ".."]) = c +:+ r /\ plain c).
  { destruct ds as [| d ds].
    - destruct (join_head "/" x [y; ".."; ".."]) as [r Hr]. exists x, r. split; [exact Hr | exact Hx].
    - destruct (join_head "/" d (ds ++ [x; y; ".."; ".."])) as [r Hr]. exists d, r.
      split; [exact Hr | inversion Hds; assumption]. }
  destruct Hhead as (c & r & Hcr & Hc).
  assert (Hss : Txt.startswith "//" (String "/" (Txt.join "/" (ds ++ [x; y; ".."; ".."]))) = false).
  { rewrite Hcr. destruct (plain_cons c Hc) as (a & t & -> & Ha).
    rewrite append_cons. unfold Txt.startswith. cbn [String.prefix].
    destruct (ascii_dec "/" "/") as [_ | E]; [ | congruence].
    destruct (ascii_dec "/" a) as [E | _]; [congruence | reflexivity]. }
  rewrite Hss. cbn [andb]. change OsPath.SLASH with "/"%char.
  assert (Hno : Forall (fun c => no_char "/" c = true) (ds ++ [x; y; ".."; ".."])).
  { apply Forall_app. split.
    - eapply Forall_impl; [exact Hds | ]. intros c0 Hc0. apply Hc0.
    - constructor; [apply Hx | ]. constructor; [apply Hy | ].
      constructor; [reflexivity | ]. constructor; [reflexivity | constructor]. }
  rewrite split_rooted by (try exact Hno; destruct ds; discriminate).
  cbn [OsPath.norm_comps].
  rewrite (bool_decide_eq_true_2 ("" = "")) by reflexivity. cbn [orb].
  rewrite norm_comps_plain by exact Hds. rewrite app_nil_r.
  cbn [OsPath.norm_comps].
  destruct Hx as (Hx1 & Hx2 & Hx3 & Hx4). destruct Hy as (Hy1 & Hy2 & Hy3 & Hy4).
  rewrite (bool_decide_eq_false_2 (x = "")) by exact Hx1.
  rewrite (bool_decide_eq_false_2 (x = ".")) by exact Hx2.
  rewrite (bool_decide_eq_false_2 (x = "..")) by exact Hx3.
  rewrite (bool_decide_eq_false_2 (y = "")) by exact Hy1.
  rewrite (bool_decide_eq_false_2 (y = ".")) by exact Hy2.
  rewrite (bool_decide_eq_false_2 (y = "..")) by exact Hy3.
  rewrite (bool_decide_eq_false_2 (".." = "")) by discriminate.
  rewrite (bool_decide_eq_false_2 (".." = ".")) by discriminate.
  rewrite (bool_decide_eq_true_2 (".." = "..")) by reflexivity.
  cbn [orb]. rewrite rev_involutive.
  rewrite bool_decide_eq_false_2 by discriminate. reflexivity.
Qed.

(** ** The working directory *)

Lemma keeps_ret {A} (a : A) : keeps_cwd (ret a).
Proof. intros w. reflexivity. Qed.

Lemma keeps_raise {A} (e : exn) : keeps_cwd (@raise A e).
Proof. intros w. reflexivity. Qed.

Lemma keeps_lift {A} (r : exn + A) : keeps_cwd (lift r).
Proof. intros w. reflexivity. Qed.

Lemma keeps_bind {A B} (m : M A) (k : A -> M B) :
  keeps_cwd m -> (forall a, keeps_cwd (k a)) -> keeps_cwd (bind m k).
Proof.
  intros Hm Hk w. unfold bind. specialize (Hm w).
  destruct (m w) as [[e | a] w1]; cbn [snd] in *; [exact Hm | ].
  rewrite (Hk a w1). exact Hm.
Qed.

Lemma keeps_finally {A} (body : M A) (cleanup : M unit) :
  keeps_cwd body -> keeps_cwd cleanup -> keeps_cwd (finally body cleanup).
Proof.
  intros Hb Hc w. unfold finally. specialize (Hb w).
  destruct (body w) as [r w1]. cbn [snd] in Hb. specialize (Hc w1).
  destruct (cleanup w1) as [[e | u] w2]; cbn [snd] in *; congruence.
Qed.

Lemma keeps_LOG (l : level) (msg : string) : keeps_cwd (LOG l msg).
Proof. intros w. reflexivity. Qed.

Lemma keeps_write_file (p d : string) : keeps_cwd (write_file p d).
Proof. intros w. reflexivity. Qed.

Lemma keeps_read_file (p : string) : keeps_cwd (read_file p).
Proof. intros w. unfold read_file. destruct (files w !! p); reflexivity. Qed.

Lemma keeps_get_world : keeps_cwd get_world.
Proof. intros w. reflexivity. Qed.

Lemma keeps_exists (p : string) : keeps_cwd (OsPath.exists_ p).
Proof. intros w. reflexivity. Qed.

Lemma keeps_abspath (p : string) : keeps_cwd (OsPath.abspath p).
Proof. intros w. reflexivity. Qed.

Lemma keeps_makedirs (p : string) : keeps_cwd (makedirs p).
Proof. intros w. unfold makedirs. destruct (bool_decide _); reflexivity. Qed.

Lemma keeps_rmtree (d : string) : keeps_cwd (rmtree d).
Proof. intros w. unfold rmtree. destruct (bool_decide _); reflexivity. Qed.

Lemma keeps_mkstemp (suffix : string) (dir : option string) :
  keeps_cwd (Tempfile.mkstemp suffix dir).
Proof.
  intros w. unfold Tempfile.mkstemp. destruct (negb _); [reflexivity | ].
  destruct (Tempfile.pick_name _ _ _ _ _) as [[n f] | ]; reflexivity.
Qed.

Lemma keeps_mkdtemp : keeps_cwd Tempfile.mkdtemp.
Proof.
  intros w. unfold Tempfile.mkdtemp.
  destruct (Tempfile.pick_name _ _ _ _ _) as [[n f] | ]; reflexivity.
Qed.

Lemma keeps_fspath (pv : pathval) : keeps_cwd (fspath pv).
Proof. destruct pv; [apply keeps_ret | apply keeps_raise]. Qed.

Lemma keeps_tempdir {A} (body : string -> M A) :
  (forall d, keeps_cwd (body d)) -> keeps_cwd (tempdir body).
Proof.
  intros Hb. unfold tempdir. apply keeps_bind; [apply keeps_mkdtemp | ].
  intros d. apply keeps_finally; [apply Hb | apply keeps_rmtree].
Qed.

Create HintDb keeps discriminated.
#[local] Hint Resolve keeps_ret keeps_raise keeps_lift keeps_LOG keeps_write_file
  keeps_read_file keeps_get_world keeps_exists keeps_abspath keeps_makedirs keeps_rmtree
  keeps_mkstemp keeps_mkdtemp keeps_fspath : keeps.

Ltac keeps_step :=
  match goal with
  | |- keeps_cwd (bind _ _) => apply keeps_bind; [ | intros ? ]
  | |- keeps_cwd (finally _ _) => apply keeps_finally
  | |- keeps_cwd (tempdir _) => apply keeps_tempdir; intros ?
  | |- keeps_cwd (if ?b then _ else _) => destruct b
  | |- keeps_cwd (match ?o with Some _ => _ | None => _ end) => destruct o
  | |- keeps_cwd _ => solve [auto with keeps]
  end.

Ltac keeps := repeat keeps_step.

Section Cwd.
Context (X : Externals).
Hypothesis engine_keeps_cwd : forall cmd w, cwd (delegator_run X cmd w).2 = cwd w.

Lemma keeps_persist (e : DataFile) : keeps_cwd (_persist X e).
Proof.
  unfold _persist. keeps.
Qed.

Lemma keeps_path (e : DataFile) : keeps_cwd (path X e).
Proof. unfold path. pose proof (keeps_persist e). keeps. Qed.

Lemma keeps_DataFile_diff (f1 f2 : string) : keeps_cwd (DataFile_diff X f1 f2).
Proof.
  intros w. unfold DataFile_diff, int_of_output.
  destruct (operand w f1) as [[a | ] | ], (operand w f2) as [[b | ] | ];
    try reflexivity; destruct (py_int _); reflexivity.
Qed.

Lemma keeps_redirect (cmd : string) (flt : string -> string) (missing : option string)
    (src dst : string) :
  keeps_cwd (redirect X cmd flt missing src dst).
Proof.
  intros w. unfold redirect, left_by_engine, write_file.
  destruct (shell_word src); [destruct (files w !! src), missing | ];
    try destruct (files _ !! dst); reflexivity.
Qed.

Lemma keeps_diff (c : cls) (f1 f2 : string) : keeps_cwd (_diff X c f1 f2).
Proof.
  pose proof keeps_DataFile_diff. pose proof keeps_redirect.
  destruct c; cbn [_diff]; keeps.
Qed.

Lemma keeps_diff_contents (c : cls) (f1 f2 : string) (k : Z) :
  keeps_cwd (_diff_contents X c f1 f2 k).
Proof.
  pose proof keeps_diff. pose proof keeps_redirect.
  unfold _diff_contents. keeps.
Qed.

Lemma keeps_compare_hashes (f1 f2 : string) : keeps_cwd (_compare_hashes X f1 f2).
Proof. unfold _compare_hashes. keeps. Qed.

Lemma keeps_assert_contents_equal_files (c : cls) (f1 f2 : string) (k : Z) :
  keeps_cwd (_assert_contents_equal X c f1 f2 k).
Proof.
  pose proof keeps_diff_contents. pose proof keeps_compare_hashes.
  unfold _assert_contents_equal. destruct c; keeps.
Qed.

Lemma keeps_assert_contents_equal (e : DataFile) (other : value) :
  keeps_cwd (assert_contents_equal X e other).
Proof.
  pose proof keeps_path. pose proof keeps_assert_contents_equal_files.
  unfold assert_contents_equal. apply keeps_bind; [ | intros ?; keeps].
  destruct other as [[ | | | | | ] | | | ]; keeps.
Qed.

Lemma keeps_jsonify (v : value) : keeps_cwd (jsonify X v).
Proof.
  revert v. fix IH 1. intros [j | f | items | kv]; cbn [jsonify].
  - apply keeps_ret.
  - pose proof keeps_path. keeps.
  - apply keeps_bind; [ | intros ?; apply keeps_ret].
    induction items as [| x xs IHxs]; [apply keeps_ret | ].
    apply keeps_bind; [apply IH | intros ?].
    apply keeps_bind; [exact IHxs | intros ?; apply keeps_ret].
  - apply keeps_bind; [ | intros ?; apply keeps_ret].
    induction kv as [| [k x] xs IHxs]; [apply keeps_ret | ].
    apply keeps_bind; [apply IH | intros ?].
    apply keeps_bind; [exact IHxs | intros ?; apply keeps_ret].
Qed.

Lemma keeps_dumps (v : value) : keeps_cwd (dumps_default_str X v).
Proof. pose proof keeps_jsonify. unfold dumps_default_str. keeps. Qed.

Lemma keeps_choose_file (given : option string) (suffix : string) :
  keeps_cwd (choose_file given suffix).
Proof. unfold choose_file. keeps. Qed.

Lemma keeps_qualify_inputs (wf : string) (inputs : list (string * value)) :
  keeps_cwd (qualify_inputs X wf inputs).
Proof.
  pose proof keeps_path.
  induction inputs as [| [k v] inputs IH]; cbn [qualify_inputs]; [apply keeps_ret | ].
  apply keeps_bind; [destruct v; keeps | intros ?]. keeps.
Qed.

Lemma keeps_make_inputs (wi : bool) (file wf : string) (inputs : list (string * value)) :
  keeps_cwd (make_inputs X wi file wf inputs).
Proof.
  pose proof keeps_qualify_inputs. pose proof keeps_dumps.
  unfold make_inputs. keeps.
Qed.

Lemma keeps_run (cmd : string) : keeps_cwd (run X cmd).
Proof.
  intros w. unfold run. pose proof (engine_keeps_cwd cmd (emit (EvRun cmd) w)) as H.
  destruct (delegator_run X cmd _) as [r w']. exact H.
Qed.

Lemma keeps_make_imports (self : CromwellHarness) (wi : bool) (file : string) :
  keeps_cwd (make_imports X self wi file).
Proof.
  pose proof keeps_run. unfold make_imports.
  destruct (import_paths self) as [[| p ps] | ]; keeps.
Qed.

Lemma keeps_check_expected (wf : string) (outputs : json) (expected : list (string * value)) :
  keeps_cwd (check_expected X wf outputs expected).
Proof.
  pose proof keeps_assert_contents_equal.
  induction expected as [| [name ev] rest IH]; cbn [check_expected]; [apply keeps_ret | ].
  apply keeps_bind; [apply keeps_lift | intros present].
  destruct (negb present); [apply keeps_raise | ].
  apply keeps_bind; [apply keeps_lift | intros out].
  apply keeps_bind; [ | intros ?; exact IH].
  destruct ev; keeps.
Qed.

(** Where [prepare] leaves the working directory. *)
Lemma prepare_cwd (self : CromwellHarness) (wdl wf : string) (inputs : list (string * value))
    (kw : kwargs) (w : world) :
  cwd (prepare X self wdl wf inputs kw w).2
  = match execution_dir kw with
    | Some d => if bool_decide (d ∈ dirs w) then d else cwd w
    | None => cwd w
    end.
Proof.
  pose proof keeps_choose_file. pose proof keeps_make_inputs.
  pose proof keeps_make_imports. pose proof keeps_dumps.
  unfold prepare.
  match goal with
  | |- cwd (bind ?m ?k w).2 = _ =>
      set (rest := k);
      assert (Hrest : forall u, keeps_cwd (rest u)) by (intros u; subst rest; cbv beta; keeps);
      clearbody rest
  end.
  unfold bind at 1.
  destruct (execution_dir kw) as [d | ].
  - unfold bind, LOG, chdir_to. cbn [dirs record_log].
    destruct (bool_decide (d ∈ dirs w)); cbn [snd]; [ | reflexivity].
    rewrite (Hrest tt). reflexivity.
  - cbn [ret]. apply Hrest.
Qed.

Lemma run_workflow_cwd (self : CromwellHarness) (wdl wf : string)
    (inputs expected : list (string * value)) (kw : kwargs) (w : world) :
  cwd (run_workflow X self wdl wf inputs expected kw w).2
  = match execution_dir kw with
    | Some d => if bool_decide (d ∈ dirs w) then d else cwd w
    | None => cwd w
    end.
Proof.
  pose proof keeps_run. pose proof keeps_check_expected.
  rewrite <- prepare_cwd with (self := self) (wdl := wdl) (wf := wf) (inputs := inputs).
  unfold run_workflow.
  match goal with
  | |- cwd (bind ?m ?k w).2 = _ =>
      set (rest := k);
      assert (Hrest : forall u, keeps_cwd (rest u)) by (intros u; subst rest; cbv beta; keeps);
      clearbody rest
  end.
  unfold bind.
  destruct (prepare X self wdl wf inputs kw w) as [[e | cmd] w1]; [reflexivity | ].
  apply Hrest.
Qed.

(** X29. Provided the commands it runs leave the working directory of the
    calling process alone, [run_workflow] changes the working directory
    only through [execution_dir]: without that argument the working
    directory after the call, passed or failed, is the one before; with
    [execution_dir=d] and [d] a directory, the call ends, passed or failed,
    with [d] as working directory (it is not restored); with [d] not a
    directory the call raises the error of [os.chdir]
    ([NotADirectoryError] when [d] is a regular file, [FileNotFoundError]
    when nothing is there) and the working directory is unchanged. *)
Theorem run_workflow_working_directory (self : CromwellHarness) (wdl wf : string)
    (inputs expected : list (string * value)) (kw : kwargs) (w : world) :
  (execution_dir kw = None ->
   cwd (run_workflow X self wdl wf inputs expected kw w).2 = cwd w) /\
  (forall d, execution_dir kw = Some d -> d ∈ dirs w ->
   cwd (run_workflow X self wdl wf inputs expected kw w).2 = d) /\
  (forall d, execution_dir kw = Some d -> d ∉ dirs w ->
   (run_workflow X self wdl wf inputs expected kw w).1 = inl (chdir_error w d) /\
   (is_Some (files w !! d) -> chdir_error w d = NotADirectoryError d) /\
   (through_file w d = false -> chdir_error w d = FileNotFoundError d) /\
   cwd (run_workflow X self wdl wf inputs expected kw w).2 = cwd w).
Proof.
  split; [ | split].
  - intros He. rewrite run_workflow_cwd, He. reflexivity.
  - intros d He Hd. rewrite run_workflow_cwd, He.
    rewrite bool_decide_eq_true_2 by exact Hd. reflexivity.
  - intros d He Hd. split; [ | split; [ | split]].
    + unfold run_workflow, prepare. rewrite He.
      unfold bind, LOG, chdir_to. cbn [dirs record_log].
      rewrite bool_decide_eq_false_2 by exact Hd. reflexivity.
    + apply chdir_error_cases.
    + apply chdir_error_cases.
    + rewrite run_workflow_cwd, He. rewrite bool_decide_eq_false_2 by exact Hd. reflexivity.
Qed.

(** X30. [run_workflow_in_tempdir] (deprecated) runs the workflow with a new
    temporary directory as [execution_dir] and removes that directory
    afterwards without changing back: whatever the outcome of the run, the
    call ends with the temporary directory as working directory, and that
    directory no longer exists. *)
Theorem run_workflow_in_tempdir_leaves_removed_directory (self : CromwellHarness)
    (wdl wf : string) (inputs expected : list (string * value)) (kw : kwargs)
    (w w1 : world) (d : string) :
  execution_dir kw = None ->
  Tempfile.mkdtemp
    (record_log WARNING
       "Function/method run_workflow_in_tempdir is deprecated and will be removed" w)
  = (inr d, w1) ->
  let r := run_workflow_in_tempdir X self wdl wf inputs expected kw w in
  cwd r.2 = d /\ (d ∉ dirs r.2).
Proof.
  intros He Hmk r. subst r.
  destruct (mkdtemp_inr _ _ _ Hmk) as (_ & Hd & _).
  assert (Hin : d ∈ dirs w1)
    by (rewrite Hd; apply elem_of_union; right; apply elem_of_singleton; reflexivity).
  unfold run_workflow_in_tempdir, _deprecated. rewrite He.
  erewrite bind_inr by (unfold LOG; reflexivity).
  unfold tempdir. rewrite bind_assoc. rewrite (bind_inr _ _ _ _ _ Hmk).
  set (kw' := mkKwargs (Some d) _ _ _ _).
  assert (Hbody : cwd (CromwellHarness_call X self wdl wf inputs expected kw' w1).2 = d).
  { unfold CromwellHarness_call, _deprecated.
    erewrite bind_inr by (unfold LOG; reflexivity).
    unfold bind.
    pose proof (run_workflow_cwd self wdl wf inputs expected kw'
                  (record_log WARNING "Function/method __call__ is deprecated and will be removed" w1))
      as Hc.
    cbn [execution_dir kw' dirs record_log] in Hc.
    rewrite bool_decide_eq_true_2 in Hc by exact Hin.
    destruct (run_workflow X self wdl wf inputs expected kw' _) as [[e | u] w2];
      cbn [snd] in *; exact Hc. }
  unfold bind, finally.
  destruct (CromwellHarness_call X self wdl wf inputs expected kw' w1) as [res w3].
  cbn [snd] in Hbody. unfold rmtree.
  destruct (decide (d ∈ dirs w3)) as [H3 | H3].
  - rewrite bool_decide_eq_true_2 by exact H3.
    assert (Hgone : d ∉ filter (fun p => under d p = false) (dirs w3)).
    { intros Hq. apply elem_of_filter in Hq as [Hq _]. rewrite under_refl in Hq. discriminate Hq. }
    destruct res; cbn; split; assumption.
  - rewrite bool_decide_eq_false_2 by exact H3. cbn. split; assumption.
Qed.

End Cwd.

(** ** Closed instances of the further properties *)

Lemma init_path_location_witness :
  "data/a.txt" <> "" /\
  __init__ DataFileCls (Some "data/a.txt") None None "/proj" None None 0 world0
  = (inr (mkDataFile DataFileCls None None None None 0 (PathStr "/proj/data/a.txt")), world0).
Proof.
  split; [discriminate | ].
  destruct (init_path_location DataFileCls "data/a.txt" None None "/proj" None None 0 world0)
    as [H _]; [discriminate | exact H].
Defined.

Lemma init_url_location_witness :
  truthy None = false /\ "http://host/files/a.vcf" <> "" /\
  __init__ VcfDataFileCls None (Some "http://host/files/a.vcf") None "/data" None None 0 world0
  = (inr (mkDataFile VcfDataFileCls (Some "http://host/files/a.vcf") None None None 0
            (PathStr "/data/a.vcf")), world0).
Proof.
  split; [reflexivity | ]. split; [discriminate | ].
  destruct (init_url_location VcfDataFileCls None "http://host/files/a.vcf" None "/data"
              None None 0 world0) as [_ H]; [reflexivity | discriminate | ].
  exact (H "http://host/files" "a.vcf" eq_refl eq_refl).
Defined.

Lemma url_entry_fetched_once_witness :
  url remote_entry = Some "http://host/files/a.txt" /\
  OsPath.exists_in world0 "/data/a.txt" = false /\
  files (path (serving "ACGT") remote_entry world0).2 !! "/data/a.txt" = Some "ACGT" /\
  fetches (trace (path (serving "ACGT") remote_entry world0).2) = ["http://host/files/a.txt"] /\
  path (serving "ACGT") remote_entry (path (serving "ACGT") remote_entry world0).2
  = (inr "/data/a.txt", (path (serving "ACGT") remote_entry world0).2).
Proof.
  assert (Hex : OsPath.exists_in world0 "/data/a.txt" = false) by (vm_compute; reflexivity).
  split; [reflexivity | ]. split; [exact Hex | ].
  destruct (url_entry_fetched_once (serving "ACGT") remote_entry "/data/a.txt"
              "http://host/files/a.txt" "ACGT" world0) as (_ & H2 & Hf & Hfe & _).
  - reflexivity.
  - discriminate.
  - reflexivity.
  - exact Hex.
  - reflexivity.
  - split; [exact Hf | ]. split; [exact Hfe | exact H2].
Defined.

Lemma failed_download_leaves_no_file_witness :
  url remote_entry = Some "http://host/files/a.txt" /\
  OsPath.exists_in world0 "/data/a.txt" = false /\
  (path (reference (prints "")) remote_entry world0).1 = inl (URLError "http://host/files/a.txt") /\
  files (path (reference (prints "")) remote_entry world0).2 = files world0.
Proof.
  assert (Hex : OsPath.exists_in world0 "/data/a.txt" = false) by (vm_compute; reflexivity).
  split; [reflexivity | ]. split; [exact Hex | ].
  destruct (failed_download_leaves_no_file (reference (prints "")) remote_entry "/data/a.txt"
              "http://host/files/a.txt" world0) as (H1 & H2 & _).
  - reflexivity.
  - discriminate.
  - reflexivity.
  - exact Hex.
  - reflexivity.
  - split; [exact H1 | exact H2].
Defined.

Lemma string_entry_path_witness :
  _path vcf_a = PathStr "/a.vcf" /\
  OsPath.exists_in vcf_disk "/a.vcf" = true /\
  path (reference (prints "")) vcf_a vcf_disk = (inr "/a.vcf", vcf_disk) /\
  OsPath.exists_in world0 "/a.vcf" = false /\
  path (reference (prints "")) vcf_a world0
  = (inl (ValueError
       "File /a.vcf does not exist. Either a url, file contents, or a local file must be provided."),
     world0).
Proof.
  assert (Hex : OsPath.exists_in vcf_disk "/a.vcf" = true) by (vm_compute; reflexivity).
  assert (Hno : OsPath.exists_in world0 "/a.vcf" = false) by (vm_compute; reflexivity).
  split; [reflexivity | ]. split; [exact Hex | ].
  split.
  - destruct (string_entry_path (reference (prints "")) vcf_a "/a.vcf" vcf_disk eq_refl) as [H _].
    exact (H Hex).
  - split; [exact Hno | ].
    destruct (string_entry_path (reference (prints "")) vcf_a "/a.vcf" world0 eq_refl) as [_ H].
    exact (H Hno eq_refl eq_refl).
Defined.


Lemma vcf_missing_file_counts_as_empty_witness :
  Tempfile.mkdtemp vcf_disk = (inr "/tmp/tmp0", (Tempfile.mkdtemp vcf_disk).2) /\
  shell_word "/a.vcf" = true /\ shell_word "/gone.vcf" = true /\
  files vcf_disk !! "/gone.vcf" = None /\
  "/gone.vcf" <> OsPath.join "/tmp/tmp0" "file1" /\
  (exists w', _diff (reference (prints "")) VcfDataFileCls "/a.vcf" "/gone.vcf" vcf_disk
              = (inr 1, w')) /\
  (exists w', _diff (reference_dash (prints "")) VcfDataFileCls "/a.vcf" "/gone.vcf" vcf_disk
              = (inr 0, w')).
Proof.
  assert (H1 : files vcf_disk !! "/a.vcf" = Some (tsv ["1"; "100"; "rs1"; "A"; "C"; "30"]))
    by (vm_compute; reflexivity).
  assert (H2 : files vcf_disk !! "/gone.vcf" = None) by (vm_compute; reflexivity).
  assert (H3 : Tempfile.mkdtemp vcf_disk = (inr "/tmp/tmp0", (Tempfile.mkdtemp vcf_disk).2))
    by (vm_compute; reflexivity).
  assert (H4 : "/gone.vcf" <> OsPath.join "/tmp/tmp0" "file1")
    by (intros E; vm_compute in E; discriminate E).
  split; [exact H3 | ]. split; [reflexivity | ]. split; [reflexivity | ].
  split; [exact H2 | ]. split; [exact H4 | ]. split.
  - destruct (vcf_missing_file_counts_as_empty (reference (prints "")) "/a.vcf" "/gone.vcf" _
                "/tmp/tmp0" vcf_disk _ H3 eq_refl eq_refl H1 H2 H4) as [_ [w' Hrun]].
    exists w'. exact Hrun.
  - destruct (vcf_missing_file_counts_as_empty (reference_dash (prints "")) "/a.vcf"
                "/gone.vcf" _ "/tmp/tmp0" vcf_disk _ H3 eq_refl eq_refl H1 H2 H4)
      as [_ [w' Hrun]].
    exists w'. exact Hrun.
Defined.

Lemma data_file_needs_string_output_witness :
  assoc ("wf" +:+ "." +:+ "out") [("wf.out", JList [JStr "/run/a.vcf"])]
  = Some (JList [JStr "/run/a.vcf"]) /\
  check_expected (reference (prints "")) "wf" (JDict [("wf.out", JList [JStr "/run/a.vcf"])])
    [("out", VFile vcf_a)] vcf_disk
  = (inl (AttributeError "object has no attribute 'path'"), vcf_disk).
Proof.
  split; [reflexivity | ].
  apply (data_file_needs_string_output (reference (prints "")) "wf" "out"
           [("wf.out", JList [JStr "/run/a.vcf"])] vcf_a (JList [JStr "/run/a.vcf"]) [] vcf_disk).
  - reflexivity.
  - intros s. discriminate.
Defined.

Lemma zero_tolerance_comparison_symmetric_witness :
  let a := mkDataFile DataFileCls None None None None 0 (PathStr "/a.txt") in
  let b := mkDataFile DataFileCls None None None None 0 (PathStr "/b.txt") in
  let w := disk [("/a.txt", one_line "x"); ("/b.txt", one_line "y")] in
  files w !! "/a.txt" = Some (one_line "x") /\ files w !! "/b.txt" = Some (one_line "y") /\
  Z.max (allowed_diff_lines a) (allowed_diff_lines b) = 0 /\
  ((assert_contents_equal (reference (prints "")) a (VFile b) w).1 = inr tt <->
   (assert_contents_equal (reference (prints "")) b (VFile a) w).1 = inr tt).
Proof.
  intros a b w.
  assert (H1 : files w !! "/a.txt" = Some (one_line "x")) by (vm_compute; reflexivity).
  assert (H2 : files w !! "/b.txt" = Some (one_line "y")) by (vm_compute; reflexivity).
  split; [exact H1 | ]. split; [exact H2 | ]. split; [reflexivity | ].
  exact (zero_tolerance_comparison_symmetric (reference (prints "")) a b "/a.txt" "/b.txt" _ _ w
           eq_refl eq_refl eq_refl eq_refl H1 H2 eq_refl).
Defined.

Lemma tolerance_monotone_witness :
  let w := disk [("/a.txt", one_line "x"); ("/b.txt", one_line "y")] in
  1 <= 2 /\
  _diff_contents (reference (prints "")) DataFileCls "/a.txt" "/b.txt" 1 w = (inr tt, w) /\
  _diff_contents (reference (prints "")) DataFileCls "/a.txt" "/b.txt" 2 w = (inr tt, w).
Proof.
  intros w.
  assert (Hle : 1 <= 2) by lia.
  assert (H1 : _diff_contents (reference (prints "")) DataFileCls "/a.txt" "/b.txt" 1 w
               = (inr tt, w)) by (vm_compute; reflexivity).
  split; [exact Hle | ]. split; [exact H1 | ].
  destruct (tolerance_monotone (reference (prints "")) DataFileCls "/a.txt" "/b.txt" 1 2 w w Hle)
    as [H _].
  exact (H H1).
Defined.

Lemma tempdir_scope_witness :
  Tempfile.mkdtemp world0 = (inr "/tmp/tmp0", (Tempfile.mkdtemp world0).2) /\
  (tempdir failing_body world0).1 = inl (Exception_ "boom") /\
  ("/tmp/tmp0" ∉ dirs (tempdir failing_body world0).2) /\
  files (tempdir failing_body world0).2 !! "/tmp/tmp0/out.txt" = None.
Proof.
  assert (Hmk : Tempfile.mkdtemp world0 = (inr "/tmp/tmp0", (Tempfile.mkdtemp world0).2))
    by (vm_compute; reflexivity).
  split; [exact Hmk | ].
  destruct (tempdir_scope failing_body world0 _ "/tmp/tmp0" Hmk)
    as (_ & _ & _ & Hgone & _ & Hleft).
  destruct Hleft as (Hres & Hbelow & _).
  { apply (bool_decide_unpack _). vm_compute. exact I. }
  split; [rewrite Hres; vm_compute; reflexivity | ].
  split; [exact Hgone | ].
  apply Hbelow. vm_compute. reflexivity.
Defined.


Lemma getitem_cached_witness :
  let r := Data_getitem "v" vcf_catalogue world0 in
  let v := VFile (mkDataFile VcfDataFileCls None None None None 0 (PathStr "/data/a.vcf")) in
  r = (inr v, r.1.2, r.2) /\
  Data_getitem "v" r.1.2 vcf_disk = (inr v, r.1.2, vcf_disk).
Proof.
  intros r v.
  assert (Hr : r = (inr v, r.1.2, r.2)) by (vm_compute; reflexivity).
  split; [exact Hr | ].
  exact (proj2 (getitem_cached "v" vcf_catalogue r.1.2 v world0 r.2 vcf_disk Hr)).
Defined.

Lemma unknown_type_becomes_default_witness :
  _values bam_catalogue !! "b" = None /\
  "bam" <> "vcf" /\ "bam" <> "default" /\
  (Data_getitem "b" bam_catalogue world0).1.1 = inl (KeyError "bam") /\
  (Data_getitem "b" (Data_getitem "b" bam_catalogue world0).1.2 world0).1.1
  = inr (VFile (mkDataFile DataFileCls None None None None 0 (PathStr "/data/a.bam"))).
Proof.
  assert (Hv : _values bam_catalogue !! "b" = None) by (vm_compute; reflexivity).
  split; [exact Hv | ]. split; [discriminate | ]. split; [discriminate | ].
  destruct (unknown_type_becomes_default "b" "bam"
              [("path", JStr "/data/a.bam"); ("type", JStr "bam")] bam_catalogue world0)
    as (H1 & _ & H2).
  - exact Hv.
  - reflexivity.
  - reflexivity.
  - discriminate.
  - discriminate.
  - split; [exact H1 | ]. rewrite H2. vm_compute. reflexivity.
Defined.

Lemma getitem_builds_entry_witness :
  let r := Data_getitem "v" vcf_catalogue world0 in
  let f := mkDataFile VcfDataFileCls None None None None 0 (PathStr "/data/a.vcf") in
  _values vcf_catalogue !! "v" = None /\
  r = (inr (VFile f), r.1.2, r.2) /\
  DATA_TYPES (JStr "vcf") = inr (klass f) /\
  http_headers f = data_http_headers vcf_catalogue.
Proof.
  intros r f.
  assert (Hv : _values vcf_catalogue !! "v" = None) by (vm_compute; reflexivity).
  assert (Hr : r = (inr (VFile f), r.1.2, r.2)) by (vm_compute; reflexivity).
  split; [exact Hv | ]. split; [exact Hr | ].
  destruct (getitem_builds_entry "v" [("path", JStr "/data/a.vcf"); ("type", JStr "vcf")]
              vcf_catalogue r.1.2 f world0 r.2 Hv eq_refl Hr) as (H1 & H2 & _).
  split; [exact H1 | exact H2].
Defined.

Lemma get_cromwell_outputs_span_witness :
  let next := "  " +:+ Json.quote "outputs" +:+ ": {" in
  let body := [ "    " +:+ Json.quote "wf.out_txt" +:+ ": " +:+ Json.quote "/run/out.txt" +:+ ",";
                "    " +:+ Json.quote "wf.count" +:+ ": 5";
                "  },";
                "  " +:+ Json.quote "id" +:+ ": " +:+ Json.quote "2f8bb5c1" ] in
  Txt.splitlines engine_output
  = ["[2019-01-01 00:00:00,00] [info] Running with database"]
    ++ "{" :: next :: body ++ "}" :: ["[2019-01-01 00:00:05,00] [info] Workflow finished"] /\
  Txt.startswith outputs_marker (Txt.lstrip next) = true /\
  get_cromwell_outputs (reference (prints "")) engine_output
  = inr (JDict [("wf.out_txt", JStr "/run/out.txt"); ("wf.count", JInt 5)]).
Proof.
  intros next body.
  assert (Hlines : Txt.splitlines engine_output
            = ["[2019-01-01 00:00:00,00] [info] Running with database"]
              ++ "{" :: next :: body ++ "}" :: ["[2019-01-01 00:00:05,00] [info] Workflow finished"])
    by (vm_compute; reflexivity).
  assert (Hnext : Txt.startswith outputs_marker (Txt.lstrip next) = true)
    by (vm_compute; reflexivity).
  split; [exact Hlines | ]. split; [exact Hnext | ].
  rewrite (get_cromwell_outputs_span (reference (prints "")) engine_output next _ body _ Hlines).
  - vm_compute. reflexivity.
  - constructor; [discriminate | constructor].
  - exact Hnext.
  - repeat constructor; discriminate.
Defined.

Lemma no_outputs_span_assertion_error_witness :
  let next := "  " +:+ Json.quote "outputs" +:+ ": {" in
  let unopened := "{" +:+ Txt.chr Txt.LF +:+ "}" +:+ Txt.chr Txt.LF in
  let unclosed := Txt.unlines ["log"; "{"; next; "    " +:+ Json.quote "wf.n" +:+ ": 1"] in
  Txt.splitlines unopened = ["{"; "}"] /\
  get_cromwell_outputs (reference (prints "")) unopened
  = inl (AssertionError "No outputs JSON found in Cromwell stdout") /\
  Txt.splitlines unclosed = ["log"] ++ "{" :: next :: ["    " +:+ Json.quote "wf.n" +:+ ": 1"] /\
  get_cromwell_outputs (reference (prints "")) unclosed
  = inl (AssertionError "No outputs JSON found in Cromwell stdout").
Proof.
  intros next unopened unclosed.
  assert (Hlines : Txt.splitlines unclosed
                   = ["log"] ++ "{" :: next :: ["    " +:+ Json.quote "wf.n" +:+ ": 1"])
    by (vm_compute; reflexivity).
  split; [reflexivity | ]. split; [ | split; [exact Hlines | ]].
  - apply (proj1 (no_outputs_span_assertion_error (reference (prints "")) unopened)).
    intros [| [| j]] Hj; [ | discriminate Hj | discriminate Hj].
    exists "}". split; reflexivity.
  - apply (proj2 (no_outputs_span_assertion_error (reference (prints "")) unclosed) _ _ _ Hlines).
    + apply List.Forall_cons; [discriminate | apply List.Forall_nil].
    + vm_compute. reflexivity.
    + apply List.Forall_cons; [split; discriminate | apply List.Forall_nil].
Defined.

Lemma get_path_idempotent_witness :
  OsPath.isabs (project_root harness0) = true /\
  _get_path harness0 (_get_path harness0 "tests/wf.wdl") = _get_path harness0 "tests/wf.wdl" /\
  _get_path harness0 "tests/wf.wdl" = "/proj/tests/wf.wdl".
Proof.
  split; [reflexivity | ].
  destruct (get_path_idempotent harness0 "tests/wf.wdl" eq_refl) as (_ & H & _).
  split; [exact H | reflexivity].
Defined.

Lemma chdir_scope_witness :
  let w := disk [("/f", "x")] in
  cwd w ∈ dirs w /\ "/tmp" ∈ dirs w /\
  (chdir "/tmp" failing_body w).1 = inl (Exception_ "boom") /\
  cwd (chdir "/tmp" failing_body w).2 = "/" /\
  chdir "/nowhere" failing_body w = (inl (FileNotFoundError "/nowhere"), w) /\
  chdir "/f" failing_body w = (inl (NotADirectoryError "/f"), w).
Proof.
  intros w.
  assert (Hcur : cwd w ∈ dirs w) by (apply (bool_decide_unpack _); vm_compute; exact I).
  assert (Htmp : "/tmp" ∈ dirs w) by (apply (bool_decide_unpack _); vm_compute; exact I).
  assert (Hno : "/nowhere" ∉ dirs w) by (apply (bool_decide_unpack _); vm_compute; exact I).
  assert (Hf : "/f" ∉ dirs w) by (apply (bool_decide_unpack _); vm_compute; exact I).
  split; [exact Hcur | ]. split; [exact Htmp | ].
  destruct (chdir_scope "/tmp" failing_body w Hcur) as [_ Hrun].
  destruct (chdir_scope "/nowhere" failing_body w Hcur) as [Hmiss _].
  destruct (chdir_scope "/f" failing_body w Hcur) as [Hfile _].
  destruct (Hrun Htmp) as [Hback _].
  destruct Hback as [Heq Hcwd].
  { apply (bool_decide_unpack _). vm_compute. exact I. }
  split; [rewrite Heq; reflexivity | ]. split; [exact Hcwd | ]. split.
  - destruct (Hmiss Hno) as (Hrun1 & _ & Hnone). rewrite Hrun1, Hnone; reflexivity.
  - destruct (Hfile Hf) as (Hrun2 & Hreg & _). rewrite Hrun2, Hreg; [reflexivity | ].
    vm_compute. eauto.
Defined.

Lemma workflow_runner_runs_in_execution_dir_witness :
  let w := disk [("/f", "x")] in
  let X := reference (prints engine_output) in
  cwd w ∈ dirs w /\ "/tmp" ∈ dirs w /\
  Fixtures.workflow_runner X harness0 "/f" "wf.wdl" "wf" [] [("count", VJson (JInt 5))] w
  = (inl (NotADirectoryError "/f"), w) /\
  (Fixtures.workflow_runner X harness0 "/tmp" "wf.wdl" "wf" [] [("count", VJson (JInt 5))] w).1
  = inr tt /\
  (Fixtures.workflow_runner X harness0 "/tmp" "wf.wdl" "wf" [] [("count", VJson (JInt 6))] w).1
  = inl (AssertionError "") /\
  cwd (Fixtures.workflow_runner X harness0 "/tmp" "wf.wdl" "wf" [] [("count", VJson (JInt 5))]
         w).2 = "/".
Proof.
  intros w X.
  assert (Hcur : cwd w ∈ dirs w) by (apply (bool_decide_unpack _); vm_compute; exact I).
  assert (Htmp : "/tmp" ∈ dirs w) by (apply (bool_decide_unpack _); vm_compute; exact I).
  assert (Hf : "/f" ∉ dirs w) by (apply (bool_decide_unpack _); vm_compute; exact I).
  split; [exact Hcur | ]. split; [exact Htmp | ].
  destruct (workflow_runner_runs_in_execution_dir X harness0 "/f" "wf.wdl" "wf" []
              [("count", VJson (JInt 5))] w Hcur) as [Hmiss _].
  destruct (workflow_runner_runs_in_execution_dir X harness0 "/tmp" "wf.wdl" "wf" []
              [("count", VJson (JInt 5))] w Hcur) as [_ Hrun5].
  destruct (workflow_runner_runs_in_execution_dir X harness0 "/tmp" "wf.wdl" "wf" []
              [("count", VJson (JInt 6))] w Hcur) as [_ Hrun6].
  split; [ | split; [ | split]].
  - destruct (Hmiss Hf) as (Hrun & Hreg & _). rewrite Hrun, Hreg; [reflexivity | ].
    vm_compute. eauto.
  - rewrite (Hrun5 Htmp); [vm_compute; reflexivity | ].
    apply (bool_decide_unpack _). vm_compute. exact I.
  - rewrite (Hrun6 Htmp); [vm_compute; reflexivity | ].
    apply (bool_decide_unpack _). vm_compute. exact I.
  - rewrite (Hrun5 Htmp); [reflexivity | ].
    apply (bool_decide_unpack _). vm_compute. exact I.
Defined.

Lemma env_map_keeps_set_variables_witness :
  let w := World ∅ {[ "/" ]} (list_to_map [("HTTP_PROXY", ""); ("HTTPS_PROXY", "proxy:3128")])
                 "/" 0 [] [] in
  NoDup (map fst Fixtures.proxy_map) /\
  Fixtures.proxies w = (inr [("https", "proxy:3128")], w) /\
  exists env_map, Fixtures._env_map Fixtures.proxy_map w = (inr env_map, w) /\
                  assoc "http" env_map = None.
Proof.
  intros w.
  assert (Hnd : NoDup (map fst Fixtures.proxy_map))
    by (apply (bool_decide_unpack _); vm_compute; exact I).
  split; [exact Hnd | ]. split; [vm_compute; reflexivity | ].
  destruct (env_map_keeps_set_variables Fixtures.proxy_map w Hnd) as (env_map & Hrun & Hspec).
  exists env_map. split; [exact Hrun | ].
  destruct (assoc "http" env_map) as [v | ] eqn:E; [ | reflexivity].
  apply Hspec in E as (ev & Hev & Hval & Hne).
  injection Hev as <-. vm_compute in Hval. injection Hval as <-. congruence.
Defined.

Lemma nested_inputs_written_as_paths_witness :
  let inputs := [("files", VList [VFile vcf_a; VFile vcf_b])] in
  let text := Json.dumps (JDict [("wf.files", JList [JStr "/a.vcf"; JStr "/b.vcf"])]) in
  Forall (fun e => ready_deep vcf_disk e.2) inputs /\
  exists bound w',
    make_inputs (reference (prints "")) true "/run/in.json" "wf" inputs vcf_disk
    = (inr bound, w') /\
    files w' !! "/run/in.json" = Some text.
Proof.
  intros inputs text.
  assert (Hready : Forall (fun e => ready_deep vcf_disk e.2) inputs).
  { apply List.Forall_cons; [ | apply List.Forall_nil]. cbn.
    split; [ | split; [ | exact I]].
    - exists "/a.vcf". split; [reflexivity | ]. eexists. vm_compute. reflexivity.
    - exists "/b.vcf". split; [reflexivity | ]. eexists. vm_compute. reflexivity. }
  split; [exact Hready | ].
  destruct (nested_inputs_written_as_paths (reference (prints "")) "/run/in.json" "wf" inputs
              vcf_disk Hready) as (bound & w' & Hrun & Hfile & _).
  exists bound, w'. split; [exact Hrun | exact Hfile].
Defined.

Lemma expected_list_of_files_never_matches_witness :
  assoc ("wf" +:+ "." +:+ "out") [("wf.out", JList [JStr "/a.vcf"])]
  = Some (JList [JStr "/a.vcf"]) /\
  In (VFile vcf_a) [VFile vcf_a] /\
  check_expected (reference (prints "")) "wf" (JDict [("wf.out", JList [JStr "/a.vcf"])])
    [("out", VList [VFile vcf_a])] vcf_disk
  = (inl (AssertionError ""), vcf_disk).
Proof.
  assert (Hin : In (VFile vcf_a) [VFile vcf_a]) by (left; reflexivity).
  split; [reflexivity | ]. split; [exact Hin | ].
  exact (expected_list_of_files_never_matches (reference (prints "")) "wf" "out"
           [("wf.out", JList [JStr "/a.vcf"])] [VFile vcf_a] vcf_a (JList [JStr "/a.vcf"]) []
           vcf_disk eq_refl Hin).
Defined.

Lemma existing_imports_file_is_not_passed_witness :
  let w := disk [("/run/imports.zip", "PK")] in
  let r := prepare (reference (prints "")) harness1 "wf.wdl" "wf" [] kwargs1 w in
  files w !! abspath_in w "/run/imports.zip" = Some "PK" /\
  exists cmd w', r = (inr cmd, w') /\
    exists file, cmd = command_line harness1 "" "" file "" "/proj/wf.wdl".
Proof.
  intros w r.
  assert (Hz : files w !! abspath_in w "/run/imports.zip" = Some "PK") by (vm_compute; reflexivity).
  split; [exact Hz | ].
  destruct r as [[e | cmd] w'] eqn:Er; [vm_compute in Er; discriminate Er | ].
  exists cmd, w'. split; [reflexivity | ].
  exact (existing_imports_file_is_not_passed (reference (prints "")) harness1 "wf.wdl" "wf" []
           kwargs1 "/run/imports.zip" "PK" cmd w w' eq_refl eq_refl Hz Er).
Defined.

Lemma project_root_two_levels_up_witness :
  plain "proj" /\ plain "task" /\ plain "tests" /\ plain "test_x.py" /\
  Fixtures.project_root "/proj/task/tests/test_x.py" world0 = (inr "/proj", world0).
Proof.
  assert (H1 : plain "proj") by (repeat split; discriminate).
  assert (H2 : plain "task") by (repeat split; discriminate).
  assert (H3 : plain "tests") by (repeat split; discriminate).
  assert (H4 : plain "test_x.py") by (repeat split; discriminate).
  split; [exact H1 | ]. split; [exact H2 | ]. split; [exact H3 | ]. split; [exact H4 | ].
  assert (Hds : Forall plain ["proj"])
    by (apply List.Forall_cons; [exact H1 | apply List.Forall_nil]).
  exact (project_root_two_levels_up ["proj"] "task" "tests" "test_x.py" world0 Hds H2 H3 H4).
Defined.

Lemma run_workflow_working_directory_witness :
  let w := disk [("/f", "x")] in
  (forall cmd w, cwd (delegator_run (reference (prints "")) cmd w).2 = cwd w) /\
  "/tmp" ∈ dirs w /\ ("/f" ∉ dirs w) /\
  cwd (run_workflow (reference (prints "")) harness0 "wf.wdl" "wf" [] []
         (mkKwargs (Some "/tmp") None None None None) w).2 = "/tmp" /\
  cwd (run_workflow (reference (prints "")) harness0 "wf.wdl" "wf" [] []
         (mkKwargs None None None None None) w).2 = "/" /\
  (run_workflow (reference (prints "")) harness0 "wf.wdl" "wf" [] []
     (mkKwargs (Some "/f") None None None None) w).1 = inl (NotADirectoryError "/f") /\
  (run_workflow (reference (prints "")) harness0 "wf.wdl" "wf" [] []
     (mkKwargs (Some "/nowhere") None None None None) w).1
  = inl (FileNotFoundError "/nowhere").
Proof.
  intros w.
  assert (He : forall cmd w, cwd (delegator_run (reference (prints "")) cmd w).2 = cwd w)
    by (intros cmd w0; reflexivity).
  assert (Htmp : "/tmp" ∈ dirs w) by (apply (bool_decide_unpack _); vm_compute; exact I).
  assert (Hf : "/f" ∉ dirs w) by (apply (bool_decide_unpack _); vm_compute; exact I).
  assert (Hno : "/nowhere" ∉ dirs w) by (apply (bool_decide_unpack _); vm_compute; exact I).
  split; [exact He | ]. split; [exact Htmp | ]. split; [exact Hf | ].
  split; [ | split; [ | split]].
  - destruct (run_workflow_working_directory (reference (prints "")) He harness0 "wf.wdl" "wf"
                [] [] (mkKwargs (Some "/tmp") None None None None) w) as (_ & H & _).
    exact (H "/tmp" eq_refl Htmp).
  - destruct (run_workflow_working_directory (reference (prints "")) He harness0 "wf.wdl" "wf"
                [] [] (mkKwargs None None None None None) w) as (H & _).
    exact (H eq_refl).
  - destruct (run_workflow_working_directory (reference (prints "")) He harness0 "wf.wdl" "wf"
                [] [] (mkKwargs (Some "/f") None None None None) w) as (_ & _ & H).
    destruct (H "/f" eq_refl Hf) as (Hrun & Hreg & _). rewrite Hrun, Hreg; [reflexivity | ].
    vm_compute. eauto.
  - destruct (run_workflow_working_directory (reference (prints "")) He harness0 "wf.wdl" "wf"
                [] [] (mkKwargs (Some "/nowhere") None None None None) w) as (_ & _ & H).
    destruct (H "/nowhere" eq_refl Hno) as (Hrun & _ & Hnone & _).
    rewrite Hrun, Hnone; reflexivity.
Defined.

Lemma run_workflow_in_tempdir_leaves_removed_directory_witness :
  let w0 := record_log WARNING
              "Function/method run_workflow_in_tempdir is deprecated and will be removed" world0 in
  let r := run_workflow_in_tempdir (reference (prints "")) harness0 "wf.wdl" "wf" [] []
             (mkKwargs None None None None None) world0 in
  (forall cmd w, cwd (delegator_run (reference (prints "")) cmd w).2 = cwd w) /\
  Tempfile.mkdtemp w0 = (inr "/tmp/tmp0", (Tempfile.mkdtemp w0).2) /\
  cwd r.2 = "/tmp/tmp0" /\ ("/tmp/tmp0" ∉ dirs r.2).
Proof.
  intros w0 r.
  assert (He : forall cmd w, cwd (delegator_run (reference (prints "")) cmd w).2 = cwd w)
    by (intros cmd w; reflexivity).
  assert (Hmk : Tempfile.mkdtemp w0 = (inr "/tmp/tmp0", (Tempfile.mkdtemp w0).2))
    by (vm_compute; reflexivity).
  split; [exact He | ]. split; [exact Hmk | ].
  exact (run_workflow_in_tempdir_leaves_removed_directory (reference (prints "")) He harness0
           "wf.wdl" "wf" [] [] (mkKwargs None None None None None) world0 _ "/tmp/tmp0"
           eq_refl Hmk).
Defined.
